(** * CuttingLabs segmentation core: a shallow embedding and its properties

    The development follows the Python sources of the backend:
    - [segmenter/services/pipeline.py]    geometry, scoring, selection,
                                          provider fallback, ROI refinement;
    - [segmenter/services/postprocess.py] mask cleanup and alpha compositing;
    - [segmenter/services/utils.py]       base64 payload decoding;
    - [segmenter/services/gemini.py]      quota retry loop of the cloud provider.

    Conventions of the embedding.
    - A Python [float] is a [pyfloat]: a rational while the value is inside
      the binary64 range, or one of the three special values.  Arithmetic on
      finite values is exact (binary rounding error is not modelled); a result
      that leaves the binary64 range becomes an infinity, as in IEEE 754.
    - A Python [int] is a [Z].
    - A call that may raise returns a [Res]: [Ok v] or [Raise e].
    - [str] is the list of its characters; [bytes] is [list byte]; the
      message of an exception is a [string].
    - Functions of third-party libraries (PIL, numpy, cv2, the provider SDKs)
      are parameters of the sections that use them. *)

From Stdlib Require Import ZArith QArith Qround Qabs Lia Lqa List String Ascii Bool.
From Stdlib.Strings Require Import Byte.
From Stdlib Require Import DecimalString.
Import ListNotations.

Set Warnings "-register-all".

Local Open Scope Z_scope.

(** ** Exceptions and results *)

Inductive exn : Type :=
| ValueError (msg : string)
| OverflowError (msg : string)
| TypeError (msg : string)
| RuntimeError (msg : string)
| ZeroDivisionError (msg : string)
| QuotaExceededError (retry_after : Q) (msg : string)
| ApiTimeoutError (msg : string)
| InferenceError (msg : string)
| ModelLoadError (msg : string)
| OtherException (class_name msg : string).

(** [str(e)] *)
Definition exn_str (e : exn) : string :=
  match e with
  | ValueError m | OverflowError m | TypeError m | RuntimeError m
  | ZeroDivisionError m
  | QuotaExceededError _ m | ApiTimeoutError m | InferenceError m
  | ModelLoadError m | OtherException _ m => m
  end.

Inductive Res (A : Type) : Type :=
| Ok (a : A)
| Raise (e : exn).
Arguments Ok {A} a.
Arguments Raise {A} e.

Definition res_bind {A B} (r : Res A) (k : A -> Res B) : Res B :=
  match r with
  | Ok a => k a
  | Raise e => Raise e
  end.

Declare Scope res_scope.
Delimit Scope res_scope with res.
Notation "x <- c ;; k" := (res_bind c (fun x => k))
  (at level 61, c at next level, right associativity) : res_scope.

(** ** Python floats *)

Module PyFloat.

Inductive pyfloat : Type :=
| Fin (q : Q)
| PosInf
| NegInf
| NaN.

(** [fval f q]: the float [f] is finite and its value is the rational [q]. *)
Definition fval (f : pyfloat) (q : Q) : Prop :=
  match f with Fin q' => (q' == q)%Q | _ => False end.


(** Largest finite binary64 value, [(2^53 - 1) * 2^971]. *)
Definition dbl_max : Q := inject_Z ((2 ^ 53 - 1) * 2 ^ 971).

(** Result of a float operation whose exact value is [q]; finite results are
    kept as reduced fractions. *)
Definition fl (q : Q) : pyfloat :=
  if Qle_bool (Qabs q) dbl_max then Fin (Qred q)
  else if Qle_bool 0%Q q then PosInf else NegInf.

Definition is_finite (f : pyfloat) : bool :=
  match f with Fin _ => true | _ => false end.


Definition fneg (a : pyfloat) : pyfloat :=
  match a with
  | Fin q => Fin (- q)
  | PosInf => NegInf
  | NegInf => PosInf
  | NaN => NaN
  end.

(** [float(n)] for a Python int [n] (image dimensions and pixel coordinates,
    far inside the binary64 range). *)
Definition of_int (n : Z) : pyfloat := Fin (inject_Z n).

(** An infinity of sign [pos] times the finite value [q]. *)
Definition inf_times (pos : bool) (q : Q) : pyfloat :=
  if Qeq_bool q 0 then NaN
  else if Qle_bool 0 q then (if pos then PosInf else NegInf)
  else (if pos then NegInf else PosInf).

Definition fmul (a b : pyfloat) : pyfloat :=
  match a, b with
  | NaN, _ | _, NaN => NaN
  | Fin x, Fin y => fl (x * y)
  | PosInf, Fin y | Fin y, PosInf => inf_times true y
  | NegInf, Fin y | Fin y, NegInf => inf_times false y
  | PosInf, PosInf | NegInf, NegInf => PosInf
  | PosInf, NegInf | NegInf, PosInf => NegInf
  end.

Definition fadd (a b : pyfloat) : pyfloat :=
  match a, b with
  | NaN, _ | _, NaN => NaN
  | Fin x, Fin y => fl (x + y)
  | PosInf, NegInf | NegInf, PosInf => NaN
  | PosInf, _ | _, PosInf => PosInf
  | NegInf, _ | _, NegInf => NegInf
  end.

Definition fsub (a b : pyfloat) : pyfloat := fadd a (fneg b).

(** [a / b]; Python raises on a zero divisor. *)
Definition fdiv (a b : pyfloat) : Res pyfloat :=
  match b with
  | Fin y =>
      if Qeq_bool y 0 then Raise (ZeroDivisionError "float division by zero")
      else Ok (match a with
               | Fin x => fl (x / y)
               | PosInf => inf_times true y
               | NegInf => inf_times false y
               | NaN => NaN
               end)
  | NaN => Ok NaN
  | PosInf | NegInf =>
      Ok (match a with Fin _ => Fin 0 | _ => NaN end)
  end.

(** [a / d] for a float literal [d] different from zero. *)
Definition fdiv_lit (a : pyfloat) (d : Q) : pyfloat :=
  match a with
  | Fin q => fl (q / d)
  | PosInf => inf_times true d
  | NegInf => inf_times false d
  | NaN => NaN
  end.

(** [a * n] for a Python int [n]. *)
Definition fmul_int (a : pyfloat) (n : Z) : pyfloat := fmul a (of_int n).

(** The comparison [a < b] of two floats; false as soon as one is NaN. *)
Definition flt (a b : pyfloat) : bool :=
  match a, b with
  | NaN, _ | _, NaN => false
  | Fin x, Fin y => negb (Qle_bool y x)
  | NegInf, NegInf | PosInf, _ | _, NegInf => false
  | NegInf, _ | _, PosInf => true
  end.

(** The builtins [min(a, b)] and [max(a, b)]: the first argument is kept
    unless the second compares strictly below (above) it. *)
Definition py_min (a b : pyfloat) : pyfloat := if flt b a then b else a.
Definition py_max (a b : pyfloat) : pyfloat := if flt a b then b else a.

(** Round half to even, the rounding of Python 3's [round]. *)
Definition round_half_even (q : Q) : Z :=
  let f := Qfloor q in
  let d := (q - inject_Z f)%Q in
  match (d ?= 1 # 2)%Q with
  | Lt => f
  | Gt => f + 1
  | Eq => if Z.even f then f else f + 1
  end.

(** [int(round(x))]: [round] raises on NaN and on the infinities. *)
Definition py_round (x : pyfloat) : Res Z :=
  match x with
  | Fin q => Ok (round_half_even q)
  | PosInf | NegInf => Raise (OverflowError "cannot convert float infinity to integer")
  | NaN => Raise (ValueError "cannot convert float NaN to integer")
  end.

End PyFloat.
Export PyFloat.

(** ** Coordinate and geometry utilities (pipeline.py, postprocess.py) *)

Module Geometry.

Local Open Scope res_scope.

(** pipeline.py, [_box_to_px]; [box_2d] is the list [[y0, x0, y1, x1]], already
    a list of floats, so only the length test of the guard can fail. *)
Definition _box_to_px (box_2d : list pyfloat) (width height : Z)
  : Res (Z * Z * Z * Z) :=
  match box_2d with
  | [y0; x0; y1; x1] =>
      x0_px <- py_round (fmul_int (fdiv_lit x0 1000%Q) width) ;;
      x1_px <- py_round (fmul_int (fdiv_lit x1 1000%Q) width) ;;
      y0_px <- py_round (fmul_int (fdiv_lit y0 1000%Q) height) ;;
      y1_px <- py_round (fmul_int (fdiv_lit y1 1000%Q) height) ;;
      let x0_px := Z.max 0 (Z.min (width - 1) x0_px) in
      let x1_px := Z.max 1 (Z.min width x1_px) in
      let y0_px := Z.max 0 (Z.min (height - 1) y0_px) in
      let y1_px := Z.max 1 (Z.min height y1_px) in
      let x1_px := if x1_px <=? x0_px then Z.min width (x0_px + 1) else x1_px in
      let y1_px := if y1_px <=? y0_px then Z.min height (y0_px + 1) else y1_px in
      Ok (x0_px, y0_px, x1_px, y1_px)
  | _ => Raise (ValueError "box_2d must be a list of four numbers [y0,x0,y1,x1]")
  end.

(** postprocess.py, [_normalize_box]: the same body as [_box_to_px]. *)
Definition _normalize_box (box_2d : list pyfloat) (width height : Z)
  : Res (Z * Z * Z * Z) :=
  match box_2d with
  | [y0; x0; y1; x1] =>
      x0_px <- py_round (fmul_int (fdiv_lit x0 1000%Q) width) ;;
      x1_px <- py_round (fmul_int (fdiv_lit x1 1000%Q) width) ;;
      y0_px <- py_round (fmul_int (fdiv_lit y0 1000%Q) height) ;;
      y1_px <- py_round (fmul_int (fdiv_lit y1 1000%Q) height) ;;
      let x0_px := Z.max 0 (Z.min (width - 1) x0_px) in
      let x1_px := Z.max 1 (Z.min width x1_px) in
      let y0_px := Z.max 0 (Z.min (height - 1) y0_px) in
      let y1_px := Z.max 1 (Z.min height y1_px) in
      let x1_px := if x1_px <=? x0_px then Z.min width (x0_px + 1) else x1_px in
      let y1_px := if y1_px <=? y0_px then Z.min height (y0_px + 1) else y1_px in
      Ok (x0_px, y0_px, x1_px, y1_px)
  | _ => Raise (ValueError "box_2d must be a list of four numbers [y0,x0,y1,x1]")
  end.

(** pipeline.py, [_map_box_to_full]; the result is the list
    [[y0, x0, y1, x1]] in normalized full-image coordinates. *)
Definition _map_box_to_full (roi_box_2d : list pyfloat)
    (roi_bounds : Z * Z * Z * Z) (full_size : Z * Z) : Res (list pyfloat) :=
  let '(left_, top, right_, bottom) := roi_bounds in
  let roi_w := Z.max 1 (right_ - left_) in
  let roi_h := Z.max 1 (bottom - top) in
  let '(full_w, full_h) := full_size in
  match roi_box_2d with
  | [y0; x0; y1; x1] =>
      let fx0 := fadd (of_int left_) (fmul_int (fdiv_lit x0 1000%Q) roi_w) in
      let fx1 := fadd (of_int left_) (fmul_int (fdiv_lit x1 1000%Q) roi_w) in
      let fy0 := fadd (of_int top) (fmul_int (fdiv_lit y0 1000%Q) roi_h) in
      let fy1 := fadd (of_int top) (fmul_int (fdiv_lit y1 1000%Q) roi_h) in
      let fx0 := py_max (Fin 0) (py_min (of_int full_w) fx0) in
      let fx1 := py_max (Fin 0) (py_min (of_int full_w) fx1) in
      let fy0 := py_max (Fin 0) (py_min (of_int full_h) fy0) in
      let fy1 := py_max (Fin 0) (py_min (of_int full_h) fy1) in
      ny0 <- fdiv fy0 (of_int full_h) ;;
      nx0 <- fdiv fx0 (of_int full_w) ;;
      ny1 <- fdiv fy1 (of_int full_h) ;;
      nx1 <- fdiv fx1 (of_int full_w) ;;
      Ok [fmul ny0 (Fin 1000); fmul nx0 (Fin 1000);
          fmul ny1 (Fin 1000); fmul nx1 (Fin 1000)]
  | _ => Raise (ValueError "not enough values to unpack (expected 4)")
  end.

End Geometry.

(** ** Base64 payloads (utils.py) *)

Module Base64.

(** A [str] is the list of its characters. *)
Definition str : Type := list ascii.

Definition lit (s : string) : str := list_ascii_of_string s.

Definition byte_val (b : byte) : Z := Z.of_N (Byte.to_N b).

Definition byte_of_Z (z : Z) : byte :=
  match Byte.of_N (Z.to_N (z mod 256)) with
  | Some b => b
  | None => x00
  end.

(** *** The standard library codec

    [base64.b64encode] and [base64.b64decode(s, validate=False)] belong to
    the Python standard library; they are modelled after RFC 4648 and after
    the non-strict loop of [binascii.a2b_base64] in CPython 3.11. *)

Definition b64_alphabet : str :=
  lit "ABCDEFGHIJKLMNOPQRSTUVWXYZabcdefghijklmnopqrstuvwxyz0123456789+/".

Definition pad_char : ascii := "="%char.

(** [table_b2a_base64[n]] *)
Definition b2a (n : Z) : ascii := nth (Z.to_nat n) b64_alphabet pad_char.

Fixpoint index_of (c : ascii) (l : str) (i : Z) : option Z :=
  match l with
  | [] => None
  | d :: l' => if Ascii.eqb c d then Some i else index_of c l' (i + 1)
  end.

(** [table_a2b_base64[c]]; 255 stands for the entries that are [-1]. *)
Definition a2b (c : ascii) : Z :=
  match index_of c b64_alphabet 0 with
  | Some i => i
  | None => 255
  end.

Fixpoint b64encode (data : list byte) : str :=
  match data with
  | [] => []
  | [a] =>
      let a := byte_val a in
      [b2a (Z.shiftr a 2); b2a (Z.shiftl (Z.land a 3) 4); pad_char; pad_char]
  | [a; b] =>
      let a := byte_val a in
      let b := byte_val b in
      [b2a (Z.shiftr a 2);
       b2a (Z.lor (Z.shiftl (Z.land a 3) 4) (Z.shiftr b 4));
       b2a (Z.shiftl (Z.land b 15) 2);
       pad_char]
  | a :: b :: c :: rest =>
      let a := byte_val a in
      let b := byte_val b in
      let c := byte_val c in
      b2a (Z.shiftr a 2)
      :: b2a (Z.lor (Z.shiftl (Z.land a 3) 4) (Z.shiftr b 4))
      :: b2a (Z.lor (Z.shiftl (Z.land b 15) 2) (Z.shiftr c 6))
      :: b2a (Z.land c 63)
      :: b64encode rest
  end.

(** [*bin_data++ = b], in front of what the rest of the loop produces. *)
Definition emit (b : byte) (r : Res (list byte)) : Res (list byte) :=
  match r with
  | Ok l => Ok (b :: l)
  | Raise e => Raise e
  end.

(** The loop of [binascii.a2b_base64] with [strict_mode] off: [quad_pos] is
    the position inside the current group of four characters, [leftchar] the
    bits left over from the previous character, [pads] the number of
    consecutive pad characters seen. *)
Fixpoint a2b_loop (s : str) (quad_pos : nat) (leftchar : Z) (pads : nat)
  : Res (list byte) :=
  match s with
  | [] =>
      match quad_pos with
      | O => Ok []
      | 1%nat => Raise (ValueError "Invalid base64-encoded string")
      | _ => Raise (ValueError "Incorrect padding")
      end
  | this_ch :: rest =>
      if Ascii.eqb this_ch pad_char then
        if ((2 <=? quad_pos)%nat && (4 <=? quad_pos + (pads + 1))%nat)%bool
        then Ok []
        else a2b_loop rest quad_pos leftchar
               (if (2 <=? quad_pos)%nat then (pads + 1)%nat else pads)
      else
        let v := a2b this_ch in
        if 64 <=? v then a2b_loop rest quad_pos leftchar pads
        else
          match quad_pos with
          | O => a2b_loop rest 1 v 0
          | 1%nat =>
              emit (byte_of_Z (Z.lor (Z.shiftl leftchar 2) (Z.shiftr v 4)))
                   (a2b_loop rest 2 (Z.land v 15) 0)
          | 2%nat =>
              emit (byte_of_Z (Z.lor (Z.shiftl leftchar 4) (Z.shiftr v 2)))
                   (a2b_loop rest 3 (Z.land v 3) 0)
          | _ =>
              emit (byte_of_Z (Z.lor (Z.shiftl leftchar 6) v))
                   (a2b_loop rest 0 0 0)
          end
  end.

Definition is_ascii7 (c : ascii) : bool := (nat_of_ascii c <? 128)%nat.

(** [base64.b64decode(s, validate=False)] on a [str]. *)
Definition b64decode (s : str) : Res (list byte) :=
  if forallb is_ascii7 s then a2b_loop s 0 0 0
  else Raise (ValueError "string argument should contain only ASCII characters").

(** *** String helpers *)

(** Whitespace of [str.strip()] and of the pattern [\s], for the characters
    below 256. *)
Definition is_space (c : ascii) : bool :=
  let n := nat_of_ascii c in
  ((9 <=? n) && (n <=? 13) || (28 <=? n) && (n <=? 32)
   || (n =? 133) || (n =? 160))%nat%bool.

Fixpoint lstrip (s : str) : str :=
  match s with
  | [] => []
  | c :: s' => if is_space c then lstrip s' else s
  end.

Definition rstrip (s : str) : str := rev (lstrip (rev s)).

(** [s.strip()] *)
Definition strip (s : str) : str := rstrip (lstrip s).

(** [s.startswith(prefix)] *)
Fixpoint startswith (prefix s : str) : bool :=
  match prefix, s with
  | [], _ => true
  | _ :: _, [] => false
  | p :: prefix', c :: s' => Ascii.eqb p c && startswith prefix' s'
  end.

Fixpoint after_first (sep : ascii) (s : str) : option str :=
  match s with
  | [] => None
  | c :: s' => if Ascii.eqb c sep then Some s' else after_first sep s'
  end.

(** [s.split(',', 1)[-1]] *)
Definition split_comma_last (s : str) : str :=
  match after_first ","%char s with
  | Some tail => tail
  | None => s
  end.

(** [re.sub(r'\s+', '', s)] *)
Definition remove_ws (s : str) : str := filter (fun c => negb (is_space c)) s.

(** utils.py, [decode_base64_bytes]; the argument is a [str], so the
    [isinstance] guard holds. *)
Definition decode_base64_bytes (data : str) : Res (list byte) :=
  let cleaned := strip data in
  let cleaned :=
    if startswith (lit "data:") cleaned then split_comma_last cleaned else cleaned in
  let cleaned := remove_ws cleaned in
  match cleaned with
  | [] => Raise (ValueError "Empty base64 payload")
  | _ :: _ =>
      let padding := (List.length cleaned mod 4)%nat in
      let cleaned :=
        if (padding =? 0)%nat then cleaned
        else cleaned ++ repeat pad_char (4 - padding) in
      b64decode cleaned
  end.

End Base64.

(** ** Candidates, scoring and selection (pipeline.py) *)

Module Scoring.

Import Geometry Base64.
Local Open Scope res_scope.

(** A mask payload as the provider's JSON delivers it. *)
Inductive MaskPayload : Type :=
| MNone                                        (* [None], or the key is absent *)
| MStr (s : str)                               (* a base64 string *)
| MArray (rows : list (list pyfloat))          (* a list that numpy reads as a 2-D array *)
| MListOther                                   (* any other list *)
| MDict (entries : list (string * MaskPayload))
| MOther (truthy : bool).                      (* a number or a boolean *)

(** A JSON value where a number is expected; [VNum] covers everything
    [float()] accepts. *)
Inductive PyVal : Type :=
| VNone
| VNum (f : pyfloat)
| VOther.

(** A candidate dict; an optional field is [None] when the key is absent. *)
Record Candidate : Type := mkCandidate {
  label : option str;
  box_2d : list pyfloat;
  mask : MaskPayload;
  confidence : option PyVal;
  provider_score : option PyVal;               (* the key ['score'] *)
  probability : option PyVal
}.

Record Metrics : Type := mkMetrics {
  m_confidence : pyfloat;
  m_center : Q;
  m_area : Q;
  m_rectangularity : Q;
  m_edge : Q;
  m_penalty : Q
}.

(** The dict [enriched]: the candidate with ['score'] and ['metrics'] set. *)
Record Scored : Type := mkScored {
  item : Candidate;
  score : Q;
  metrics : Metrics
}.

(** [min(a, b)] and [max(a, b)] on finite floats. *)
Definition qmin (a b : Q) : Q := if Qle_bool a b then a else b.
Definition qmax (a b : Q) : Q := if Qle_bool b a then a else b.

(** [np.clip(x, 0.0, 1.0)] on a finite value and on a float. *)
Definition clip01 (x : Q) : Q := qmin (qmax x 0) 1.

Definition np_clip01 (x : pyfloat) : pyfloat :=
  match x with
  | Fin q => Fin (clip01 q)
  | PosInf => Fin 1
  | NegInf => Fin 0
  | NaN => NaN
  end.

(** [int(x)] for a finite float: truncation toward zero. *)
Definition py_int (x : Q) : Z := if Qle_bool 0 x then Qfloor x else Qceiling x.

(** The value of a float that is known to be finite. *)
Definition float_value (f : pyfloat) : Q :=
  match f with Fin q => q | _ => 0%Q end.

(** Python truthiness of a mask payload ([if not mask_payload]). *)
Definition payload_truthy (p : MaskPayload) : bool :=
  match p with
  | MNone => false
  | MStr s => match s with [] => false | _ => true end
  | MArray rows => match rows with [] => false | _ => true end
  | MListOther => true
  | MDict entries => match entries with [] => false | _ => true end
  | MOther t => t
  end.

(** [max(range(len(keys)), key=...)]: the running best is replaced only by a
    strictly greater key, so the first maximum wins. *)
Fixpoint argmax_from (keys : list Q) (i best : nat) (best_key : Q) : nat :=
  match keys with
  | [] => best
  | k :: keys' =>
      if Qle_bool k best_key then argmax_from keys' (S i) best best_key
      else argmax_from keys' (S i) i k
  end.

Definition py_argmax (keys : list Q) : Res nat :=
  match keys with
  | [] => Raise (ValueError "max() arg is an empty sequence")
  | k :: keys' => Ok (argmax_from keys' 1 0 k)
  end.

Section WithImage.

(** The image library, numpy and [math.hypot]. *)
Variable Image : Type.
Variable image_size : Image -> Z * Z.
Variable hypot : Q -> Q -> Q.
(** [np.mean] of the gradient magnitude of the grayscale crop of a box. *)
Variable gradient_mean : Image -> Z * Z * Z * Z -> Q.
(** Opening mask bytes, resizing to 128 x 128 and taking
    [np.mean(arr >= 128)]; raises when the bytes are not an image. *)
Variable mask_fill : list byte -> Res Q.
(** Rescaling, clipping and PNG encoding of a 2-D array. *)
Variable array_to_png : list (list pyfloat) -> list byte.

(** [_decode_mask_payload]; the keys of a dict are looked up in the fixed
    order [data, base64, mask, image]. *)
Fixpoint _decode_mask_payload (mask_payload : MaskPayload) : Res (list byte) :=
  match mask_payload with
  | MDict entries =>
      let fix lookup (key : string) (es : list (string * MaskPayload))
          : option (Res (list byte)) :=
        match es with
        | [] => None
        | (k, v) :: es' =>
            if String.eqb k key then Some (_decode_mask_payload v)
            else lookup key es'
        end in
      match lookup "data"%string entries with
      | Some r => r
      | None =>
      match lookup "base64"%string entries with
      | Some r => r
      | None =>
      match lookup "mask"%string entries with
      | Some r => r
      | None =>
      match lookup "image"%string entries with
      | Some r => r
      | None => Raise (ValueError "Invalid mask object")
      end end end end
  | MArray rows => Ok (array_to_png rows)
  | MListOther => Raise (ValueError "Invalid mask array shape")
  | MStr s => decode_base64_bytes s
  | MNone | MOther _ => Raise (ValueError "Invalid mask payload type")
  end.

Definition _center_score (x0 y0 x1 y1 width height : Z) : Q :=
  let cx := (inject_Z (x0 + x1) / 2)%Q in
  let cy := (inject_Z (y0 + y1) / 2)%Q in
  let dx := (cx - inject_Z width / 2)%Q in
  let dy := (cy - inject_Z height / 2)%Q in
  let dist := hypot dx dy in
  let max_dist := hypot (inject_Z width / 2)%Q (inject_Z height / 2)%Q in
  if Qle_bool max_dist 0 then 0%Q
  else qmax 0 (qmin 1 (1 - dist / max_dist)).

Definition _area_score (area_ratio min_ratio max_ratio : Q) : Q :=
  if Qle_bool area_ratio 0 then 0%Q
  else if negb (Qle_bool min_ratio area_ratio)
  then qmax 0 (qmin 1 (area_ratio / min_ratio))
  else if negb (Qle_bool area_ratio max_ratio)
  then qmax 0 (qmin 1 (1 - (area_ratio - max_ratio)
                           / qmax (1 # 1000000) (1 - max_ratio)))
  else 1%Q.

(** [_edge_density]; the crop of a box is [x1 - x0] wide and [y1 - y0] tall,
    and [np.gradient] raises on an axis with fewer than two elements. *)
Definition _edge_density (image : Image) (box_px : Z * Z * Z * Z) : Res Q :=
  let '(x0, y0, x1, y1) := box_px in
  if ((x1 - x0 <=? 0) || (y1 - y0 <=? 0))%bool then Ok 0%Q
  else if ((x1 - x0 <? 2) || (y1 - y0 <? 2))%bool
  then Raise (ValueError "Shape of array too small to calculate a numerical gradient")
  else Ok (clip01 (gradient_mean image box_px / 255)).

Definition _rectangularity (mask_payload : MaskPayload) : Q :=
  if negb (payload_truthy mask_payload) then (1 # 2)%Q
  else
    match (mask_bytes <- _decode_mask_payload mask_payload ;; mask_fill mask_bytes) with
    | Ok fill => clip01 ((fill - (35 # 100)) / (65 # 100))
    | Raise _ => (1 # 2)%Q
    end.

Definition _border_touch_penalty (x0 y0 x1 y1 width height : Z) (allow_touch : bool)
  : Q :=
  if allow_touch then 0%Q
  else
    let margin := Z.max 2 (py_int (inject_Z (Z.min width height) * (1 # 100))) in
    let touches := 0 in
    let touches := if x0 <=? margin then touches + 1 else touches in
    let touches := if y0 <=? margin then touches + 1 else touches in
    let touches := if width - margin <=? x1 then touches + 1 else touches in
    let touches := if height - margin <=? y1 then touches + 1 else touches in
    if 2 <=? touches then (35 # 100)%Q
    else if touches =? 1 then (15 # 100)%Q
    else 0%Q.

(** The weighted sum of [_score_candidate] for finite metrics. *)
Definition weighted_score (focus_mode : string) (conf center area rect edge : Q) : Q :=
  if String.eqb focus_mode "center"
  then ((6 # 10) * center + (2 # 10) * area + (1 # 10) * conf + (1 # 10) * edge)%Q
  else if String.eqb focus_mode "largest"
  then ((6 # 10) * area + (2 # 10) * center + (1 # 10) * conf + (1 # 10) * rect)%Q
  else if String.eqb focus_mode "detailed"
  then ((6 # 10) * edge + (2 # 10) * center + (1 # 10) * area + (1 # 10) * conf)%Q
  else ((3 # 10) * conf + (25 # 100) * center + (2 # 10) * area
        + (15 # 100) * rect + (1 # 10) * edge)%Q.

(** [_score_candidate].  The confidence is the only metric that can be NaN
    ([np.clip] keeps a NaN); it then makes the weighted sum NaN, which
    [min(1.0, .)] turns into 1.0. *)
Definition _score_candidate (candidate : Candidate) (image : Image)
    (focus_mode : string) (allow_border_touch : bool) (area_min area_max : Q)
  : Res (Q * Metrics) :=
  let '(width, height) := image_size image in
  box_px <- _box_to_px (box_2d candidate) width height ;;
  let '(x0, y0, x1, y1) := box_px in
  let box_w := Z.max 1 (x1 - x0) in
  let box_h := Z.max 1 (y1 - y0) in
  let area_ratio :=
    (inject_Z (box_w * box_h) / qmax 1 (inject_Z (width * height)))%Q in
  let conf :=
    match confidence candidate with
    | None | Some VNone =>
        match provider_score candidate with
        | Some v => v
        | None =>
            match probability candidate with
            | Some v => v
            | None => VNum (Fin (1 # 2))
            end
        end
    | Some v => v
    end in
  let conf := match conf with VNum f => f | _ => Fin (1 # 2) end in
  let conf := np_clip01 conf in
  let center := _center_score x0 y0 x1 y1 width height in
  let area := _area_score area_ratio area_min area_max in
  let rect := _rectangularity (mask candidate) in
  edge <- _edge_density image (x0, y0, x1, y1) ;;
  let penalty := _border_touch_penalty x0 y0 x1 y1 width height allow_border_touch in
  let score :=
    match conf with
    | Fin c => Fin (weighted_score focus_mode c center area rect edge - penalty)
    | other => other
    end in
  let score := float_value (py_max (Fin 0) (py_min (Fin 1) score)) in
  Ok (score, mkMetrics conf center area rect edge penalty).

Definition zero_metrics : Metrics := mkMetrics (Fin 0) 0 0 0 0 0.

(** [_select_candidate]; [area_min] and [area_max] are the two environment
    settings, already read as floats. *)
Definition _select_candidate (candidates : list Candidate) (image : Image)
    (focus_mode : string) (allow_border_touch : bool)
    (candidate_index : option Z) (area_min area_max : Q)
  : Res (Scored * list Scored * Z) :=
  let scored :=
    map (fun item =>
           match _score_candidate item image focus_mode allow_border_touch
                   area_min area_max with
           | Ok (score, metrics) => mkScored item score metrics
           | Raise _ => mkScored item 0 zero_metrics
           end) candidates in
  let by_index :=
    match candidate_index with
    | Some ci =>
        if ((0 <=? ci) && (ci <? Z.of_nat (List.length scored)))%bool
        then nth_error scored (Z.to_nat ci)
        else None
    | None => None
    end in
  match by_index, candidate_index with
  | Some chosen, Some ci => Ok (chosen, scored, ci)
  | _, _ =>
      best_index <- py_argmax (map score scored) ;;
      match nth_error scored best_index with
      | Some chosen => Ok (chosen, scored, Z.of_nat best_index)
      | None => Raise (ValueError "list index out of range")
      end
  end.

End WithImage.

End Scoring.

(** ** Stand-ins for the external libraries, used by the closed examples *)

Module Stub.

Import Base64 Scoring.

(** An image reduced to its size [(width, height)]. *)
Definition StubImage : Type := (Z * Z)%type.
Definition stub_size (image : StubImage) : Z * Z := image.

(** The taxicab norm, in place of [math.hypot]: non-negative and strictly
    increasing in the magnitude of both arguments, as [math.hypot] is. *)
Definition norm1 (a b : Q) : Q := (Qabs a + Qabs b)%Q.

(** A uniformly grey image: the gradient vanishes everywhere. *)
Definition flat_gradient (_ : StubImage) (_ : Z * Z * Z * Z) : Q := 0%Q.

(** Every mask decodes to a fully set raster. *)
Definition full_mask_fill (_ : list byte) : Res Q := Ok 1%Q.

Definition no_png (_ : list (list pyfloat)) : list byte := [].

(** A candidate that covers the whole frame, as the local provider reports it. *)
Definition full_frame_candidate : Candidate :=
  mkCandidate (Some (lit "product")) [Fin 0; Fin 0; Fin 1000; Fin 1000]
              MNone (Some (VNum (Fin (95 # 100)))) None None.

(** A small centred candidate. *)
Definition centred_candidate : Candidate :=
  mkCandidate (Some (lit "cup")) [Fin 250; Fin 250; Fin 750; Fin 750]
              MNone (Some (VNum (Fin (60 # 100)))) None None.

End Stub.

(** ** Mask post-processing (postprocess.py) *)

Module Postprocess.

Import Geometry Scoring.
Local Open Scope res_scope.

(** A 2-D numpy array of integers, row by row. *)
Definition arr : Type := list (list Z).

Definition map2d (f : Z -> Z) (a : arr) : arr := map (map f) a.

Fixpoint zip_with {A B C : Type} (f : A -> B -> C) (l1 : list A) (l2 : list B)
  : list C :=
  match l1, l2 with
  | x :: l1', y :: l2' => f x y :: zip_with f l1' l2'
  | _, _ => []
  end.

(** An elementwise operation on two arrays of the same shape. *)
Definition zip2d (f : Z -> Z -> Z) (a b : arr) : arr := zip_with (zip_with f) a b.

(** [a[r][c]] *)
Definition get2 (a : arr) (r c : nat) : option Z :=
  match nth_error a r with
  | Some row => nth_error row c
  | None => None
  end.

(** [a.astype(np.uint8)] *)
Definition astype_uint8 (a : arr) : arr := map2d (fun v => v mod 256) a.

(** [np.argmax]: the first position of the maximum. *)
Fixpoint argmaxZ_from (vals : list Z) (i best : nat) (best_val : Z) : nat :=
  match vals with
  | [] => best
  | v :: vals' =>
      if v <=? best_val then argmaxZ_from vals' (S i) best best_val
      else argmaxZ_from vals' (S i) i v
  end.

Definition np_argmax (vals : list Z) : Z :=
  match vals with
  | [] => 0
  | v :: vals' => Z.of_nat (argmaxZ_from vals' 1 0 v)
  end.

Inductive morph_op : Type := MORPH_CLOSE | MORPH_OPEN.

(** One row of the statistics of [cv2.connectedComponentsWithStats]:
    [(x, y, w, h, area)]. *)
Definition stat_row : Type := (Z * Z * Z * Z * Z)%type.

Definition stat_area (s : stat_row) : Z := snd s.

Section WithCv2.

(** [cv2.morphologyEx] with the 3 x 3 elliptic kernel and one iteration. *)
Variable morphologyEx : arr -> morph_op -> arr.
(** [cv2.connectedComponentsWithStats(., connectivity=8)]: the number of
    labels, the label image and the statistics, one row per label. *)
Variable connectedComponentsWithStats : arr -> Z * arr * list stat_row.

(** Lines 13-21 of [_cleanup_binary_mask]: close, open, keep the largest
    foreground component. *)
Definition keep_largest_component (binary : arr) : arr :=
  let binary := astype_uint8 binary in
  let cleaned := morphologyEx binary MORPH_CLOSE in
  let cleaned := morphologyEx cleaned MORPH_OPEN in
  let '(num_labels, labels, stats) := connectedComponentsWithStats cleaned in
  if 1 <? num_labels then
    let largest := 1 + np_argmax (map stat_area (tl stats)) in
    map2d (fun l => if l =? largest then 1 else 0) labels
  else cleaned.

(** [inv = 1 - cleaned], in uint8 arithmetic. *)
Definition invert (cleaned : arr) : arr := map2d (fun v => (1 - v) mod 256) cleaned.

(** The hole ratio after [max(0.001, min(0.05, hole_ratio))];
    [env_hole_ratio] is [float(os.getenv('MASK_HOLE_RATIO', '0.01'))], [None]
    when the conversion raises [ValueError]. *)
Definition clamped_hole_ratio (env_hole_ratio : option pyfloat) : Q :=
  let hole_ratio := match env_hole_ratio with Some f => f | None => Fin (1 # 100) end in
  float_value (py_max (Fin (1 # 1000)) (py_min (Fin (5 # 100)) hole_ratio)).

(** [hole_thresh = max(1, int(height * width * hole_ratio))] *)
Definition hole_threshold (height width : Z) (env_hole_ratio : option pyfloat) : Z :=
  Z.max 1 (py_int (inject_Z (height * width) * clamped_hole_ratio env_hole_ratio)).

(** The body of the loop over the hole labels. *)
Definition fill_step (hole_labels : arr) (hole_stats : list stat_row)
    (width height hole_thresh : Z) (cleaned : arr) (label : Z) : arr :=
  let '(x, y, w, h, area) := nth (Z.to_nat label) hole_stats (0, 0, 0, 0, 0) in
  let touches_border :=
    ((x =? 0) || (y =? 0) || (width <=? x + w) || (height <=? y + h))%bool in
  if touches_border then cleaned
  else if area <=? hole_thresh
  then zip2d (fun v l => if l =? label then 1 else v) cleaned hole_labels
  else cleaned.

(** [range(1, num_holes)] *)
Definition hole_range (num_holes : Z) : list Z :=
  map Z.of_nat (seq 1 (Z.to_nat num_holes - 1)).

(** [_cleanup_binary_mask] *)
Definition _cleanup_binary_mask (binary : arr) (env_hole_ratio : option pyfloat) : arr :=
  let cleaned := keep_largest_component binary in
  let inv := invert cleaned in
  let '(num_holes, hole_labels, hole_stats) := connectedComponentsWithStats inv in
  let height := Z.of_nat (List.length inv) in
  let width := Z.of_nat (List.length (hd [] inv)) in
  let hole_thresh := hole_threshold height width env_hole_ratio in
  fold_left (fill_step hole_labels hole_stats width height hole_thresh)
            (hole_range num_holes) cleaned.

(** The image library. *)
Variable MaskImage : Type.
(** [open_image_or_raise(image_bytes).convert('RGBA').size] *)
Variable open_image_size : list byte -> Res (Z * Z).
(** [open_image_or_raise(mask_bytes).convert('L')] *)
Variable open_mask : list byte -> Res MaskImage.
(** Resizing the mask to the box, pasting it on a black canvas of the image
    size, the optional autocontrast and the Gaussian smoothing of radius
    1.2, read back as an array. *)
Variable smooth_mask : MaskImage -> Z * Z * Z * Z -> Z * Z -> bool -> arr.
(** The mean gradient magnitude of [mask_np], divided by 255. *)
Variable edge_strength : arr -> Q.
(** [alpha.filter(ImageFilter.GaussianBlur(radius))] *)
Variable gaussian_blur : arr -> Q -> arr.
(** [alpha.getbbox()] *)
Variable getbbox : arr -> option (Z * Z * Z * Z).

(** [image.crop((left, top, right, bottom))] for a rectangle inside the image. *)
Definition crop (a : arr) (rect : Z * Z * Z * Z) : arr :=
  let '(left_, top, right_, bottom) := rect in
  map (fun row => firstn (Z.to_nat (right_ - left_)) (skipn (Z.to_nat left_) row))
      (firstn (Z.to_nat (bottom - top)) (skipn (Z.to_nat top) a)).

(** What [apply_mask] returns; the alpha channels of [cutout_full] and of
    [cutout] are [alpha] and [cutout_alpha]. *)
Record Post : Type := mkPost {
  post_mask : arr;
  alpha : arr;
  cutout_alpha : arr;
  box_px : Z * Z * Z * Z;
  size : Z * Z
}.

Definition as_value_error (msg : string) {A : Type} (r : Res A) : Res A :=
  match r with
  | Raise (ValueError _) => Raise (ValueError msg)
  | other => other
  end.

(** [apply_mask] *)
Definition apply_mask (image_bytes mask_bytes : list byte) (box_2d : list pyfloat)
    (threshold feather padding : Z) (auto_enhance : bool)
    (env_hole_ratio : option pyfloat) : Res Post :=
  image_size <- as_value_error "Unsupported image format" (open_image_size image_bytes) ;;
  let '(width, height) := image_size in
  mask_img <- as_value_error "Invalid mask image" (open_mask mask_bytes) ;;
  box <- _normalize_box box_2d width height ;;
  let smooth := smooth_mask mask_img box (width, height) auto_enhance in
  let mask_np := astype_uint8 smooth in
  let threshold := Z.max 0 (Z.min 255 threshold) in
  let binary := map2d (fun v => if threshold <=? v then 1 else 0) mask_np in
  let cleaned := _cleanup_binary_mask binary env_hole_ratio in
  let alpha_np :=
    zip2d (fun c m => if 0 <? c then (Z.max m threshold) mod 256 else 0)
          cleaned mask_np in
  let alpha :=
    if 0 <? feather then
      let adaptive := qmax 0 (qmin (25 # 10) (edge_strength mask_np * 6)) in
      gaussian_blur alpha_np (inject_Z feather + adaptive)
    else alpha_np in
  let bbox := match getbbox alpha with
              | Some b => b
              | None => (0, 0, width, height)
              end in
  let '(b0, b1, b2, b3) := bbox in
  let pad := Z.max 0 padding in
  let left_ := Z.max 0 (b0 - pad) in
  let top := Z.max 0 (b1 - pad) in
  let right_ := Z.min width (b2 + pad) in
  let bottom := Z.min height (b3 + pad) in
  Ok (mkPost smooth alpha (crop alpha (left_, top, right_, bottom))
             (left_, top, right_, bottom) (width, height)).

End WithCv2.

End Postprocess.

(** ** Stand-ins for cv2 and PIL in the mask examples *)

Module StubCv.

Import Postprocess.

(** No morphological change. *)
Definition stub_morph (a : arr) (_ : morph_op) : arr := a.

Definition nonzero (v : Z) : bool := negb (v =? 0).

(** Connected components of an image whose non-zero pixels form at most one
    component: they all get the label 1, and the statistics hold the
    bounding box and the area of that component. *)
Definition stub_cc (img : arr) : Z * arr * list stat_row :=
  let h := List.length img in
  let w := List.length (hd [] img) in
  let rows := filter (fun r => existsb nonzero (nth r img [])) (seq 0 h) in
  let cols := filter (fun c => existsb (fun row => nonzero (nth c row 0)) img) (seq 0 w) in
  let area := Z.of_nat (List.length (filter nonzero (List.concat img))) in
  let background := (0, 0, Z.of_nat w, Z.of_nat h, Z.of_nat (h * w) - area) in
  match rows, cols with
  | r0 :: _, c0 :: _ =>
      (2, map2d (fun v => if v =? 0 then 0 else 1) img,
       [background;
        (Z.of_nat c0, Z.of_nat r0,
         Z.of_nat (last cols c0 - c0 + 1), Z.of_nat (last rows r0 - r0 + 1), area)])
  | _, _ => (1, map2d (fun _ => 0) img, [background])
  end.

(** A 15 x 15 raster equal to [inside] everywhere except at [(hole_r, hole_c)],
    where it is [at_hole]. *)
Definition raster_with_hole (inside at_hole : Z) (hole_r hole_c : nat) : arr :=
  map (fun r => map (fun c => if ((r =? hole_r) && (c =? hole_c))%nat%bool
                              then at_hole else inside)
                    (seq 0 15))
      (seq 0 15).

(** A solid mask with a one-pixel hole in the middle, and one with a
    one-pixel notch on the top border. *)
Definition solid_with_hole : arr := raster_with_hole 1 0 7 7.
Definition solid_with_notch : arr := raster_with_hole 1 0 0 7.

(** Every image is 15 x 15; every mask decodes and smooths to a raster of
    intensity 200 with one pixel of intensity 40. *)
Definition stub_open_image_size (_ : list byte) : Res (Z * Z) := Ok (15, 15).
Definition stub_open_mask (_ : list byte) : Res arr := Ok (raster_with_hole 200 40 7 7).
Definition stub_smooth_mask (mask_img : arr) (_ : Z * Z * Z * Z) (_ : Z * Z) (_ : bool)
  : arr := mask_img.
Definition stub_edge_strength (_ : arr) : Q := 0%Q.
Definition stub_gaussian_blur (a : arr) (_ : Q) : arr := a.
Definition stub_getbbox (_ : arr) : option (Z * Z * Z * Z) := None.

End StubCv.

(** ** Provider calls with retry and fallback (gemini.py, pipeline.py) *)

Module Provider.

Import Geometry Base64 Scoring Postprocess.

(** *** Calls to the outside world

    The provider SDKs, the local model and [time.sleep] act on the outside
    world.  A computation takes the log of the calls made so far and returns
    its result together with the extended log. *)

Inductive Event : Type :=
| CallNewSdk (image_bytes : list byte)
| CallLegacySdk (image_bytes : list byte)
| CallLocalModel (image_bytes : list byte)
| Sleep (seconds : Q).

Definition Log : Type := list Event.

Definition M (A : Type) : Type := Log -> Res A * Log.

Definition ret {A} (a : A) : M A := fun log => (Ok a, log).

Definition raise {A} (e : exn) : M A := fun log => (Raise e, log).

Definition bind {A B} (m : M A) (k : A -> M B) : M B :=
  fun log =>
    match m log with
    | (Ok a, log') => k a log'
    | (Raise e, log') => (Raise e, log')
    end.

(** A pure computation that may raise. *)
Definition lift {A} (r : Res A) : M A := fun log => (r, log).

(** [try: body except <classes accepted by handles> as e: handler e] *)
Definition try_except {A} (body : M A) (handles : exn -> bool) (handler : exn -> M A)
  : M A :=
  fun log =>
    match body log with
    | (Ok a, log') => (Ok a, log')
    | (Raise e, log') => if handles e then handler e log' else (Raise e, log')
    end.

Declare Scope io_scope.
Delimit Scope io_scope with io.
Notation "x <- c ;; k" := (bind c (fun x => k))
  (at level 61, c at next level, right associativity) : io_scope.
Notation "c ;;; k" := (bind c (fun _ => k))
  (at level 61, right associativity) : io_scope.

Local Open Scope io_scope.

Definition is_ValueError (e : exn) : bool :=
  match e with ValueError _ => true | _ => false end.

Definition is_quota_or_timeout (e : exn) : bool :=
  match e with QuotaExceededError _ _ | ApiTimeoutError _ => true | _ => false end.

Definition is_inference_or_load (e : exn) : bool :=
  match e with InferenceError _ | ModelLoadError _ => true | _ => false end.

Definition any_exception (e : exn) : bool := true.

(** *** String search *)

Definition lower_char (c : ascii) : ascii :=
  let n := nat_of_ascii c in
  if ((65 <=? n) && (n <=? 90))%nat%bool then ascii_of_nat (n + 32) else c.

(** [s.lower()], for ASCII letters. *)
Definition lower (s : str) : str := map lower_char s.

(** [needle in haystack] *)
Fixpoint contains (needle haystack : str) : bool :=
  startswith needle haystack
  || match haystack with
     | [] => false
     | _ :: rest => contains needle rest
     end.

(** *** gemini.py *)

Definition MAX_RETRIES : Z := 2.
Definition BASE_DELAY : Z := 3.

(** [QuotaExceededError(retry_after=d)], with its default message. *)
Definition quota_exceeded (retry_after : Q) : exn :=
  QuotaExceededError retry_after
    ("API quota exceeded. Please try again in "
     ++ NilZero.string_of_int (Z.to_int (py_int retry_after)) ++ " seconds.")%string.

(** [_is_quota_error] *)
Definition _is_quota_error (error : exn) : bool :=
  let error_str := lower (lit (exn_str error)) in
  existsb (fun keyword => contains (lit keyword) error_str)
    ["429"; "quota"; "rate_limit"; "resource_exhausted"; "too many requests"]%string.

(** What the model answered, after [extract_json]: one item per element of
    the JSON list.  An item is a candidate when it is a dict holding the keys
    [label], [box_2d] and [mask]. *)
Inductive JsonItem : Type :=
| JCandidate (c : Candidate)
| JIncomplete.

Inductive JsonData : Type :=
| JObject (item : JsonItem)
| JArray (items : list JsonItem)
| JScalar.

(** What [rmbg.generate_mask] returns besides the two PNG byte strings. *)
Record Metadata : Type := mkMetadata {
  md_label : option str;
  md_confidence : option pyfloat;
  md_device : option string;
  md_inference_ms : option Z
}.

(** The dict that [_run_local_segmentation] returns. *)
Record LocalResult : Type := mkLocalResult {
  lr_cutout_bytes : list byte;
  lr_mask_bytes : list byte;
  lr_label : str;
  lr_box_2d : list pyfloat;
  lr_confidence : pyfloat;
  lr_processor : string;
  lr_device : string;
  lr_inference_ms : Z
}.

Section WithProviders.

(** The two SDK transports and the local model; what they answer may depend
    on the calls made before. *)
Variable new_sdk : Log -> list byte -> Res string.
Variable legacy_sdk : Log -> list byte -> Res string.
Variable local_model : Log -> list byte -> Res (list byte * list byte * Metadata).
(** [re.search] with the retry pattern, returning the first group, and
    [float()] on it. *)
Variable re_search_retry : string -> option string.
Variable float_of_str : string -> Res Q.
(** utils.py [extract_json]: the regex clean-up and [json.loads]. *)
Variable extract_json : string -> Res JsonData.
(** [_prepare_image_for_model(image_bytes, max_edge_override)]: decoding,
    resizing and PNG encoding; raises [ValueError] on bytes that are not an
    image. *)
Variable prepare_image : list byte -> Z -> Res (list byte).
(** [Image.open(io.BytesIO(image_bytes)).size] *)
Variable pil_image_size : list byte -> Res (Z * Z).

Definition call_new_sdk (image_bytes : list byte) : M string :=
  fun log => (new_sdk log image_bytes, log ++ [CallNewSdk image_bytes]).

Definition call_legacy_sdk (image_bytes : list byte) : M string :=
  fun log => (legacy_sdk log image_bytes, log ++ [CallLegacySdk image_bytes]).

Definition call_local_model (image_bytes : list byte)
  : M (list byte * list byte * Metadata) :=
  fun log => (local_model log image_bytes, log ++ [CallLocalModel image_bytes]).

Definition sleep (seconds : Q) : M unit :=
  fun log => (Ok tt, log ++ [Sleep seconds]).

(** [_extract_retry_delay] *)
Definition _extract_retry_delay (error_msg : string) : Res Q :=
  match re_search_retry error_msg with
  | Some group => float_of_str group
  | None => Ok 60%Q
  end.

(** The loop of [_generate_with_retry] over the remaining attempts, and the
    two statements after the loop. *)
Fixpoint retry_loop (image_bytes : list byte) (attempts : list Z)
    (last_error : option exn) : M string :=
  match attempts with
  | [] =>
      match last_error with
      | Some e =>
          if _is_quota_error e then
            retry_delay <- lift (_extract_retry_delay (exn_str e)) ;;
            raise (quota_exceeded retry_delay)
          else raise e
      | None => raise (RuntimeError "Unknown error during generation")
      end
  | attempt :: rest =>
      try_except (call_new_sdk image_bytes) any_exception (fun e =>
        if _is_quota_error e then
          retry_delay <- lift (_extract_retry_delay (exn_str e)) ;;
          if attempt <? MAX_RETRIES - 1 then
            let wait_time := qmin retry_delay (inject_Z (BASE_DELAY * 2 ^ attempt)) in
            sleep wait_time ;;;
            retry_loop image_bytes rest (Some e)
          else raise (quota_exceeded retry_delay)
        else
          try_except (call_legacy_sdk image_bytes) any_exception (fun legacy_error =>
            if _is_quota_error legacy_error then
              retry_delay <- lift (_extract_retry_delay (exn_str legacy_error)) ;;
              raise (quota_exceeded retry_delay)
            else raise legacy_error))
  end.

(** [_generate_with_retry]; the attempts are [range(MAX_RETRIES)]. *)
Definition _generate_with_retry (image_bytes : list byte) : M string :=
  retry_loop image_bytes
    (map Z.of_nat (seq 0 (Z.to_nat MAX_RETRIES))) None.

(** [generate_candidates] *)
Definition generate_candidates (image_bytes : list byte) : M (list Candidate) :=
  text <- _generate_with_retry image_bytes ;;
  data <- lift (extract_json text) ;;
  match data with
  | JScalar => raise (ValueError "Unexpected JSON format from model")
  | JObject _ | JArray (_ :: _) =>
      let items := match data with
                   | JObject item => [item]
                   | JArray items => items
                   | JScalar => []
                   end in
      let candidates :=
        flat_map (fun item => match item with
                              | JCandidate c => [c]
                              | JIncomplete => []
                              end) items in
      match candidates with
      | [] => raise (ValueError "Model returned empty list")
      | _ :: _ => ret candidates
      end
  | JArray [] => raise (ValueError "Unexpected JSON format from model")
  end.

(** pipeline.py, [_generate_candidates_with_retry] *)
Definition _generate_candidates_with_retry (image_bytes : list byte) (max_edge : Z)
  : M (list Candidate) :=
  model_image_bytes <- lift (prepare_image image_bytes max_edge) ;;
  try_except (generate_candidates model_image_bytes) is_ValueError (fun exc =>
    if (contains (lit "Invalid JSON format") (lit (exn_str exc)) && (1024 <? max_edge))%bool
    then
      smaller_bytes <- lift (prepare_image image_bytes 1024) ;;
      generate_candidates smaller_bytes
    else raise exc).

(** [_run_local_segmentation] *)
Definition _run_local_segmentation (image_bytes : list byte) : M LocalResult :=
  try_except
    (generated <- call_local_model image_bytes ;;
     let '(cutout_bytes, mask_bytes, metadata) := generated in
     _ <- lift (pil_image_size image_bytes) ;;
     ret (mkLocalResult cutout_bytes mask_bytes
            (match md_label metadata with Some l => l | None => lit "product" end)
            [Fin 0; Fin 0; Fin 1000; Fin 1000]
            (match md_confidence metadata with Some c => c | None => Fin (95 # 100) end)
            "rmbg-local"
            (match md_device metadata with Some d => d | None => "cpu"%string end)
            (match md_inference_ms metadata with Some t => t | None => 0 end)))
    is_inference_or_load
    (fun e => raise (ValueError ("Local processing failed: " ++ exn_str e)%string)).

(** The candidate that wraps a local result; the keys [_local_cutout],
    [_processor], [_device] and [_inference_ms] of the dict are not read by
    the code modelled here. *)
Definition local_candidate (local_result : LocalResult) : Candidate :=
  mkCandidate (Some (lr_label local_result)) (lr_box_2d local_result)
              (MStr (b64encode (lr_mask_bytes local_result)))
              (Some (VNum (lr_confidence local_result))) None None.

(** [_generate_with_fallback] *)
Definition _generate_with_fallback (image_bytes : list byte) (max_edge : Z)
    (processing_mode : string) : M (list Candidate * string) :=
  if String.eqb processing_mode "local" then
    try_except
      (local_result <- _run_local_segmentation image_bytes ;;
       ret ([local_candidate local_result], "rmbg-local"%string))
      any_exception
      (fun e => raise (ValueError ("Local processing failed: " ++ exn_str e)%string))
  else if String.eqb processing_mode "gemini" then
    candidates <- _generate_candidates_with_retry image_bytes max_edge ;;
    ret (candidates, "gemini"%string)
  else
    try_except
      (candidates <- _generate_candidates_with_retry image_bytes max_edge ;;
       ret (candidates, "gemini"%string))
      is_quota_or_timeout
      (fun e =>
         let error_type :=
           match e with
           | ApiTimeoutError _ => "timeout"%string
           | _ => "quota exceeded"%string
           end in
         try_except
           (local_result <- _run_local_segmentation image_bytes ;;
            ret ([local_candidate local_result], "rmbg-local"%string))
           any_exception
           (fun local_e =>
              raise (ValueError ("Both Gemini and local processing failed. Gemini: "
                                 ++ error_type ++ ", Local: " ++ exn_str local_e)%string))).

End WithProviders.

End Provider.

(** ** The segmentation run (pipeline.py) *)

Module Pipeline.

Import Geometry Base64 Scoring Postprocess Provider.
Local Open Scope io_scope.

(** The request parameters, after the conversions at the top of
    [run_segmentation]. *)
Record Params : Type := mkParams {
  threshold : Z;
  feather : Z;
  padding : Z;
  auto_enhance : bool;
  focus_mode : string;
  allow_border_touch : bool;
  processing_mode : string;
  candidate_index : option Z
}.

(** One entry of [candidate_payloads]. *)
Record CandidatePayload : Type := mkCandidatePayload {
  cp_label : str;
  cp_box_2d : list pyfloat;
  cp_confidence : pyfloat;
  cp_score : Q
}.

(** What [run_segmentation] hands to the caller, before PNG encoding. *)
Record Segmentation : Type := mkSegmentation {
  seg_label : str;
  seg_box_2d : list pyfloat;
  seg_mask_bytes : list byte;
  seg_post : Post;
  seg_candidates : list CandidatePayload;
  selected_candidate : Z;
  processor_used : string
}.

(** [item.get('label', '')] *)
Definition label_or_empty (c : Candidate) : str :=
  match label c with Some l => l | None => [] end.

Section WithEverything.

Variable Image : Type.
Variable image_size : Image -> Z * Z.
Variable hypot : Q -> Q -> Q.
Variable gradient_mean : Image -> Z * Z * Z * Z -> Q.
Variable mask_fill : list byte -> Res Q.
Variable array_to_png : list (list pyfloat) -> list byte.

Variable new_sdk : Log -> list byte -> Res string.
Variable legacy_sdk : Log -> list byte -> Res string.
Variable local_model : Log -> list byte -> Res (list byte * list byte * Metadata).
Variable re_search_retry : string -> option string.
Variable float_of_str : string -> Res Q.
Variable extract_json : string -> Res JsonData.
Variable prepare_image : list byte -> Z -> Res (list byte).
Variable pil_image_size : list byte -> Res (Z * Z).

(** [open_image_or_raise(image_bytes).convert('RGB')] *)
Variable decode_image : list byte -> Res Image.
(** [image.crop(rect)] *)
Variable crop_image : Image -> Z * Z * Z * Z -> Image.
(** The blur, desaturation and compositing of [_suppress_background]. *)
Variable soften_outside : Image -> Z * Z * Z * Z -> Image.
(** [_png_bytes] *)
Variable _png_bytes : Image -> list byte.
(** postprocess.py [apply_mask], with the image libraries fixed. *)
Variable apply_mask :
  list byte -> list byte -> list pyfloat -> Z -> Z -> Z -> bool -> Res Post.

(** The environment settings, already converted. *)
Variable GEMINI_MAX_EDGE : Z.
Variable GEMINI_ROI_MAX_EDGE : Z.
Variable ROI_MARGIN : Q.
Variable CANDIDATE_AREA_MIN : Q.
Variable CANDIDATE_AREA_MAX : Q.

Let select_candidate :=
  _select_candidate Image image_size hypot gradient_mean mask_fill array_to_png.
Let decode_mask_payload := _decode_mask_payload array_to_png.
Let generate_candidates_with_retry :=
  _generate_candidates_with_retry new_sdk legacy_sdk re_search_retry float_of_str
    extract_json prepare_image.
Let generate_with_fallback :=
  _generate_with_fallback new_sdk legacy_sdk local_model re_search_retry float_of_str
    extract_json prepare_image pil_image_size.

(** [_crop_roi] *)
Definition _crop_roi (image : Image) (box_px : Z * Z * Z * Z) (margin_ratio : Q)
  : Image * (Z * Z * Z * Z) :=
  let '(width, height) := image_size image in
  let '(x0, y0, x1, y1) := box_px in
  let box_w := Z.max 1 (x1 - x0) in
  let box_h := Z.max 1 (y1 - y0) in
  let pad := py_int (inject_Z (Z.max box_w box_h) * margin_ratio) in
  let left_ := Z.max 0 (x0 - pad) in
  let top := Z.max 0 (y0 - pad) in
  let right_ := Z.min width (x1 + pad) in
  let bottom := Z.min height (y1 + pad) in
  (crop_image image (left_, top, right_, bottom), (left_, top, right_, bottom)).

(** [_suppress_background] *)
Definition _suppress_background (image : Image) (focus_box : Z * Z * Z * Z) : Image :=
  let '(w, h) := image_size image in
  if ((w <? 4) || (h <? 4))%bool then image else soften_outside image focus_box.

(** The body of the [try] of the second pass (lines 473-483): the provider
    call on the prepared crop and the selection among its candidates. *)
Definition roi_query (roi_image : Image) (focus : string) : M Scored :=
  let roi_bytes := _png_bytes roi_image in
  roi_candidates <- generate_candidates_with_retry roi_bytes GEMINI_ROI_MAX_EDGE ;;
  selection <- lift (select_candidate roi_candidates roi_image focus true None
                       CANDIDATE_AREA_MIN CANDIDATE_AREA_MAX) ;;
  ret (fst (fst selection)).

(** Lines 468-488 of [run_segmentation]: the three variables
    [roi_mask_payload], [roi_label] and [roi_box_2d] after the [try] and its
    [except Exception] clause.  The mask and the label are assigned before
    [_map_box_to_full] is called, and the handler resets the box only. *)
Definition second_pass (selected : Scored) (roi_image : Image)
    (roi_bounds : Z * Z * Z * Z) (full_size : Z * Z) (focus : string)
  : M (MaskPayload * str * list pyfloat) :=
  fun log =>
    let roi_mask_payload := mask (item selected) in
    let roi_label := label_or_empty (item selected) in
    match roi_query roi_image focus log with
    | (Raise _, log') =>
        (Ok (roi_mask_payload, roi_label, box_2d (item selected)), log')
    | (Ok roi_selected, log') =>
        let roi_mask_payload := mask (item roi_selected) in
        let roi_label :=
          match label (item roi_selected) with Some l => l | None => roi_label end in
        match _map_box_to_full (box_2d (item roi_selected)) roi_bounds full_size with
        | Ok roi_box_2d => (Ok (roi_mask_payload, roi_label, roi_box_2d), log')
        | Raise _ => (Ok (roi_mask_payload, roi_label, box_2d (item selected)), log')
        end
    end.

(** Lines 490-538 of [run_segmentation]: decoding the chosen mask,
    post-processing and the result. *)
Definition finish_run (image_bytes : list byte) (params : Params)
    (selected : Scored) (candidate_payloads : list CandidatePayload)
    (selected_index : Z) (processor : string)
    (roi : MaskPayload * str * list pyfloat) : Res Segmentation :=
  let '(roi_mask_payload, roi_label, roi_box_2d) := roi in
  match decode_mask_payload roi_mask_payload with
  | Raise _ => Raise (ValueError "Invalid mask payload from provider")
  | Ok mask_bytes =>
      match apply_mask image_bytes mask_bytes roi_box_2d (threshold params)
              (feather params) (padding params) (auto_enhance params) with
      | Raise e => Raise e
      | Ok post =>
          Ok (mkSegmentation
                (match roi_label with
                 | [] => label_or_empty (item selected)
                 | _ :: _ => roi_label
                 end)
                roi_box_2d mask_bytes post candidate_payloads selected_index processor)
      end
  end.

(** [run_segmentation]; [image_bytes] is the content of the upload. *)
Definition run_segmentation (image_bytes : list byte) (params : Params)
  : M Segmentation :=
  original_image <- lift (decode_image image_bytes) ;;
  let '(full_width, full_height) := image_size original_image in
  generated <- generate_with_fallback image_bytes GEMINI_MAX_EDGE
                 (processing_mode params) ;;
  let '(candidates, processor) := generated in
  selection <- lift (select_candidate candidates original_image (focus_mode params)
                       (allow_border_touch params) (candidate_index params)
                       CANDIDATE_AREA_MIN CANDIDATE_AREA_MAX) ;;
  let '(selected, scored_candidates, selected_index) := selection in
  let candidate_payloads :=
    map (fun s => mkCandidatePayload (label_or_empty (item s)) (box_2d (item s))
                    (m_confidence (metrics s)) (score s))
        scored_candidates in
  selected_box_px <- lift (_box_to_px (box_2d (item selected)) full_width full_height) ;;
  let '(roi_image, roi_bounds) := _crop_roi original_image selected_box_px ROI_MARGIN in
  let '(left_, top, right_, bottom) := roi_bounds in
  let '(sx0, sy0, sx1, sy1) := selected_box_px in
  let roi_focus_box :=
    (Z.max 0 (sx0 - left_), Z.max 0 (sy0 - top),
     Z.max 1 (sx1 - left_), Z.max 1 (sy1 - top)) in
  let roi_image := _suppress_background roi_image roi_focus_box in
  roi <- second_pass selected roi_image roi_bounds (full_width, full_height)
           (focus_mode params) ;;
  lift (finish_run image_bytes params selected candidate_payloads selected_index
          processor roi).

End WithEverything.

End Pipeline.

(** ** Stand-ins for the providers in the pipeline examples *)

Module StubRun.

Import Geometry Base64 Scoring Postprocess Provider Pipeline Stub.

(** Both SDK transports fail for want of an API key. *)
Definition sdk_without_key (_ : Log) (_ : list byte) : Res string :=
  Raise (RuntimeError "GEMINI_API_KEY not configured").

(** An SDK that answers; what the answer holds is decided by the JSON stub. *)
Definition sdk_answering (_ : Log) (_ : list byte) : Res string := Ok "[...]"%string.

(** The local model succeeds with a three-byte mask. *)
Definition local_model_ok (_ : Log) (_ : list byte)
  : Res (list byte * list byte * Metadata) :=
  Ok ([x01], [x0a; x0b; x0c],
      mkMetadata (Some (lit "product")) (Some (Fin (95 # 100))) (Some "cpu"%string) (Some 12)).

(** A second-pass candidate whose mask is a number, and one whose box has
    three coordinates only. *)
Definition roi_candidate_number_mask : Candidate :=
  mkCandidate (Some (lit "mug")) [Fin 100; Fin 100; Fin 900; Fin 900]
              (MOther true) (Some (VNum (Fin (9 # 10)))) None None.

Definition roi_candidate_short_box : Candidate :=
  mkCandidate (Some (lit "mug")) [Fin 100; Fin 100; Fin 900]
              (MStr (lit "QUJD")) (Some (VNum (Fin (9 # 10)))) None None.

Definition json_with (c : Candidate) (_ : string) : Res JsonData :=
  Ok (JArray [JCandidate c]).

(** Every upload is a 100 x 100 image; [apply_mask] returns an empty
    post-processing record. *)
Definition stub_decode_image (_ : list byte) : Res StubImage := Ok (100, 100).
Definition stub_crop_image (_ : StubImage) (rect : Z * Z * Z * Z) : StubImage :=
  let '(l, t, r, b) := rect in (r - l, b - t).
Definition stub_soften (image : StubImage) (_ : Z * Z * Z * Z) : StubImage := image.
Definition stub_png_bytes (_ : StubImage) : list byte := [].
Definition stub_apply_mask (_ _ : list byte) (_ : list pyfloat) (_ _ _ : Z) (_ : bool)
  : Res Post := Ok (mkPost [] [] [] (0, 0, 100, 100) (100, 100)).

Definition local_params : Params :=
  mkParams 128 0 0 false "auto" false "local" None.

(** [run_segmentation] with everything but the cloud SDK and the JSON reader
    fixed. *)
Definition stub_run (sdk : Log -> list byte -> Res string)
    (json : string -> Res JsonData) : M Segmentation :=
  run_segmentation StubImage stub_size norm1 flat_gradient full_mask_fill no_png
    sdk sdk local_model_ok (fun _ => None) (fun _ => Ok 60%Q) json
    (fun b _ => Ok b) (fun _ => Ok (100, 100))
    stub_decode_image stub_crop_image stub_soften stub_png_bytes stub_apply_mask
    2048 1536 (15 # 100) (8 # 100) (70 # 100)
    [x89] local_params.

End StubRun.

(** ** The local model (rmbg.py) *)

Module Rmbg.

Import Base64 Scoring Provider.

(** What [import torch] gives access to: [torch.cuda.is_available()], and
    [hasattr(torch.backends, 'mps') and torch.backends.mps.is_available()]. *)
Record Torch : Type := mkTorch {
  cuda_is_available : bool;
  mps_is_available : bool
}.

Definition DeviceNotAvailableError (msg : string) : exn :=
  OtherException "DeviceNotAvailableError" msg.

(** [except ImportError]: the class and its subclass [ModuleNotFoundError]. *)
Definition is_ImportError (e : exn) : bool :=
  match e with
  | OtherException class_name _ =>
      String.eqb class_name "ImportError" || String.eqb class_name "ModuleNotFoundError"
  | _ => false
  end.

Definition is_ModelLoadError (e : exn) : bool :=
  match e with ModelLoadError _ => true | _ => false end.

(** [detect_best_device]; [torch] is [None] when [import torch] raises
    [ImportError]. *)
Definition detect_best_device (torch : option Torch) (preferred : string) : Res string :=
  let auto_detection :=
    match torch with
    | Some t =>
        if cuda_is_available t then Ok "cuda"%string
        else if mps_is_available t then Ok "mps"%string
        else Ok "cpu"%string
    | None => Ok "cpu"%string
    end in
  if negb (String.eqb preferred "auto") then
    if String.eqb preferred "cuda" then
      match torch with
      | Some t =>
          if cuda_is_available t then Ok "cuda"%string
          else Raise (DeviceNotAvailableError "CUDA requested but not available")
      | None => Raise (DeviceNotAvailableError "PyTorch not installed for CUDA")
      end
    else if String.eqb preferred "mps" then
      match torch with
      | Some t =>
          if mps_is_available t then Ok "mps"%string
          else Raise (DeviceNotAvailableError "MPS requested but not available")
      | None => Raise (DeviceNotAvailableError "PyTorch not installed for MPS")
      end
    else if String.eqb preferred "cpu" then Ok "cpu"%string
    else auto_detection
  else auto_detection.

(** What [remove_background] returns besides the PNG bytes. *)
Record RemoveMetadata : Type := mkRemoveMetadata {
  rm_device : option string;
  rm_inference_ms : Z;
  rm_original_size : Z * Z;
  rm_processor : string
}.

(** The dict of [get_device_info]. *)
Record DeviceInfo : Type := mkDeviceInfo {
  di_device : option string;
  di_available : bool;
  di_error : option string
}.

Section WithRembg.

(** A session of the rembg package, and a PIL image. *)
Variable Session : Type.
Variable Img : Type.

(** The two module globals [_processor] and [_device]. *)
Record Globals : Type := mkGlobals {
  _processor : option Session;
  _device : option string
}.

(** The environment: [import torch], [from rembg import ...] (which raises
    when the package is missing), the setting [HARDWARE_DEVICE] with its
    default, [rembg.new_session("u2net", providers=...)] and
    [rembg.remove(image, session=..., alpha_matting=..., ...)], the two
    thresholds being [None] where the call leaves them out. *)
Variable torch : option Torch.
Variable import_rembg : Res unit.
Variable HARDWARE_DEVICE : string.
Variable new_session : list string -> Res Session.
Variable remove : Img -> Session -> bool -> option Z -> option Z -> Res Img.
(** [Image.open(io.BytesIO(image_bytes))], [image.convert(mode)],
    [image.mode], [image.size], [image.split()[3]] and saving as PNG. *)
Variable pil_open : list byte -> Res Img.
Variable convert : Img -> string -> Img.
Variable mode : Img -> string.
Variable img_size : Img -> Z * Z.
Variable alpha_band : Img -> Img.
Variable save_png : Img -> list byte.
(** [int(inference_time * 1000)], read off the clock. *)
Variable elapsed_ms : Z.

(** The two [except] clauses of [_get_processor]. *)
Definition load_error (e : exn) : exn :=
  if is_ImportError e then ModelLoadError ("rembg not installed: " ++ exn_str e)
  else ModelLoadError ("Failed to load RMBG model: " ++ exn_str e).

(** [_get_processor]: the result and the globals after the call. *)
Definition _get_processor (g : Globals)
  : Res (Session * option string) * Globals :=
  match _processor g with
  | Some processor => (Ok (processor, _device g), g)
  | None =>
      match import_rembg with
      | Raise e => (Raise (load_error e), g)
      | Ok _ =>
          match detect_best_device torch HARDWARE_DEVICE with
          | Raise e => (Raise (load_error e), g)
          | Ok device =>
              let g := mkGlobals (_processor g) (Some device) in
              let providers :=
                if String.eqb device "cuda"
                then ["CUDAExecutionProvider"; "CPUExecutionProvider"]%string
                else if String.eqb device "mps"
                then ["CoreMLExecutionProvider"; "CPUExecutionProvider"]%string
                else ["CPUExecutionProvider"]%string in
              match new_session providers with
              | Raise e => (Raise (load_error e), g)
              | Ok session =>
                  (Ok (session, Some device), mkGlobals (Some session) (Some device))
              end
          end
      end
  end.

(** [remove_background] *)
Definition remove_background (image_bytes : list byte) (alpha_matting : bool)
    (alpha_matting_foreground_threshold alpha_matting_background_threshold : Z)
    (g : Globals) : Res (list byte * RemoveMetadata) * Globals :=
  let handler (e : exn) : exn :=
    if is_ModelLoadError e then e
    else InferenceError ("RMBG inference failed: " ++ exn_str e) in
  match import_rembg with
  | Raise e => (Raise (handler e), g)
  | Ok _ =>
      let '(loaded, g) := _get_processor g in
      match loaded with
      | Raise e => (Raise (handler e), g)
      | Ok (session, device) =>
          match pil_open image_bytes with
          | Raise e => (Raise (handler e), g)
          | Ok input_image =>
              let original_size := img_size input_image in
              match remove input_image session alpha_matting
                      (Some alpha_matting_foreground_threshold)
                      (Some alpha_matting_background_threshold) with
              | Raise e => (Raise (handler e), g)
              | Ok output_image =>
                  (Ok (save_png output_image,
                       mkRemoveMetadata device elapsed_ms original_size "rmbg-local"),
                   g)
              end
          end
      end
  end.

(** [generate_mask] *)
Definition generate_mask (image_bytes : list byte) (g : Globals)
  : Res (list byte * list byte * Metadata) * Globals :=
  let handler (e : exn) : exn :=
    InferenceError ("Mask generation failed: " ++ exn_str e) in
  match import_rembg with
  | Raise e => (Raise (handler e), g)
  | Ok _ =>
      let '(loaded, g) := _get_processor g in
      match loaded with
      | Raise e => (Raise (handler e), g)
      | Ok (session, device) =>
          match pil_open image_bytes with
          | Raise e => (Raise (handler e), g)
          | Ok opened =>
              let input_image := convert opened "RGBA" in
              match remove input_image session true None None with
              | Raise e => (Raise (handler e), g)
              | Ok cutout =>
                  let mask :=
                    if String.eqb (mode cutout) "RGBA" then alpha_band cutout
                    else convert cutout "L" in
                  (Ok (save_png cutout, save_png mask,
                       mkMetadata (Some (lit "product")) (Some (Fin (95 # 100)))
                                  device (Some elapsed_ms)),
                   g)
              end
          end
      end
  end.

(** [get_device_info] *)
Definition get_device_info (g : Globals) : DeviceInfo * Globals :=
  match _get_processor g with
  | (Ok (_, device), g) => (mkDeviceInfo device true None, g)
  | (Raise e, g) => (mkDeviceInfo (Some "unknown"%string) false (Some (exn_str e)), g)
  end.

End WithRembg.

End Rmbg.

(** ** The image sent to the model (pipeline.py) *)

Module ModelImage.

Import Scoring.
Local Open Scope res_scope.

Section WithPil.

Variable Img : Type.
(** utils.py [open_image_or_raise], [image.convert('RGB')], [image.size],
    [image.resize(size, Image.LANCZOS)] and saving as an optimized PNG. *)
Variable open_image_or_raise : list byte -> Res Img.
Variable convert_rgb : Img -> Img.
Variable img_size : Img -> Z * Z.
Variable resize : Img -> Z * Z -> Img.
Variable save_png : Img -> list byte.
(** [int(os.getenv('GEMINI_MAX_EDGE', '2048'))] *)
Variable GEMINI_MAX_EDGE : Z.

(** The image that [_prepare_image_for_model] saves. *)
Definition image_for_model (image_bytes : list byte) (max_edge_override : option Z)
  : Res Img :=
  image <- open_image_or_raise image_bytes ;;
  let image := convert_rgb image in
  let max_edge :=
    match max_edge_override with
    | Some m => m
    | None => GEMINI_MAX_EDGE
    end in
  if 0 <? max_edge then
    let '(width, height) := img_size image in
    if Z.max width height =? 0
    then Raise (ZeroDivisionError "float division by zero")
    else
      let scale := (inject_Z max_edge / inject_Z (Z.max width height))%Q in
      if negb (Qle_bool 1 scale) then
        let new_size :=
          (Z.max 1 (py_int (inject_Z width * scale)),
           Z.max 1 (py_int (inject_Z height * scale))) in
        Ok (resize image new_size)
      else Ok image
  else Ok image.

(** [_prepare_image_for_model] *)
Definition _prepare_image_for_model (image_bytes : list byte)
    (max_edge_override : option Z) : Res (list byte) :=
  image <- image_for_model image_bytes max_edge_override ;;
  Ok (save_png image).

End WithPil.

End ModelImage.

(** ** Request parameters (views.py) *)

Module Views.

Import Base64 Scoring.

(** A value of [request.data]: what the form and JSON parsers deliver. *)
Inductive FormValue : Type :=
| FNone
| FBool (b : bool)
| FInt (n : Z)
| FFloat (f : pyfloat)
| FStr (s : str)
| FOther.                                      (* a list or a dict *)

(** How [int(value)] ends. *)
Inductive IntOutcome : Type :=
| IntOk (n : Z)
| IntTypeError
| IntValueError
| IntOverflowError.

Section WithIntParser.

(** [int(s)] for a string: [None] when it raises [ValueError]. *)
Variable int_of_str : str -> option Z.

(** [int(value)] *)
Definition int_of_value (value : FormValue) : IntOutcome :=
  match value with
  | FNone | FOther => IntTypeError
  | FBool b => IntOk (if b then 1 else 0)
  | FInt n => IntOk n
  | FFloat (Fin q) => IntOk (py_int q)
  | FFloat NaN => IntValueError
  | FFloat PosInf | FFloat NegInf => IntOverflowError
  | FStr s =>
      match int_of_str s with
      | Some n => IntOk n
      | None => IntValueError
      end
  end.

(** [_parse_int]; the [OverflowError] of an infinite float is not caught. *)
Definition _parse_int (value : FormValue) (default min_value max_value : Z) : Res Z :=
  match int_of_value value with
  | IntOk num => Ok (Z.max min_value (Z.min max_value num))
  | IntTypeError | IntValueError => Ok (Z.max min_value (Z.min max_value default))
  | IntOverflowError =>
      Raise (OverflowError "cannot convert float infinity to integer")
  end.

End WithIntParser.

End Views.

(** ** Stand-ins for the local model *)

Module StubRmbg.

Import Base64 Scoring Provider Rmbg.

(** A session is the list of providers it was created for; an image is its
    mode. *)
Definition stub_new_session (providers : list string) : Res (list string) := Ok providers.
Definition stub_remove (img : string) (_ : list string) (_ : bool) (_ _ : option Z)
  : Res string := Ok "RGBA"%string.
Definition stub_pil_open (_ : list byte) : Res string := Ok "RGB"%string.
Definition stub_pil_broken (_ : list byte) : Res string :=
  Raise (OtherException "UnidentifiedImageError" "cannot identify image file").
Definition stub_convert (_ : string) (mode : string) : string := mode.
Definition stub_mode (img : string) : string := img.
Definition stub_img_size (_ : string) : Z * Z := (100, 100).
Definition stub_alpha_band (_ : string) : string := "L"%string.
Definition stub_save_png (img : string) : list byte :=
  if String.eqb img "L" then [x0a; x0b; x0c] else [x01].

Definition no_gpu : option Torch := Some (mkTorch false false).
Definition nothing_loaded : Globals (list string) := mkGlobals (list string) None None.

End StubRmbg.

(* ================================================================== *)
(** * Properties *)
(* ================================================================== *)

(** ** Rounding and float helpers *)

Section FloatFacts.

Local Open Scope Q_scope.

Lemma round_half_even_near (q : Q) :
  inject_Z (round_half_even q) - (1 # 2) <= q <= inject_Z (round_half_even q) + (1 # 2).
Proof.
  unfold round_half_even.
  pose proof (Qfloor_le q) as Hlo.
  pose proof (Qlt_floor q) as Hhi.
  rewrite inject_Z_plus in Hhi. change (inject_Z 1) with 1 in Hhi.
  destruct (Qcompare_spec (q - inject_Z (Qfloor q)) (1 # 2)) as [He | Hl | Hg].
  - destruct (Z.even (Qfloor q)).
    + split; lra.
    + rewrite inject_Z_plus. change (inject_Z 1) with 1. split; lra.
  - split; lra.
  - rewrite inject_Z_plus. change (inject_Z 1) with 1. split; lra.
Qed.

Lemma fval_eq (f : pyfloat) (q q' : Q) : fval f q -> q == q' -> fval f q'.
Proof. destruct f; simpl; try tauto. intros H1 H2. now rewrite H1. Qed.

Lemma fval_Fin (q : Q) : fval (Fin q) q.
Proof. simpl. reflexivity. Qed.

Lemma fval_of_int (n : Z) : fval (of_int n) (inject_Z n).
Proof. simpl. reflexivity. Qed.

Lemma fl_val (q : Q) : Qabs q <= dbl_max -> fval (fl q) q.
Proof.
  intros H. unfold fl. apply Qle_bool_iff in H. rewrite H. simpl.
  apply Qred_correct.
Qed.

(** Every magnitude met in the pixel computations is far below [dbl_max]. *)
Lemma small_in_range (q : Q) : 0 <= q -> q <= inject_Z (2 ^ 80) -> Qabs q <= dbl_max.
Proof.
  intros H0 H1. rewrite Qabs_pos by exact H0.
  apply Qle_trans with (inject_Z (2 ^ 80)); [exact H1 |].
  unfold dbl_max. rewrite <- Zle_Qle. vm_compute. discriminate.
Qed.

Lemma fl_small (q : Q) : 0 <= q -> q <= inject_Z (2 ^ 80) -> fval (fl q) q.
Proof. intros. apply fl_val, small_in_range; assumption. Qed.

Lemma fdiv_lit_val (a : pyfloat) (x d : Q) :
  fval a x -> 0 <= x / d -> x / d <= inject_Z (2 ^ 80) -> fval (fdiv_lit a d) (x / d).
Proof.
  destruct a as [q | | |]; simpl; try tauto. intros E H0 H1.
  apply fval_eq with (q / d); [| now rewrite E].
  apply fl_small; now rewrite E.
Qed.

Lemma fmul_val (a b : pyfloat) (x y : Q) :
  fval a x -> fval b y -> 0 <= x * y -> x * y <= inject_Z (2 ^ 80) ->
  fval (fmul a b) (x * y).
Proof.
  destruct a as [p | | |], b as [q | | |]; simpl; try tauto. intros E1 E2 H0 H1.
  apply fval_eq with (p * q); [| now rewrite E1, E2].
  apply fl_small; now rewrite E1, E2.
Qed.



Lemma flt_Fin (p q : Q) : flt (Fin p) (Fin q) = true <-> p < q.
Proof.
  simpl. rewrite negb_true_iff. split.
  - intros H. apply Qnot_le_lt. intros L. apply Qle_bool_iff in L. congruence.
  - intros H. destruct (Qle_bool q p) eqn:E; [| reflexivity].
    apply Qle_bool_iff in E. lra.
Qed.



End FloatFacts.

(** ** Coordinate and geometry utilities *)

Section GeometryFacts.

Import Geometry.




(** The conversion raises as soon as one scaled coordinate is not finite. *)
Lemma box_to_px_raises (y0 x0 y1 x1 : pyfloat) (width height : Z) :
  (is_finite (fmul_int (fdiv_lit x0 1000) width) &&
   is_finite (fmul_int (fdiv_lit x1 1000) width) &&
   is_finite (fmul_int (fdiv_lit y0 1000) height) &&
   is_finite (fmul_int (fdiv_lit y1 1000) height))%bool = false ->
  exists e, _box_to_px [y0; x0; y1; x1] width height = Raise e.
Proof.
  unfold _box_to_px.
  destruct (fmul_int (fdiv_lit x0 1000) width);
  destruct (fmul_int (fdiv_lit x1 1000) width);
  destruct (fmul_int (fdiv_lit y0 1000) height);
  destruct (fmul_int (fdiv_lit y1 1000) height);
  cbn; intros E; try discriminate E; eexists; reflexivity.
Qed.


End GeometryFacts.

(** ** Round trip between normalized and pixel coordinates *)

Section RoundTripFacts.

Import Geometry.
Local Open Scope Q_scope.

Ltac zq H :=
  first [rewrite Zle_Qle in H | rewrite Zlt_Qlt in H];
  unfold Z.sub in H;
  repeat rewrite ?inject_Z_plus, ?inject_Z_opp in H;
  change (inject_Z 1) with 1 in H; change (inject_Z 0) with 0 in H.






Lemma scaled_val (x : Q) (dim : Z) :
  0 <= x -> x <= 1000 -> (1 <= dim <= 2 ^ 53)%Z ->
  fval (fmul_int (fdiv_lit (Fin x) 1000) dim) (x / 1000 * inject_Z dim) /\
  0 <= x / 1000 * inject_Z dim <= inject_Z dim.
Proof.
  intros H0 H1 [D1 D2]. zq D1.
  assert (inject_Z dim <= inject_Z (2 ^ 53)) as D2' by (now rewrite <- Zle_Qle).
  assert (inject_Z (2 ^ 53) <= inject_Z (2 ^ 80)) as D3
    by (rewrite <- Zle_Qle; vm_compute; discriminate).
  assert (0 <= x / 1000 <= 1) as [X0 X1].
  { split.
    - apply Qle_shift_div_l; lra.
    - apply Qle_shift_div_r; lra. }
  assert (0 <= x / 1000 * inject_Z dim <= inject_Z dim) as [S0 S1] by (split; nra).
  split; [| split; assumption].
  unfold fmul_int. apply fmul_val.
  - apply fdiv_lit_val; [apply fval_Fin | lra |].
    apply Qle_trans with 1; [exact X1 |].
    rewrite <- (Zle_Qle 1). vm_compute. discriminate.
  - apply fval_of_int.
  - exact S0.
  - lra.
Qed.









End RoundTripFacts.

(** ** Base64 payloads *)

Section Base64Facts.

Import Base64.

(** Lists are consumed three bytes at a time. *)
Lemma list_ind3 (A : Type) (P : list A -> Prop) :
  P [] -> (forall a, P [a]) -> (forall a b, P [a; b]) ->
  (forall a b c rest, P rest -> P (a :: b :: c :: rest)) ->
  forall l, P l.
Proof.
  intros H0 H1 H2 H3.
  fix IH 1.
  intros [| a [| b [| c rest]]];
    [exact H0 | apply H1 | apply H2 | apply H3; apply IH].
Qed.

(** *** The two tables *)

Lemma sextet_table_check :
  forallb (fun n =>
     let c := b2a (Z.of_nat n) in
     negb (Ascii.eqb c pad_char) && negb (64 <=? a2b c) && (a2b c =? Z.of_nat n)
     && is_ascii7 c && negb (is_space c) && negb (Ascii.eqb ":"%char c))
    (seq 0 64) = true.
Proof. vm_compute. reflexivity. Qed.

Lemma sextet_table (n : Z) :
  0 <= n < 64 ->
  Ascii.eqb (b2a n) pad_char = false /\ (64 <=? a2b (b2a n)) = false /\
  a2b (b2a n) = n /\ is_ascii7 (b2a n) = true /\ is_space (b2a n) = false /\
  b2a n <> ":"%char.
Proof.
  intros Hn.
  pose proof sextet_table_check as T.
  rewrite forallb_forall in T.
  specialize (T (Z.to_nat n)).
  rewrite Z2Nat.id in T by lia.
  assert (In (Z.to_nat n) (seq 0 64)) as I by (apply in_seq; lia).
  specialize (T I). cbv zeta in T.
  repeat (apply andb_prop in T; destruct T as [T ?]).
  repeat match goal with
         | H : negb _ = true |- _ => apply negb_true_iff in H
         end.
  repeat split; auto.
  - now apply Z.eqb_eq.
  - intros E. rewrite E in *. match goal with
      | H : Ascii.eqb ":" ":" = false |- _ => discriminate H end.
Qed.

(** *** Regrouping 3 x 8 bits as 4 x 6 bits, checked on all byte values *)

Lemma regroup_check :
  forallb (fun x => forallb (fun y =>
     let a := Z.of_nat x in
     let b := Z.of_nat y in
     let s0 := Z.shiftr a 2 in
     let s1 := Z.lor (Z.shiftl (Z.land a 3) 4) (Z.shiftr b 4) in
     let s2 := Z.lor (Z.shiftl (Z.land a 15) 2) (Z.shiftr b 6) in
     let s3 := Z.land b 63 in
     (s0 <? 64) && (0 <=? s0) && (s1 <? 64) && (0 <=? s1)
     && (s2 <? 64) && (0 <=? s2) && (s3 <? 64) && (0 <=? s3)
     && ((Z.lor (Z.shiftl s0 2) (Z.shiftr s1 4)) mod 256 =? a)
     && (Z.land s1 15 =? Z.shiftr b 4)
     && (Z.shiftr s2 2 =? Z.land a 15)
     && ((Z.lor (Z.shiftl (Z.shiftr a 4) 4) (Z.land a 15)) mod 256 =? a)
     && ((Z.lor (Z.shiftl (Z.land s2 3) 6) s3) mod 256 =? b))
    (seq 0 256)) (seq 0 256) = true.
Proof. vm_compute. reflexivity. Qed.

Lemma regroup (a b : Z) :
  0 <= a < 256 -> 0 <= b < 256 ->
  let s0 := Z.shiftr a 2 in
  let s1 := Z.lor (Z.shiftl (Z.land a 3) 4) (Z.shiftr b 4) in
  let s2 := Z.lor (Z.shiftl (Z.land a 15) 2) (Z.shiftr b 6) in
  let s3 := Z.land b 63 in
  (0 <= s0 < 64 /\ 0 <= s1 < 64 /\ 0 <= s2 < 64 /\ 0 <= s3 < 64) /\
  (Z.lor (Z.shiftl s0 2) (Z.shiftr s1 4)) mod 256 = a /\
  Z.land s1 15 = Z.shiftr b 4 /\
  Z.shiftr s2 2 = Z.land a 15 /\
  (Z.lor (Z.shiftl (Z.shiftr a 4) 4) (Z.land a 15)) mod 256 = a /\
  (Z.lor (Z.shiftl (Z.land s2 3) 6) s3) mod 256 = b.
Proof.
  intros Ha Hb.
  pose proof regroup_check as T.
  rewrite forallb_forall in T.
  specialize (T (Z.to_nat a)).
  assert (In (Z.to_nat a) (seq 0 256)) as Ia by (apply in_seq; lia).
  specialize (T Ia). rewrite forallb_forall in T.
  specialize (T (Z.to_nat b)).
  assert (In (Z.to_nat b) (seq 0 256)) as Ib by (apply in_seq; lia).
  specialize (T Ib).
  rewrite !Z2Nat.id in T by lia. cbv zeta in T.
  repeat (apply andb_prop in T; destruct T as [T ?]).
  repeat match goal with
         | H : (_ =? _) = true |- _ => apply Z.eqb_eq in H
         | H : (_ <? _) = true |- _ => apply Z.ltb_lt in H
         | H : (_ <=? _) = true |- _ => apply Z.leb_le in H
         end.
  cbv zeta. repeat split; assumption.
Qed.

Lemma byte_val_range (b : byte) : 0 <= byte_val b < 256.
Proof.
  unfold byte_val. pose proof (Byte.to_N_bounded b). lia.
Qed.

Lemma byte_of_Z_val (z : Z) (b : byte) : z mod 256 = byte_val b -> byte_of_Z z = b.
Proof.
  intros H. unfold byte_of_Z. rewrite H. unfold byte_val.
  rewrite N2Z.id, Byte.of_to_N. reflexivity.
Qed.

(** *** The codec *)

(** One data character through the decoding loop. *)
Lemma a2b_loop_data (n : Z) (rest : str) (quad_pos : nat) (leftchar : Z) (pads : nat) :
  0 <= n < 64 ->
  a2b_loop (b2a n :: rest) quad_pos leftchar pads =
  match quad_pos with
  | O => a2b_loop rest 1 n 0
  | 1%nat =>
      emit (byte_of_Z (Z.lor (Z.shiftl leftchar 2) (Z.shiftr n 4)))
           (a2b_loop rest 2 (Z.land n 15) 0)
  | 2%nat =>
      emit (byte_of_Z (Z.lor (Z.shiftl leftchar 4) (Z.shiftr n 2)))
           (a2b_loop rest 3 (Z.land n 3) 0)
  | _ =>
      emit (byte_of_Z (Z.lor (Z.shiftl leftchar 6) n)) (a2b_loop rest 0 0 0)
  end.
Proof.
  intros Hn. destruct (sextet_table n Hn) as (E1 & E2 & E3 & _).
  cbn [a2b_loop]. rewrite E1. cbv zeta. rewrite E2, E3. reflexivity.
Qed.

Lemma pad_with_zero (x : Z) : x = Z.lor x (Z.shiftr 0 4).
Proof. change (Z.shiftr 0 4) with 0. now rewrite Z.lor_0_r. Qed.

Lemma pad_with_zero6 (x : Z) : x = Z.lor x (Z.shiftr 0 6).
Proof. change (Z.shiftr 0 6) with 0. now rewrite Z.lor_0_r. Qed.

(** Decoding what the encoder wrote gives the bytes back. *)
Lemma b64_codec_roundtrip (data : list byte) :
  a2b_loop (b64encode data) 0 0 0 = Ok data.
Proof.
  induction data as [| a | a b | a b c rest IH] using list_ind3.
  - reflexivity.
  - cbn [b64encode]. cbv zeta.
    pose proof (byte_val_range a) as Ra.
    rewrite (pad_with_zero (Z.shiftl (Z.land (byte_val a) 3) 4)).
    destruct (regroup (byte_val a) 0 Ra ltac:(lia))
      as ((R0 & R1 & _ & _) & F1 & _).
    cbv zeta in *.
    rewrite a2b_loop_data by exact R0.
    rewrite a2b_loop_data by exact R1.
    cbn [a2b_loop Ascii.eqb pad_char Bool.eqb Nat.leb Nat.add andb emit].
    rewrite (byte_of_Z_val _ a F1). reflexivity.
  - cbn [b64encode]. cbv zeta.
    pose proof (byte_val_range a) as Ra. pose proof (byte_val_range b) as Rb.
    rewrite (pad_with_zero6 (Z.shiftl (Z.land (byte_val b) 15) 2)).
    destruct (regroup (byte_val a) (byte_val b) Ra Rb)
      as ((R0 & R1 & _ & _) & F1 & G1 & _ & _ & _).
    destruct (regroup (byte_val b) 0 Rb ltac:(lia))
      as ((_ & _ & R2 & _) & _ & _ & G2 & G3 & _).
    cbv zeta in *.
    rewrite a2b_loop_data by exact R0.
    rewrite a2b_loop_data by exact R1.
    rewrite a2b_loop_data by exact R2.
    cbn [a2b_loop Ascii.eqb pad_char Bool.eqb Nat.leb Nat.add andb emit].
    rewrite (byte_of_Z_val _ a F1).
    rewrite G1, G2. rewrite (byte_of_Z_val _ b G3). reflexivity.
  - cbn [b64encode]. cbv zeta.
    pose proof (byte_val_range a) as Ra. pose proof (byte_val_range b) as Rb.
    pose proof (byte_val_range c) as Rc.
    destruct (regroup (byte_val a) (byte_val b) Ra Rb)
      as ((R0 & R1 & _ & _) & F1 & G1 & _ & _ & _).
    destruct (regroup (byte_val b) (byte_val c) Rb Rc)
      as ((_ & _ & R2 & R3) & _ & _ & G2 & G3 & F3).
    cbv zeta in *.
    rewrite a2b_loop_data by exact R0.
    rewrite a2b_loop_data by exact R1.
    rewrite a2b_loop_data by exact R2.
    rewrite a2b_loop_data by exact R3.
    rewrite IH. cbn [emit].
    rewrite (byte_of_Z_val _ a F1).
    rewrite G1, G2. rewrite (byte_of_Z_val _ b G3).
    rewrite (byte_of_Z_val _ c F3). reflexivity.
Qed.

(** The encoder writes groups of four characters, at least one for a
    non-empty input, and none of them is whitespace, a colon or non-ASCII. *)
Lemma b64encode_length (data : list byte) :
  exists m, List.length (b64encode data) = (4 * m)%nat /\ (data <> [] -> (1 <= m)%nat).
Proof.
  induction data as [| a | a b | a b c rest IH] using list_ind3.
  - exists 0%nat. split; [reflexivity | congruence].
  - exists 1%nat. split; [reflexivity | lia].
  - exists 1%nat. split; [reflexivity | lia].
  - destruct IH as (m & E & _). exists (S m). cbn [b64encode List.length].
    rewrite E. split; lia.
Qed.

Lemma b64encode_chars (data : list byte) :
  Forall (fun ch => is_ascii7 ch = true /\ is_space ch = false /\ ch <> ":"%char)
         (b64encode data).
Proof.
  assert (forall n, 0 <= n < 64 ->
            is_ascii7 (b2a n) = true /\ is_space (b2a n) = false /\ b2a n <> ":"%char)
    as T by (intros n Hn; destruct (sextet_table n Hn) as (_ & _ & _ & ? & ? & ?); auto).
  assert (is_ascii7 pad_char = true /\ is_space pad_char = false /\ pad_char <> ":"%char)
    as Tp by (repeat split; try reflexivity; discriminate).
  induction data as [| a | a b | a b c rest IH] using list_ind3.
  - constructor.
  - cbn [b64encode]. cbv zeta. pose proof (byte_val_range a) as Ra.
    rewrite (pad_with_zero (Z.shiftl (Z.land (byte_val a) 3) 4)).
    destruct (regroup (byte_val a) 0 Ra ltac:(lia)) as ((R0 & R1 & _ & _) & _).
    cbv zeta in *.
    repeat (apply Forall_cons; [first [apply T; assumption | exact Tp] |]).
    apply Forall_nil.
  - cbn [b64encode]. cbv zeta.
    pose proof (byte_val_range a) as Ra. pose proof (byte_val_range b) as Rb.
    rewrite (pad_with_zero6 (Z.shiftl (Z.land (byte_val b) 15) 2)).
    destruct (regroup (byte_val a) (byte_val b) Ra Rb) as ((R0 & R1 & _ & _) & _).
    destruct (regroup (byte_val b) 0 Rb ltac:(lia)) as ((_ & _ & R2 & _) & _).
    cbv zeta in *.
    repeat (apply Forall_cons; [first [apply T; assumption | exact Tp] |]).
    apply Forall_nil.
  - cbn [b64encode]. cbv zeta.
    pose proof (byte_val_range a) as Ra. pose proof (byte_val_range b) as Rb.
    pose proof (byte_val_range c) as Rc.
    destruct (regroup (byte_val a) (byte_val b) Ra Rb) as ((R0 & R1 & _ & _) & _).
    destruct (regroup (byte_val b) (byte_val c) Rb Rc) as ((_ & _ & R2 & R3) & _).
    cbv zeta in *.
    repeat (apply Forall_cons; [apply T; assumption |]). exact IH.
Qed.

(** *** Stripping, splitting and whitespace removal *)

Lemma lstrip_spaces_app (l s : str) :
  forallb is_space l = true -> lstrip (l ++ s) = lstrip s.
Proof.
  induction l as [| c l IH]; cbn [forallb app lstrip]; [reflexivity |].
  intros H. apply andb_prop in H as [Hc Hl]. rewrite Hc. auto.
Qed.

Lemma lstrip_app_keep (x y : str) :
  remove_ws x <> [] -> lstrip (x ++ y) = lstrip x ++ y.
Proof.
  induction x as [| c x IH]; cbn [remove_ws filter app lstrip]; [congruence |].
  destruct (is_space c); cbn [negb]; [exact IH | reflexivity].
Qed.

Lemma remove_ws_lstrip (s : str) : remove_ws (lstrip s) = remove_ws s.
Proof.
  induction s as [| c s IH]; [reflexivity |].
  cbn [lstrip]. destruct (is_space c) eqn:E; [| reflexivity].
  unfold remove_ws in *. cbn [filter]. rewrite E. exact IH.
Qed.

Lemma remove_ws_rev (s : str) : remove_ws (rev s) = rev (remove_ws s).
Proof.
  unfold remove_ws. induction s as [| c s IH]; [reflexivity |].
  cbn [rev filter]. rewrite filter_app, IH. cbn [filter].
  destruct (negb (is_space c)); cbn [rev]; [reflexivity | apply app_nil_r].
Qed.

Lemma remove_ws_rstrip (s : str) : remove_ws (rstrip s) = remove_ws s.
Proof.
  unfold rstrip.
  rewrite remove_ws_rev, remove_ws_lstrip, remove_ws_rev, rev_involutive.
  reflexivity.
Qed.

Lemma remove_ws_strip (s : str) : remove_ws (strip s) = remove_ws s.
Proof. unfold strip. now rewrite remove_ws_rstrip, remove_ws_lstrip. Qed.

Lemma remove_ws_spaces (l : str) : forallb is_space l = true -> remove_ws l = [].
Proof.
  unfold remove_ws. induction l as [| c l IH]; cbn [forallb filter]; [reflexivity |].
  intros H. apply andb_prop in H as [Hc Hl]. rewrite Hc. cbn [negb]. auto.
Qed.

Lemma rstrip_app_keep (a b : str) :
  remove_ws b <> [] -> rstrip (a ++ b) = a ++ rstrip b.
Proof.
  intros H. unfold rstrip. rewrite rev_app_distr, lstrip_app_keep.
  - now rewrite rev_app_distr, rev_involutive.
  - rewrite remove_ws_rev. intros E. apply H.
    apply (f_equal (@rev ascii)) in E. now rewrite rev_involutive in E.
Qed.

Lemma startswith_app (p s : str) : startswith p (p ++ s) = true.
Proof.
  induction p as [| c p IH]; [reflexivity |].
  cbn [app startswith]. now rewrite Ascii.eqb_refl, IH.
Qed.

Lemma after_first_app (sep : ascii) (x y : str) :
  ~ In sep x -> after_first sep (x ++ sep :: y) = Some y.
Proof.
  induction x as [| c x IH]; cbn [app after_first In]; intros N.
  - now rewrite Ascii.eqb_refl.
  - destruct (Ascii.eqb_spec c sep) as [E | _]; [exfalso; auto |]. apply IH. tauto.
Qed.

Lemma startswith_data_colon (s : str) :
  startswith (lit "data:") s = true -> In ":"%char s.
Proof.
  change (lit "data:") with ["d"%char; "a"%char; "t"%char; "a"%char; ":"%char].
  destruct s as [| c1 [| c2 [| c3 [| c4 [| c5 r]]]]]; cbn [startswith];
    rewrite ?andb_false_r; try discriminate.
  intros H. do 4 apply andb_prop in H as [_ H]. apply andb_prop in H as [H _].
  apply Ascii.eqb_eq in H. subst c5. cbn [In]. do 4 right. now left.
Qed.

Lemma In_lstrip (c : ascii) (s : str) : In c (lstrip s) -> In c s.
Proof.
  induction s as [| d s IH]; cbn [lstrip]; [tauto |].
  destruct (is_space d); [intros H; right; auto | tauto].
Qed.

Lemma In_strip (c : ascii) (s : str) : In c (strip s) -> In c s.
Proof.
  unfold strip, rstrip. intros H.
  apply In_lstrip. apply In_rev. apply In_lstrip. now apply In_rev in H.
Qed.

(** *** The payload after cleaning *)

(** What [decode_base64_bytes] does once the payload is isolated: pad it back
    to a multiple of four and decode. *)
Lemma repad_and_decode (data : list byte) (payload : str) (k : nat) :
  data <> [] -> (k <= 2)%nat ->
  payload ++ repeat pad_char k = b64encode data ->
  match payload with
  | [] => Raise (ValueError "Empty base64 payload")
  | _ :: _ =>
      let padding := (List.length payload mod 4)%nat in
      let cleaned :=
        if (padding =? 0)%nat then payload
        else payload ++ repeat pad_char (4 - padding) in
      b64decode cleaned
  end = Ok data.
Proof.
  intros Hne Hk E.
  destruct (b64encode_length data) as (m & Hlen & Hm). specialize (Hm Hne).
  assert (List.length payload = (4 * m - k)%nat) as Lp.
  { apply (f_equal (@List.length ascii)) in E.
    rewrite length_app, repeat_length, Hlen in E. lia. }
  assert (b64decode (b64encode data) = Ok data) as D.
  { unfold b64decode.
    assert (forallb is_ascii7 (b64encode data) = true) as A.
    { apply forallb_forall. intros ch I.
      pose proof (b64encode_chars data) as F. rewrite Forall_forall in F.
      now apply F. }
    rewrite A. apply b64_codec_roundtrip. }
  destruct payload as [| ch payload']; [cbn [List.length] in Lp; lia |].
  cbv zeta. rewrite Lp.
  destruct k as [| [| [| k]]]; [| | | lia].
  - replace (4 * m - 0)%nat with (0 + m * 4)%nat by lia.
    rewrite Nat.Div0.mod_add. cbn [Nat.modulo Nat.eqb].
    change (0 mod 4)%nat with 0%nat. cbn [Nat.eqb].
    cbn [repeat] in E. rewrite app_nil_r in E. now rewrite E.
  - replace (4 * m - 1)%nat with (3 + (m - 1) * 4)%nat by lia.
    rewrite Nat.Div0.mod_add. change (3 mod 4)%nat with 3%nat.
    cbn [Nat.eqb Nat.sub]. now rewrite E.
  - replace (4 * m - 2)%nat with (2 + (m - 1) * 4)%nat by lia.
    rewrite Nat.Div0.mod_add. change (2 mod 4)%nat with 2%nat.
    cbn [Nat.eqb Nat.sub]. now rewrite E.
Qed.

(** C9, as amended.  For every non-empty byte string, [decode_base64_bytes]
    returns exactly the original bytes when it is applied to the output of
    the standard encoder, possibly with leading whitespace and a
    [data:<header>,] prefix in front (the header holding no comma, as in
    [data:<mime>;base64,]), possibly with [k] of its trailing pad characters
    removed, and possibly with whitespace inserted anywhere in the payload. *)
Theorem decode_base64_roundtrip (data : list byte) (lead hdr body : str)
    (with_prefix : bool) (k : nat) :
  data <> [] ->
  forallb is_space lead = true ->
  ~ In ","%char hdr ->
  (k <= 2)%nat ->
  remove_ws body ++ repeat pad_char k = b64encode data ->
  decode_base64_bytes
    (lead ++ (if with_prefix then lit "data:" ++ hdr ++ [","%char] else []) ++ body)
  = Ok data.
Proof.
  intros Hne Hlead Hhdr Hk E.
  destruct (b64encode_length data) as (m & Hlen & Hm). specialize (Hm Hne).
  assert (remove_ws body <> []) as Hbody.
  { intros Z. rewrite Z in E. apply (f_equal (@List.length ascii)) in E.
    cbn [app] in E. rewrite repeat_length, Hlen in E. lia. }
  unfold decode_base64_bytes. cbv zeta.
  assert ((let cleaned := strip (lead ++ (if with_prefix
                                         then lit "data:" ++ hdr ++ [","%char]
                                         else []) ++ body) in
           remove_ws (if startswith (lit "data:") cleaned
                      then split_comma_last cleaned else cleaned))
          = remove_ws body) as C.
  { cbv zeta. destruct with_prefix.
    - assert (strip (lead ++ (lit "data:" ++ hdr ++ [","%char]) ++ body)
              = lit "data:" ++ (hdr ++ ","%char :: rstrip body)) as S.
      { unfold strip. rewrite (lstrip_spaces_app lead _ Hlead).
        change (lstrip ((lit "data:" ++ hdr ++ [","%char]) ++ body))
          with ((lit "data:" ++ hdr ++ [","%char]) ++ body).
        rewrite rstrip_app_keep by exact Hbody.
        rewrite <- !app_assoc. reflexivity. }
      rewrite S, startswith_app.
      unfold split_comma_last.
      rewrite app_assoc, after_first_app.
      + apply remove_ws_rstrip.
      + intros I. apply in_app_or in I as [I | I]; [| auto].
        cbn in I. repeat (destruct I as [I | I]; [discriminate I |]). exact I.
    - cbn [app].
      destruct (startswith (lit "data:") (strip (lead ++ body))) eqn:Sw.
      + exfalso. apply startswith_data_colon, In_strip in Sw.
        assert (In ":"%char (b64encode data)) as I.
        { rewrite <- E. apply in_or_app. left.
          unfold remove_ws. apply filter_In.
          apply in_app_or in Sw as [Sw | Sw].
          - rewrite forallb_forall in Hlead. apply Hlead in Sw. discriminate Sw.
          - split; [exact Sw | reflexivity]. }
        pose proof (b64encode_chars data) as F. rewrite Forall_forall in F.
        destruct (F _ I) as (_ & _ & N). now apply N.
      + rewrite remove_ws_strip. unfold remove_ws. rewrite filter_app.
        fold (remove_ws lead). now rewrite (remove_ws_spaces lead Hlead). }
  cbv zeta in C. rewrite C.
  apply (repad_and_decode data (remove_ws body) k Hne Hk E).
Qed.

Lemma decode_base64_roundtrip_witness :
  decode_base64_bytes (lit "  data:image/png;base64,SGVs bG8") =
  Ok ["H"%byte; "e"%byte; "l"%byte; "l"%byte; "o"%byte].
Proof.
  apply (decode_base64_roundtrip
           ["H"%byte; "e"%byte; "l"%byte; "l"%byte; "o"%byte]
           (lit "  ") (lit "image/png;base64") (lit "SGVs bG8") true 1).
  - discriminate.
  - reflexivity.
  - cbn. intros H. repeat (destruct H as [H | H]; [discriminate H |]). exact H.
  - lia.
  - reflexivity.
Defined.

(** C9, counterexample.  The standard encoder maps the empty byte string to
    the empty string, which [decode_base64_bytes] rejects, with or without a
    data-URL prefix. *)
Lemma decode_base64_empty_raises :
  b64encode [] = [] /\
  decode_base64_bytes (b64encode []) = Raise (ValueError "Empty base64 payload") /\
  decode_base64_bytes (lit "data:image/png;base64," ++ b64encode [])
    = Raise (ValueError "Empty base64 payload").
Proof. repeat split; reflexivity. Qed.

End Base64Facts.

(** ** Candidate selection *)

Section SelectionFacts.

Import Scoring.
Local Open Scope Q_scope.

Variable Image : Type.
Variable image_size : Image -> Z * Z.
Variable hypot : Q -> Q -> Q.
Variable gradient_mean : Image -> Z * Z * Z * Z -> Q.
Variable mask_fill : list byte -> Res Q.
Variable array_to_png : list (list pyfloat) -> list byte.

Let score_candidate :=
  _score_candidate Image image_size hypot gradient_mean mask_fill array_to_png.
Let select_candidate :=
  _select_candidate Image image_size hypot gradient_mean mask_fill array_to_png.

(** The scan of [max]: the result is a position of the whole list whose key
    is maximal, and the first such position. *)
Lemma argmax_from_spec (keys pre : list Q) (best : nat) (best_key : Q) :
  nth_error pre best = Some best_key ->
  (forall j k, nth_error pre j = Some k ->
     k <= best_key /\ (k == best_key -> (best <= j)%nat)) ->
  exists kr,
    nth_error (pre ++ keys) (argmax_from keys (List.length pre) best best_key) = Some kr /\
    forall j k, nth_error (pre ++ keys) j = Some k ->
      k <= kr /\ (k == kr -> (argmax_from keys (List.length pre) best best_key <= j)%nat).
Proof.
  revert pre best best_key.
  induction keys as [| k keys IH]; intros pre best best_key Hb Hmax.
  - cbn [argmax_from]. rewrite app_nil_r. exists best_key. split; assumption.
  - cbn [argmax_from].
    assert ((best < List.length pre)%nat) as Lb
      by (apply nth_error_Some; congruence).
    replace (pre ++ k :: keys) with ((pre ++ [k]) ++ keys)
      by (rewrite <- app_assoc; reflexivity).
    replace (S (List.length pre)) with (List.length (pre ++ [k]))
      by (rewrite length_app; cbn; lia).
    destruct (Qle_bool k best_key) eqn:E.
    + apply Qle_bool_iff in E. apply IH.
      * rewrite nth_error_app1 by exact Lb. exact Hb.
      * intros j kj Hj.
        destruct (Nat.lt_ge_cases j (List.length pre)) as [Lj | Gj].
        -- rewrite nth_error_app1 in Hj by exact Lj. now apply Hmax.
        -- rewrite nth_error_app2 in Hj by exact Gj.
           destruct (j - List.length pre)%nat as [| d] eqn:D; cbn in Hj.
           ++ injection Hj as <-. split; [exact E | intros _; lia].
           ++ destruct d; discriminate Hj.
    + assert (best_key < k) as Lt.
      { apply Qnot_le_lt. intros C. apply Qle_bool_iff in C. congruence. }
      apply IH.
      * rewrite nth_error_app2 by lia. now rewrite Nat.sub_diag.
      * intros j kj Hj.
        destruct (Nat.lt_ge_cases j (List.length pre)) as [Lj | Gj].
        -- rewrite nth_error_app1 in Hj by exact Lj.
           destruct (Hmax j kj Hj) as [Hle _].
           split; [lra | intros Eq; lra].
        -- rewrite nth_error_app2 in Hj by exact Gj.
           destruct (j - List.length pre)%nat as [| d] eqn:D; cbn in Hj.
           ++ injection Hj as <-. split; [lra | intros _; lia].
           ++ destruct d; discriminate Hj.
Qed.

Lemma py_argmax_spec (keys : list Q) :
  keys <> [] ->
  exists best kr,
    py_argmax keys = Ok best /\ nth_error keys best = Some kr /\
    forall j k, nth_error keys j = Some k -> k <= kr /\ (k == kr -> (best <= j)%nat).
Proof.
  destruct keys as [| k0 keys]; [congruence | intros _].
  destruct (argmax_from_spec keys [k0] 0 k0) as (kr & Hr & Hmax).
  - reflexivity.
  - intros [| j] k Hj; cbn in Hj.
    + injection Hj as <-. split; [lra | intros _; lia].
    + destruct j; discriminate Hj.
  - exists (argmax_from keys 1 0 k0), kr. repeat split.
    + exact Hr.
    + exact (proj1 (Hmax j k H)).
    + exact (proj2 (Hmax j k H)).
Qed.


End SelectionFacts.

Section SelectionExamples.

Import Scoring Stub.
Local Open Scope Q_scope.


(** The override wins even over a better scored candidate, and the automatic
    choice is the best scored one. *)
Example select_override_and_auto :
  (exists chosen scored,
     _select_candidate StubImage stub_size norm1 flat_gradient full_mask_fill no_png
       [full_frame_candidate; centred_candidate] (640, 480)%Z "auto" false
       (Some 0%Z) (8 # 100) (70 # 100) = Ok (chosen, scored, 0%Z) /\
     item chosen = full_frame_candidate) /\
  (exists chosen scored,
     _select_candidate StubImage stub_size norm1 flat_gradient full_mask_fill no_png
       [full_frame_candidate; centred_candidate] (640, 480)%Z "auto" false
       None (8 # 100) (70 # 100) = Ok (chosen, scored, 1%Z) /\
     item chosen = centred_candidate).
Proof.
  split; do 2 eexists; split; vm_compute; reflexivity.
Qed.

End SelectionExamples.

(** ** Candidate scoring *)

Section ScoringFacts.

Import Geometry Scoring.
Local Open Scope Q_scope.

(** Whatever the box, pixel coordinates that come back lie inside the image
    and are ordered. *)
Lemma box_to_px_bounds (box : list pyfloat) (width height x0 y0 x1 y1 : Z) :
  (1 <= width)%Z -> (1 <= height)%Z ->
  _box_to_px box width height = Ok (x0, y0, x1, y1) ->
  (0 <= x0 < x1)%Z /\ (x1 <= width)%Z /\ (0 <= y0 < y1)%Z /\ (y1 <= height)%Z.
Proof.
  intros Hw Hh. unfold _box_to_px.
  destruct box as [| b0 [| b1 [| b2 [| b3 [| b4 rest]]]]]; try discriminate.
  destruct (py_round (fmul_int (fdiv_lit b1 1000) width)) as [rx0 |]; [| discriminate].
  destruct (py_round (fmul_int (fdiv_lit b3 1000) width)) as [rx1 |]; [| discriminate].
  destruct (py_round (fmul_int (fdiv_lit b0 1000) height)) as [ry0 |]; [| discriminate].
  destruct (py_round (fmul_int (fdiv_lit b2 1000) height)) as [ry1 |]; [| discriminate].
  cbn [res_bind]. intros E. injection E as <- <- <- <-.
  repeat match goal with
         | |- context [(?a <=? ?b)%Z] => destruct (Z.leb_spec a b)
         end; lia.
Qed.

Lemma qmax_spec (a b : Q) : (b <= a -> qmax a b = a) /\ (a < b -> qmax a b = b).
Proof.
  unfold qmax. destruct (Qle_bool b a) eqn:E.
  - apply Qle_bool_iff in E. split; [reflexivity | intros; lra].
  - split; [| reflexivity]. intros L. apply Qle_bool_iff in L. congruence.
Qed.

Lemma qmin_spec (a b : Q) : (a <= b -> qmin a b = a) /\ (b < a -> qmin a b = b).
Proof.
  unfold qmin. destruct (Qle_bool a b) eqn:E.
  - apply Qle_bool_iff in E. split; [reflexivity | intros; lra].
  - split; [| reflexivity]. intros L. apply Qle_bool_iff in L. congruence.
Qed.

Lemma unit_clamp_range (x : Q) : 0 <= qmax 0 (qmin 1 x) <= 1.
Proof.
  destruct (Qlt_le_dec x 1) as [L | G].
  - rewrite (proj2 (qmin_spec 1 x) L).
    destruct (Qlt_le_dec 0 x) as [P | N].
    + rewrite (proj2 (qmax_spec 0 x) P). lra.
    + rewrite (proj1 (qmax_spec 0 x) N). lra.
  - rewrite (proj1 (qmin_spec 1 x) G).
    rewrite (proj2 (qmax_spec 0 1)) by lra. lra.
Qed.

Lemma clip01_range (x : Q) : 0 <= clip01 x <= 1.
Proof.
  unfold clip01.
  destruct (Qlt_le_dec x 0) as [N | P].
  - rewrite (proj2 (qmax_spec x 0) N).
    rewrite (proj1 (qmin_spec 0 1)) by lra. lra.
  - rewrite (proj1 (qmax_spec x 0) P).
    destruct (Qlt_le_dec 1 x) as [G | L].
    + rewrite (proj2 (qmin_spec x 1) G). lra.
    + rewrite (proj1 (qmin_spec x 1) L). lra.
Qed.

Lemma area_score_range (r lo hi : Q) : 0 <= _area_score r lo hi <= 1.
Proof.
  unfold _area_score.
  destruct (Qle_bool r 0); [lra |].
  destruct (negb (Qle_bool lo r)); [apply unit_clamp_range |].
  destruct (negb (Qle_bool r hi)); [apply unit_clamp_range | lra].
Qed.

(** The final clamp [max(0.0, min(1.0, x))] on a finite value. *)
Lemma final_clamp (q : Q) :
  (q <= 0 -> float_value (py_max (Fin 0) (py_min (Fin 1) (Fin q))) = 0) /\
  (0 < q < 1 -> float_value (py_max (Fin 0) (py_min (Fin 1) (Fin q))) = q) /\
  (1 <= q -> float_value (py_max (Fin 0) (py_min (Fin 1) (Fin q))) = 1).
Proof.
  unfold py_min, py_max.
  destruct (flt (Fin q) (Fin 1)) eqn:E1.
  - apply flt_Fin in E1.
    destruct (flt (Fin 0) (Fin q)) eqn:E0.
    + apply flt_Fin in E0. repeat split; intros; try lra; reflexivity.
    + assert (~ 0 < q) as N by (intros C; apply flt_Fin in C; congruence).
      repeat split; intros; try lra; reflexivity.
  - assert (~ q < 1) as N by (intros C; apply flt_Fin in C; congruence).
    assert (flt (Fin 0) (Fin 1) = true) as E0 by reflexivity.
    rewrite E0. repeat split; intros; try lra; reflexivity.
Qed.

Variable Image : Type.
Variable image_size : Image -> Z * Z.
Variable hypot : Q -> Q -> Q.
Variable gradient_mean : Image -> Z * Z * Z * Z -> Q.
Variable mask_fill : list byte -> Res Q.
Variable array_to_png : list (list pyfloat) -> list byte.

(** What the proofs use of [math.hypot]. *)
Hypothesis hypot_nonneg : forall a b, 0 <= hypot a b.
Hypothesis hypot_strict :
  forall a b c d, Qabs a < c -> Qabs b < d -> hypot a b < hypot c d.

Lemma rectangularity_range (p : MaskPayload) :
  0 <= _rectangularity mask_fill array_to_png p <= 1.
Proof.
  unfold _rectangularity.
  destruct (negb (payload_truthy p)); [lra |].
  destruct (res_bind _ _); [apply clip01_range | lra].
Qed.







End ScoringFacts.

Section ScoringExamples.

Import Geometry Scoring Stub.
Local Open Scope Q_scope.




(** The scores of the full-frame candidate on a 640 x 480 image. *)
Example full_frame_scores :
  (exists s m, _score_candidate StubImage stub_size norm1 flat_gradient full_mask_fill
               no_png full_frame_candidate (640, 480)%Z "auto" false
               (8 # 100) (70 # 100) = Ok (s, m) /\ s == 26 # 100) /\
  (exists s m, _score_candidate StubImage stub_size norm1 flat_gradient full_mask_fill
               no_png full_frame_candidate (640, 480)%Z "auto" true
               (8 # 100) (70 # 100) = Ok (s, m) /\ s == 61 # 100).
Proof.
  split; do 2 eexists; split; vm_compute; reflexivity.
Qed.


End ScoringExamples.

(** ** Mask post-processing *)

Section PostprocessFacts.

Import Scoring Postprocess.

Lemma nth_error_zip_with {A B C : Type} (f : A -> B -> C) (l1 : list A) (l2 : list B)
    (n : nat) :
  nth_error (zip_with f l1 l2) n =
  match nth_error l1 n, nth_error l2 n with
  | Some x, Some y => Some (f x y)
  | _, _ => None
  end.
Proof.
  revert l2 n. induction l1 as [| x l1 IH]; intros [| y l2] [| n]; cbn; auto;
    destruct (nth_error l1 n); reflexivity.
Qed.

Lemma get2_zip2d (f : Z -> Z -> Z) (a b : arr) (r c : nat) :
  get2 (zip2d f a b) r c =
  match get2 a r c, get2 b r c with
  | Some x, Some y => Some (f x y)
  | _, _ => None
  end.
Proof.
  unfold get2, zip2d. rewrite nth_error_zip_with.
  destruct (nth_error a r) as [ra |], (nth_error b r) as [rb |]; try reflexivity.
  - apply nth_error_zip_with.
  - destruct (nth_error ra c); reflexivity.
Qed.

Variable morphologyEx : arr -> morph_op -> arr.
Variable connectedComponentsWithStats : arr -> Z * arr * list stat_row.

(** *** One pixel through the hole-filling loop *)

Section OnePixel.

Variable hole_labels : arr.
Variable hole_stats : list stat_row.
Variables width height hole_thresh : Z.
Variables r c : nat.
Variable label : Z.
Hypothesis pixel_label : get2 hole_labels r c = Some label.

Let step := fill_step hole_labels hole_stats width height hole_thresh.

Lemma fill_step_other (cleaned : arr) (other : Z) (v : Z) :
  other <> label -> get2 cleaned r c = Some v ->
  get2 (step cleaned other) r c = Some v.
Proof.
  intros Hne Hv. unfold step, fill_step.
  destruct (nth (Z.to_nat other) hole_stats (0, 0, 0, 0, 0)) as [[[[x y] w] h] area].
  destruct (_ || _ || _ || _)%bool; [exact Hv |].
  destruct (area <=? hole_thresh); [| exact Hv].
  rewrite get2_zip2d, Hv, pixel_label.
  destruct (Z.eqb_spec label other); [congruence | reflexivity].
Qed.

Lemma fill_step_keeps_one (cleaned : arr) (other : Z) :
  get2 cleaned r c = Some 1 -> get2 (step cleaned other) r c = Some 1.
Proof.
  intros Hv. unfold step, fill_step.
  destruct (nth (Z.to_nat other) hole_stats (0, 0, 0, 0, 0)) as [[[[x y] w] h] area].
  destruct (_ || _ || _ || _)%bool; [exact Hv |].
  destruct (area <=? hole_thresh); [| exact Hv].
  rewrite get2_zip2d, Hv, pixel_label.
  destruct (label =? other); reflexivity.
Qed.

Lemma fill_step_fills (cleaned : arr) (x y w h area v : Z) :
  nth_error hole_stats (Z.to_nat label) = Some (x, y, w, h, area) ->
  x <> 0 -> y <> 0 -> x + w < width -> y + h < height -> area <= hole_thresh ->
  get2 cleaned r c = Some v ->
  get2 (step cleaned label) r c = Some 1.
Proof.
  intros Hs Hx Hy Hw Hh Ha Hv. unfold step, fill_step.
  rewrite (nth_error_nth _ _ _ Hs).
  destruct (Z.eqb_spec x 0); [contradiction |].
  destruct (Z.eqb_spec y 0); [contradiction |].
  destruct (Z.leb_spec width (x + w)); [lia |].
  destruct (Z.leb_spec height (y + h)); [lia |].
  destruct (Z.leb_spec area hole_thresh); [| lia].
  cbn [orb]. rewrite get2_zip2d, Hv, pixel_label, Z.eqb_refl. reflexivity.
Qed.

Lemma fill_step_skips (cleaned : arr) (x y w h area : Z) :
  nth_error hole_stats (Z.to_nat label) = Some (x, y, w, h, area) ->
  x = 0 \/ y = 0 \/ width <= x + w \/ height <= y + h ->
  step cleaned label = cleaned.
Proof.
  intros Hs Hb. unfold step, fill_step.
  rewrite (nth_error_nth _ _ _ Hs).
  assert (((x =? 0) || (y =? 0) || (width <=? x + w) || (height <=? y + h))%bool = true)
    as E.
  { destruct Hb as [H | [H | [H | H]]].
    - apply Z.eqb_eq in H. now rewrite H.
    - apply Z.eqb_eq in H. rewrite H. now rewrite orb_true_r.
    - apply Z.leb_le in H. rewrite H. now rewrite orb_true_r.
    - apply Z.leb_le in H. rewrite H. now rewrite orb_true_r. }
  now rewrite E.
Qed.

Lemma fill_loop_keeps_one (labels : list Z) (cleaned : arr) :
  get2 cleaned r c = Some 1 -> get2 (fold_left step labels cleaned) r c = Some 1.
Proof.
  revert cleaned. induction labels as [| l labels IH]; intros cleaned Hv; [exact Hv |].
  cbn [fold_left]. apply IH. now apply fill_step_keeps_one.
Qed.

(** A hole that passes both tests is foreground after the loop. *)
Lemma fill_loop_fills (labels : list Z) (cleaned : arr) (x y w h area v : Z) :
  In label labels ->
  nth_error hole_stats (Z.to_nat label) = Some (x, y, w, h, area) ->
  x <> 0 -> y <> 0 -> x + w < width -> y + h < height -> area <= hole_thresh ->
  get2 cleaned r c = Some v ->
  get2 (fold_left step labels cleaned) r c = Some 1.
Proof.
  intros Hin Hs Hx Hy Hw Hh Ha. revert cleaned v.
  induction labels as [| l labels IH]; intros cleaned v Hv; [contradiction |].
  cbn [fold_left].
  destruct (Z.eq_dec l label) as [-> | Hne].
  - apply fill_loop_keeps_one. now apply (fill_step_fills cleaned x y w h area v).
  - destruct Hin as [E | Hin]; [congruence |].
    apply (IH Hin (step cleaned l) v). now apply fill_step_other.
Qed.

(** A hole whose bounding box touches the border is left as it is. *)
Lemma fill_loop_skips (labels : list Z) (cleaned : arr) (x y w h area v : Z) :
  nth_error hole_stats (Z.to_nat label) = Some (x, y, w, h, area) ->
  x = 0 \/ y = 0 \/ width <= x + w \/ height <= y + h ->
  get2 cleaned r c = Some v ->
  get2 (fold_left step labels cleaned) r c = Some v.
Proof.
  intros Hs Hb. revert cleaned.
  induction labels as [| l labels IH]; intros cleaned Hv; [exact Hv |].
  cbn [fold_left]. apply IH.
  destruct (Z.eq_dec l label) as [-> | Hne].
  - now rewrite (fill_step_skips cleaned x y w h area Hs Hb).
  - now apply fill_step_other.
Qed.

End OnePixel.

Lemma hole_range_In (num_holes label : Z) :
  1 <= label < num_holes -> In label (hole_range num_holes).
Proof.
  intros H. unfold hole_range. apply in_map_iff.
  exists (Z.to_nat label). split; [lia |]. apply in_seq. lia.
Qed.

Lemma clamped_hole_ratio_range (env_hole_ratio : option pyfloat) :
  ((1 # 1000) <= clamped_hole_ratio env_hole_ratio <= (5 # 100))%Q.
Proof.
  unfold clamped_hole_ratio.
  destruct env_hole_ratio as [[q | | |] |];
    try (cbn; split; unfold Qle; cbn; lia).
  unfold py_min, py_max.
  destruct (flt (Fin q) (Fin (5 # 100))) eqn:E1.
  - apply flt_Fin in E1.
    destruct (flt (Fin (1 # 1000)) (Fin q)) eqn:E0; cbn [float_value].
    + apply flt_Fin in E0. lra.
    + lra.
  - assert (flt (Fin (1 # 1000)) (Fin (5 # 100)) = true) as E0 by reflexivity.
    rewrite E0. cbn [float_value]. lra.
Qed.

(** An area below [max(1, height * width * ratio)] passes the integer test of
    the loop. *)
Lemma below_real_threshold (area height width : Z) (env_hole_ratio : option pyfloat) :
  0 <= height -> 0 <= width ->
  (inject_Z area
   < qmax 1 (inject_Z (height * width) * clamped_hole_ratio env_hole_ratio))%Q ->
  area <= hole_threshold height width env_hole_ratio.
Proof.
  intros Hh Hw Hlt. unfold hole_threshold.
  pose proof (clamped_hole_ratio_range env_hole_ratio) as [R0 R1].
  set (ratio := clamped_hole_ratio env_hole_ratio) in *. clearbody ratio.
  assert (0 <= inject_Z (height * width))%Q as Hhw.
  { rewrite <- (Zle_Qle 0). nia. }
  set (hw := inject_Z (height * width)) in *. clearbody hw.
  assert (0 <= hw * ratio)%Q as Ht by nra.
  unfold py_int. apply Qle_bool_iff in Ht as Hb. rewrite Hb.
  destruct (Qlt_le_dec 1 (hw * ratio)) as [L | G].
  - rewrite (proj2 (qmax_spec 1 (hw * ratio)) L) in Hlt.
    apply Qlt_le_weak, Qfloor_resp_le in Hlt. rewrite Qfloor_Z in Hlt. lia.
  - rewrite (proj1 (qmax_spec 1 (hw * ratio)) G) in Hlt.
    change 1%Q with (inject_Z 1) in Hlt.
    rewrite <- (Zlt_Qlt area 1) in Hlt. lia.
Qed.

(** C3.  In [_cleanup_binary_mask], for every binary input mask: a background
    component (a label of the inverted mask) whose bounding box does not
    touch the raster border and whose area is below
    [max(1, height * width * holeRatio)], with [holeRatio] clamped to
    [[0.001, 0.05]], has every pixel set to foreground; a component whose
    bounding box touches the border keeps every background pixel. *)
Theorem cleanup_fills_interior_holes_only (binary : arr)
    (env_hole_ratio : option pyfloat)
    (num_holes : Z) (hole_labels : arr) (hole_stats : list stat_row)
    (label x y w h area : Z) (r c : nat) :
  connectedComponentsWithStats
    (invert (keep_largest_component morphologyEx connectedComponentsWithStats binary))
    = (num_holes, hole_labels, hole_stats) ->
  1 <= label < num_holes ->
  nth_error hole_stats (Z.to_nat label) = Some (x, y, w, h, area) ->
  get2 hole_labels r c = Some label ->
  let cleaned := keep_largest_component morphologyEx connectedComponentsWithStats binary in
  let height := Z.of_nat (List.length (invert cleaned)) in
  let width := Z.of_nat (List.length (hd [] (invert cleaned))) in
  let result :=
    _cleanup_binary_mask morphologyEx connectedComponentsWithStats binary env_hole_ratio in
  (forall v,
     get2 cleaned r c = Some v ->
     x <> 0 -> y <> 0 -> x + w < width -> y + h < height ->
     (inject_Z area
      < qmax 1 (inject_Z (height * width) * clamped_hole_ratio env_hole_ratio))%Q ->
     get2 result r c = Some 1) /\
  (get2 cleaned r c = Some 0 ->
   x = 0 \/ y = 0 \/ width <= x + w \/ height <= y + h ->
   get2 result r c = Some 0).
Proof.
  intros Hcc Hl Hs Hp cleaned height width result.
  assert (result =
          fold_left (fill_step hole_labels hole_stats width height
                       (hole_threshold height width env_hole_ratio))
                    (hole_range num_holes) cleaned) as Er.
  { unfold result, _cleanup_binary_mask. rewrite Hcc. reflexivity. }
  rewrite Er. split.
  - intros v Hv Hx Hy Hw Hh Ha.
    apply (fill_loop_fills hole_labels hole_stats width height _ r c label Hp
             (hole_range num_holes) cleaned x y w h area v); auto.
    + now apply hole_range_In.
    + apply below_real_threshold; [unfold height; lia | unfold width; lia | exact Ha].
  - intros Hv Hb.
    now apply (fill_loop_skips hole_labels hole_stats width height _ r c label Hp
                 (hole_range num_holes) cleaned x y w h area 0).
Qed.

Lemma In_firstn {A : Type} (n : nat) (l : list A) (x : A) : In x (firstn n l) -> In x l.
Proof.
  revert n. induction l as [| y l IH]; intros [| n]; cbn; try tauto.
  intros [E | H]; [now left | right; eauto].
Qed.

Lemma In_skipn {A : Type} (n : nat) (l : list A) (x : A) : In x (skipn n l) -> In x l.
Proof.
  revert n. induction l as [| y l IH]; intros [| n]; cbn; try tauto.
  intros H. right. eauto.
Qed.

Lemma In_zip_with {A B C : Type} (f : A -> B -> C) (l1 : list A) (l2 : list B) (z : C) :
  In z (zip_with f l1 l2) -> exists x y, In x l1 /\ In y l2 /\ z = f x y.
Proof.
  revert l2. induction l1 as [| x l1 IH]; intros [| y l2]; cbn; try tauto.
  intros [E | H].
  - exists x, y. auto.
  - destruct (IH _ H) as (x' & y' & ? & ? & ?). exists x', y'. auto.
Qed.

(** Every pixel of a crop is a pixel of the image. *)
Lemma crop_pixels (a : arr) (rect : Z * Z * Z * Z) (row : list Z) (v : Z) :
  In row (crop a rect) -> In v row -> exists row0, In row0 a /\ In v row0.
Proof.
  destruct rect as [[[l t] rr] b]. unfold crop. intros Hr Hv.
  apply in_map_iff in Hr as (row0 & <- & Hin).
  exists row0. split.
  - eapply In_skipn, In_firstn, Hin.
  - eapply In_skipn, In_firstn, Hv.
Qed.

Variable MaskImage : Type.
Variable open_image_size : list byte -> Res (Z * Z).
Variable open_mask : list byte -> Res MaskImage.
Variable smooth_mask : MaskImage -> Z * Z * Z * Z -> Z * Z -> bool -> arr.
Variable edge_strength : arr -> Q.
Variable gaussian_blur : arr -> Q -> arr.
Variable getbbox : arr -> option (Z * Z * Z * Z).

(** C10.  With [feather = 0] every pixel of the alpha channel that
    [apply_mask] returns, full size or cropped, is either 0 or at least the
    clamped threshold. *)
Theorem alpha_zero_or_above_threshold (image_bytes mask_bytes : list byte)
    (box_2d : list pyfloat) (threshold feather padding : Z) (auto_enhance : bool)
    (env_hole_ratio : option pyfloat) (post : Post) :
  feather = 0 ->
  apply_mask morphologyEx connectedComponentsWithStats MaskImage open_image_size
    open_mask smooth_mask edge_strength gaussian_blur getbbox
    image_bytes mask_bytes box_2d threshold feather padding auto_enhance
    env_hole_ratio = Ok post ->
  (forall row v, In row (alpha post) -> In v row ->
     v = 0 \/ Z.max 0 (Z.min 255 threshold) <= v) /\
  (forall row v, In row (cutout_alpha post) -> In v row ->
     v = 0 \/ Z.max 0 (Z.min 255 threshold) <= v).
Proof.
  intros Hf. unfold apply_mask.
  destruct (as_value_error _ (open_image_size image_bytes)) as [[width height] |];
    [| discriminate].
  cbn [res_bind].
  destruct (as_value_error _ (open_mask mask_bytes)) as [mask_img |]; [| discriminate].
  cbn [res_bind].
  destruct (Geometry._normalize_box box_2d width height) as [box |]; [| discriminate].
  cbn [res_bind]. subst feather. cbn [Z.ltb Z.compare].
  set (thr := Z.max 0 (Z.min 255 threshold)).
  set (mask_np := astype_uint8 (smooth_mask mask_img box (width, height) auto_enhance)).
  set (cleaned := _cleanup_binary_mask _ _ _ _).
  set (alpha_np := zip2d _ cleaned mask_np).
  assert (forall row v, In row alpha_np -> In v row -> v = 0 \/ thr <= v) as Halpha.
  { intros row v Hr Hv. unfold alpha_np, zip2d in Hr.
    apply In_zip_with in Hr as (rc & rm & _ & Hrm & ->).
    apply In_zip_with in Hv as (cv & m & _ & Hm & ->).
    destruct (0 <? cv); [right | now left].
    unfold mask_np, astype_uint8, map2d in Hrm.
    apply in_map_iff in Hrm as (row0 & <- & _).
    apply in_map_iff in Hm as (m0 & <- & _).
    pose proof (Z.mod_pos_bound m0 256 ltac:(lia)).
    rewrite Z.mod_small; unfold thr; lia. }
  assert (forall rect row v, In row (crop alpha_np rect) -> In v row ->
            v = 0 \/ thr <= v) as Hcrop.
  { intros rect row v Hr Hv.
    destruct (crop_pixels _ _ _ _ Hr Hv) as (row0 & H0 & H1). eauto. }
  destruct (getbbox alpha_np) as [[[[b0 b1] b2] b3] |]; intros E;
    match type of E with Ok ?p = _ => set (returned := p) in E end;
    injection E as <-; (split; [exact Halpha | exact (Hcrop _)]).
Qed.

End PostprocessFacts.

Section PostprocessExamples.

Import Scoring Postprocess StubCv.

Lemma cleanup_fills_interior_holes_only_witness :
  get2 (_cleanup_binary_mask stub_morph stub_cc solid_with_hole (Some (Fin (1 # 100))))
       7 7 = Some 1.
Proof.
  refine (proj1 (cleanup_fills_interior_holes_only stub_morph stub_cc
                   solid_with_hole (Some (Fin (1 # 100)))
                   2 (map2d (fun v => if v =? 0 then 0 else 1) (invert solid_with_hole))
                   [(0, 0, 15, 15, 224); (7, 7, 1, 1, 1)]
                   1 7 7 1 1 1 7%nat 7%nat _ _ _ _) 0 _ _ _ _ _ _);
    try reflexivity; try lia; try discriminate.
Defined.

(** The interior hole is filled, the notch on the border is not. *)
Example cleanup_hole_and_notch :
  _cleanup_binary_mask stub_morph stub_cc solid_with_hole (Some (Fin (1 # 100)))
    = raster_with_hole 1 1 7 7 /\
  _cleanup_binary_mask stub_morph stub_cc solid_with_notch (Some (Fin (1 # 100)))
    = solid_with_notch.
Proof. split; vm_compute; reflexivity. Qed.

Lemma alpha_zero_or_above_threshold_witness :
  exists post,
    apply_mask stub_morph stub_cc arr stub_open_image_size stub_open_mask
      stub_smooth_mask stub_edge_strength stub_gaussian_blur stub_getbbox
      [] [] [Fin 0; Fin 0; Fin 1000; Fin 1000] 128 0 0 false (Some (Fin (1 # 100)))
      = Ok post /\
    forall row v, In row (alpha post) -> In v row -> v = 0 \/ 128 <= v.
Proof.
  eexists. split; [vm_compute; reflexivity |].
  refine (proj1 (alpha_zero_or_above_threshold stub_morph stub_cc arr
                   stub_open_image_size stub_open_mask stub_smooth_mask
                   stub_edge_strength stub_gaussian_blur stub_getbbox
                   [] [] [Fin 0; Fin 0; Fin 1000; Fin 1000] 128 0 0 false
                   (Some (Fin (1 # 100))) _ eq_refl _)).
  vm_compute. reflexivity.
Defined.

End PostprocessExamples.

(** ** Provider fallback *)

Section ProviderFacts.

Import Base64 Scoring Provider.

Variable new_sdk : Log -> list byte -> Res string.
Variable legacy_sdk : Log -> list byte -> Res string.
Variable local_model : Log -> list byte -> Res (list byte * list byte * Metadata).
Variable re_search_retry : string -> option string.
Variable float_of_str : string -> Res Q.
Variable extract_json : string -> Res JsonData.
Variable prepare_image : list byte -> Z -> Res (list byte).
Variable pil_image_size : list byte -> Res (Z * Z).

Let generate_with_fallback :=
  _generate_with_fallback new_sdk legacy_sdk local_model re_search_retry float_of_str
    extract_json prepare_image pil_image_size.
Let generate_with_retry :=
  _generate_with_retry new_sdk legacy_sdk re_search_retry float_of_str.
Let generate_candidates_with_retry :=
  _generate_candidates_with_retry new_sdk legacy_sdk re_search_retry float_of_str
    extract_json prepare_image.
Let run_local_segmentation :=
  _run_local_segmentation local_model pil_image_size.

(** C5.  With [processing_mode = "local"], when the local model raises
    [InferenceError] or [ModelLoadError], candidate generation raises a
    [ValueError] whose message starts with "Local processing failed", and the
    only call made is the one to the local model: the cloud provider is not
    invoked. *)
Theorem local_mode_failure_is_terminal (image_bytes : list byte) (max_edge : Z)
    (log : Log) (msg : string) :
  local_model log image_bytes = Raise (InferenceError msg) \/
  local_model log image_bytes = Raise (ModelLoadError msg) ->
  generate_with_fallback image_bytes max_edge "local" log =
  (Raise (ValueError ("Local processing failed: "
                      ++ ("Local processing failed: " ++ msg))%string),
   log ++ [CallLocalModel image_bytes]).
Proof.
  intros H.
  unfold generate_with_fallback, _generate_with_fallback.
  cbn [String.eqb Ascii.eqb Bool.eqb andb].
  unfold try_except, bind, _run_local_segmentation, try_except, bind, call_local_model.
  destruct H as [H | H]; rewrite H; reflexivity.
Qed.

(** *** Quota exhaustion *)

(** A quota error of the SDK from which the retry delay can be read. *)
Hypothesis quota_on_every_attempt :
  forall log image_bytes,
    exists e d,
      new_sdk log image_bytes = Raise e /\ _is_quota_error e = true /\
      _extract_retry_delay re_search_retry float_of_str (exn_str e) = Ok d.



End ProviderFacts.

Section ProviderExamples.

Import Base64 Scoring Provider.

Lemma local_mode_failure_is_terminal_witness :
  _generate_with_fallback
    (fun _ _ => Ok "[]"%string) (fun _ _ => Ok "[]"%string)
    (fun _ _ => Raise (InferenceError "Mask generation failed: out of memory"%string))
    (fun _ => None) (fun _ => Ok 60%Q) (fun _ => Ok JScalar)
    (fun b _ => Ok b) (fun _ => Ok (1, 1))
    [] 2048 "local"%string [] =
  (Raise (ValueError
     "Local processing failed: Local processing failed: Mask generation failed: out of memory"%string),
   [CallLocalModel []]).
Proof.
  apply (local_mode_failure_is_terminal
           (fun _ _ => Ok "[]"%string) (fun _ _ => Ok "[]"%string)
           (fun _ _ => Raise (InferenceError "Mask generation failed: out of memory"%string))
           (fun _ => None) (fun _ => Ok 60%Q) (fun _ => Ok JScalar)
           (fun b _ => Ok b) (fun _ => Ok (1, 1))
           [] 2048 [] "Mask generation failed: out of memory"%string).
  left. reflexivity.
Defined.


End ProviderExamples.

(** ** The second pass of the run *)

Section PipelineFacts.

Import Geometry Base64 Scoring Postprocess Provider Pipeline.

Variable Image : Type.
Variable image_size : Image -> Z * Z.
Variable hypot : Q -> Q -> Q.
Variable gradient_mean : Image -> Z * Z * Z * Z -> Q.
Variable mask_fill : list byte -> Res Q.
Variable array_to_png : list (list pyfloat) -> list byte.
Variable new_sdk : Log -> list byte -> Res string.
Variable legacy_sdk : Log -> list byte -> Res string.
Variable local_model : Log -> list byte -> Res (list byte * list byte * Metadata).
Variable re_search_retry : string -> option string.
Variable float_of_str : string -> Res Q.
Variable extract_json : string -> Res JsonData.
Variable prepare_image : list byte -> Z -> Res (list byte).
Variable pil_image_size : list byte -> Res (Z * Z).
Variable decode_image : list byte -> Res Image.
Variable crop_image : Image -> Z * Z * Z * Z -> Image.
Variable soften_outside : Image -> Z * Z * Z * Z -> Image.
Variable _png_bytes : Image -> list byte.
Variable apply_mask :
  list byte -> list byte -> list pyfloat -> Z -> Z -> Z -> bool -> Res Post.
Variable GEMINI_MAX_EDGE : Z.
Variable GEMINI_ROI_MAX_EDGE : Z.
Variable ROI_MARGIN : Q.
Variable CANDIDATE_AREA_MIN : Q.
Variable CANDIDATE_AREA_MAX : Q.

Let the_roi_query :=
  roi_query Image image_size hypot gradient_mean mask_fill array_to_png
    new_sdk legacy_sdk re_search_retry float_of_str extract_json prepare_image
    _png_bytes GEMINI_ROI_MAX_EDGE CANDIDATE_AREA_MIN CANDIDATE_AREA_MAX.
Let the_second_pass :=
  second_pass Image image_size hypot gradient_mean mask_fill array_to_png
    new_sdk legacy_sdk re_search_retry float_of_str extract_json prepare_image
    _png_bytes GEMINI_ROI_MAX_EDGE CANDIDATE_AREA_MIN CANDIDATE_AREA_MAX.
Let the_finish_run := finish_run array_to_png apply_mask.
Let the_run :=
  run_segmentation Image image_size hypot gradient_mean mask_fill array_to_png
    new_sdk legacy_sdk local_model re_search_retry float_of_str extract_json
    prepare_image pil_image_size decode_image crop_image soften_outside _png_bytes
    apply_mask GEMINI_MAX_EDGE GEMINI_ROI_MAX_EDGE ROI_MARGIN
    CANDIDATE_AREA_MIN CANDIDATE_AREA_MAX.

(** When the provider call or the selection of the second pass raises, the
    three variables keep their first-pass values. *)
Lemma second_pass_query_failure (selected : Scored) (roi_image : Image)
    (roi_bounds : Z * Z * Z * Z) (full_size : Z * Z) (focus : string)
    (log log' : Log) (e : exn) :
  the_roi_query roi_image focus log = (Raise e, log') ->
  the_second_pass selected roi_image roi_bounds full_size focus log =
  (Ok (mask (item selected), label_or_empty (item selected), box_2d (item selected)),
   log').
Proof.
  intros H. unfold the_second_pass, second_pass. fold the_roi_query.
  rewrite H. reflexivity.
Qed.

(** The second pass never raises. *)
Lemma second_pass_returns (selected : Scored) (roi_image : Image)
    (roi_bounds : Z * Z * Z * Z) (full_size : Z * Z) (focus : string) (log : Log) :
  exists roi log',
    the_second_pass selected roi_image roi_bounds full_size focus log = (Ok roi, log').
Proof.
  unfold the_second_pass, second_pass.
  destruct (roi_query _ _ _ _ _ _ _ _ _ _ _ _ _ _ _ _ _ _ _) as [[roi_selected | e] log'].
  - destruct (_map_box_to_full _ _ _); eexists; eexists; reflexivity.
  - eexists; eexists; reflexivity.
Qed.

(** C4, as amended.  For every pipeline run in which the provider call or the
    candidate selection of the second pass raises (provider error, empty or
    unparseable candidate list), the run continues with the first-pass mask
    payload, label and box unchanged: its outcome is the one of the final
    stage applied to these first-pass values. *)
Theorem second_pass_failure_keeps_first_pass (image_bytes : list byte)
    (params : Params) (log log0 log1 : Log)
    (original_image : Image) (full_width full_height : Z)
    (candidates : list Candidate) (processor : string)
    (selected : Scored) (scored_candidates : list Scored) (selected_index : Z)
    (sx0 sy0 sx1 sy1 : Z) (cropped : Image) (left_ top right_ bottom : Z) (e : exn) :
  decode_image image_bytes = Ok original_image ->
  image_size original_image = (full_width, full_height) ->
  _generate_with_fallback new_sdk legacy_sdk local_model re_search_retry float_of_str
    extract_json prepare_image pil_image_size
    image_bytes GEMINI_MAX_EDGE (processing_mode params) log
    = (Ok (candidates, processor), log0) ->
  _select_candidate Image image_size hypot gradient_mean mask_fill array_to_png
    candidates original_image (focus_mode params) (allow_border_touch params)
    (candidate_index params) CANDIDATE_AREA_MIN CANDIDATE_AREA_MAX
    = Ok (selected, scored_candidates, selected_index) ->
  _box_to_px (box_2d (item selected)) full_width full_height
    = Ok (sx0, sy0, sx1, sy1) ->
  _crop_roi Image image_size crop_image original_image (sx0, sy0, sx1, sy1) ROI_MARGIN
    = (cropped, (left_, top, right_, bottom)) ->
  the_roi_query
    (_suppress_background Image image_size soften_outside cropped
       (Z.max 0 (sx0 - left_), Z.max 0 (sy0 - top),
        Z.max 1 (sx1 - left_), Z.max 1 (sy1 - top)))
    (focus_mode params) log0 = (Raise e, log1) ->
  the_run image_bytes params log =
  (the_finish_run image_bytes params selected
     (map (fun s => mkCandidatePayload (label_or_empty (item s)) (box_2d (item s))
                      (m_confidence (metrics s)) (score s))
          scored_candidates)
     selected_index processor
     (mask (item selected), label_or_empty (item selected), box_2d (item selected)),
   log1).
Proof.
  intros Hdec Hsize Hgen Hsel Hbox Hcrop Hroi.
  unfold the_run, run_segmentation.
  unfold bind at 1. unfold lift at 1. rewrite Hdec, Hsize.
  unfold bind at 1. rewrite Hgen.
  unfold bind at 1. unfold lift at 1. rewrite Hsel.
  unfold bind at 1. unfold lift at 1. rewrite Hbox, Hcrop.
  unfold bind at 1.
  pose proof (second_pass_query_failure selected _ (left_, top, right_, bottom)
                (full_width, full_height) _ _ _ _ Hroi) as Hp.
  unfold the_second_pass in Hp. rewrite Hp.
  unfold lift. reflexivity.
Qed.

(** A second pass that selects a candidate with an undecodable mask aborts
    the run, although the first-pass mask is still at hand. *)
Lemma undecodable_second_pass_mask_aborts (image_bytes : list byte)
    (params : Params) (selected : Scored) (payloads : list CandidatePayload)
    (selected_index : Z) (processor : string) (roi_label : str)
    (roi_box_2d : list pyfloat) (truthy : bool) :
  the_finish_run image_bytes params selected payloads selected_index processor
    (MOther truthy, roi_label, roi_box_2d)
  = Raise (ValueError "Invalid mask payload from provider").
Proof. reflexivity. Qed.

End PipelineFacts.

Section PipelineExamples.

Import Geometry Base64 Scoring Postprocess Provider Pipeline Stub StubRun.

(** A run in local mode without an API key: the second pass fails on both
    transports and the result is built from the mask of the local model. *)
Lemma second_pass_failure_keeps_first_pass_witness :
  exists seg,
    stub_run sdk_without_key (json_with roi_candidate_number_mask) [] =
      (Ok seg, [CallLocalModel [x89]; CallNewSdk []; CallLegacySdk []]) /\
    seg_mask_bytes seg = [x0a; x0b; x0c] /\
    seg_box_2d seg = [Fin 0; Fin 0; Fin 1000; Fin 1000].
Proof.
  eassert (E : stub_run sdk_without_key (json_with roi_candidate_number_mask) [] = _).
  { unfold stub_run.
    eapply (second_pass_failure_keeps_first_pass
      StubImage stub_size norm1 flat_gradient full_mask_fill no_png
      sdk_without_key sdk_without_key local_model_ok (fun _ => None) (fun _ => Ok 60%Q)
      (json_with roi_candidate_number_mask)
      (fun b _ => Ok b) (fun _ => Ok (100, 100))
      stub_decode_image stub_crop_image stub_soften stub_png_bytes stub_apply_mask
      2048 1536 (15 # 100) (8 # 100) (70 # 100)
      [x89] local_params [] [CallLocalModel [x89]]
      [CallLocalModel [x89]; CallNewSdk []; CallLegacySdk []]
      (100, 100) 100 100 _ _ _ _ _ 0 0 100 100 (100, 100) 0 0 100 100
      (RuntimeError "GEMINI_API_KEY not configured")).
    - reflexivity.
    - reflexivity.
    - vm_compute. reflexivity.
    - vm_compute. reflexivity.
    - vm_compute. reflexivity.
    - vm_compute. reflexivity.
    - vm_compute. reflexivity. }
  rewrite E. eexists. split; [vm_compute; reflexivity |].
  split; reflexivity.
Defined.

(** C4, counterexample.  First pass in local mode, the mask of the local
    model decodable.  (1) The second pass selects a candidate whose mask is a
    number: nothing raises inside the [try], the mask is taken over, and the
    run aborts with "Invalid mask payload from provider" instead of falling
    back.  (2) The second pass selects a candidate whose box has three
    coordinates: [_map_box_to_full] raises after the mask and the label were
    overwritten, so the run ends with the mask and the label of the second
    pass next to the box of the first. *)
Lemma second_pass_failure_not_always_reverted :
  _decode_mask_payload no_png (MStr (b64encode [x0a; x0b; x0c])) = Ok [x0a; x0b; x0c] /\
  stub_run sdk_answering (json_with roi_candidate_number_mask) [] =
    (Raise (ValueError "Invalid mask payload from provider"),
     [CallLocalModel [x89]; CallNewSdk []]) /\
  exists seg,
    stub_run sdk_answering (json_with roi_candidate_short_box) [] =
      (Ok seg, [CallLocalModel [x89]; CallNewSdk []]) /\
    seg_mask_bytes seg = [x41; x42; x43] /\
    seg_label seg = lit "mug" /\
    seg_box_2d seg = [Fin 0; Fin 0; Fin 1000; Fin 1000].
Proof.
  split; [vm_compute; reflexivity |].
  split; [vm_compute; reflexivity |].
  eexists. split; [vm_compute; reflexivity |].
  repeat split; vm_compute; reflexivity.
Qed.

End PipelineExamples.

(** ** Mapping boxes between the crop and the full image *)

Section BoxMappingFacts.

Import Geometry Scoring.
Local Open Scope Q_scope.

Lemma inject_Z_pos (n : Z) : (1 <= n)%Z -> 1 <= inject_Z n.
Proof. intros H. rewrite Zle_Qle in H. exact H. Qed.

(** [max(0.0, min(float(dim), v))] is a finite value of [[0, dim]] whatever
    the float [v] is: NaN and the infinities included. *)
Lemma clamp_to_dim (v : pyfloat) (dim : Z) :
  (1 <= dim)%Z ->
  exists c, py_max (Fin 0) (py_min (of_int dim) v) = Fin c /\ 0 <= c <= inject_Z dim.
Proof.
  intros D. apply inject_Z_pos in D. unfold of_int.
  destruct v as [x | | |].
  - unfold py_min. destruct (flt (Fin x) (Fin (inject_Z dim))) eqn:E.
    + apply flt_Fin in E. unfold py_max.
      destruct (flt (Fin 0) (Fin x)) eqn:E0.
      * apply flt_Fin in E0. exists x. split; [reflexivity | lra].
      * exists 0. split; [reflexivity | lra].
    + unfold py_max. destruct (flt (Fin 0) (Fin (inject_Z dim))) eqn:E0.
      * exists (inject_Z dim). split; [reflexivity | lra].
      * exists 0. split; [reflexivity | lra].
  - unfold py_min. cbn [flt]. unfold py_max.
    destruct (flt (Fin 0) (Fin (inject_Z dim))) eqn:E0.
    + exists (inject_Z dim). split; [reflexivity | lra].
    + exists 0. split; [reflexivity | lra].
  - exists 0. split; [reflexivity | lra].
  - unfold py_min. cbn [flt]. unfold py_max.
    destruct (flt (Fin 0) (Fin (inject_Z dim))) eqn:E0.
    + exists (inject_Z dim). split; [reflexivity | lra].
    + exists 0. split; [reflexivity | lra].
Qed.

Lemma fl_unit_range (q : Q) : 0 <= q -> q <= 1000 -> fl q = Fin (Qred q).
Proof.
  intros H0 H1. unfold fl.
  assert (Qabs q <= dbl_max) as A.
  { apply small_in_range; [exact H0 |].
    apply Qle_trans with 1000; [exact H1 |].
    rewrite <- (Zle_Qle 1000). vm_compute. discriminate. }
  apply Qle_bool_iff in A. rewrite A. reflexivity.
Qed.

(** One axis of the last two steps of [_map_box_to_full]: clamping into the
    image and rescaling to 0..1000. *)
Lemma axis_to_full_in_range (v : pyfloat) (dim : Z) :
  (1 <= dim)%Z ->
  exists r q,
    fdiv (py_max (Fin 0) (py_min (of_int dim) v)) (of_int dim) = Ok r /\
    fmul r (Fin 1000) = Fin q /\ 0 <= q <= 1000.
Proof.
  intros D. destruct (clamp_to_dim v dim D) as (c & Ec & C0 & C1).
  apply inject_Z_pos in D. rewrite Ec. unfold of_int, fdiv.
  destruct (Qeq_bool (inject_Z dim) 0) eqn:Z0.
  { apply Qeq_bool_iff in Z0. lra. }
  assert (0 <= c / inject_Z dim <= 1) as [T0 T1].
  { split; [apply Qle_shift_div_l | apply Qle_shift_div_r]; lra. }
  rewrite fl_unit_range by lra.
  exists (Fin (Qred (c / inject_Z dim))), (Qred (Qred (c / inject_Z dim) * 1000)).
  split; [reflexivity |].
  assert (Qred (c / inject_Z dim) == c / inject_Z dim) as R by apply Qred_correct.
  cbn [fmul]. rewrite fl_unit_range by (rewrite R; lra).
  split; [reflexivity |].
  rewrite Qred_correct, R. lra.
Qed.

(** X1.  For every box of four floats (NaN and the infinities included),
    every crop rectangle and every full image of width and height at least
    1, [_map_box_to_full] returns, and each of the four coordinates it
    returns is a finite number between 0 and 1000. *)
Theorem map_box_to_full_in_range (y0 x0 y1 x1 : pyfloat)
    (roi_bounds : Z * Z * Z * Z) (full_w full_h : Z) :
  (1 <= full_w)%Z -> (1 <= full_h)%Z ->
  exists ny0 nx0 ny1 nx1,
    _map_box_to_full [y0; x0; y1; x1] roi_bounds (full_w, full_h)
      = Ok [Fin ny0; Fin nx0; Fin ny1; Fin nx1] /\
    0 <= ny0 <= 1000 /\ 0 <= nx0 <= 1000 /\ 0 <= ny1 <= 1000 /\ 0 <= nx1 <= 1000.
Proof.
  intros W H. destruct roi_bounds as [[[left_ top] right_] bottom].
  unfold _map_box_to_full.
  destruct (axis_to_full_in_range
              (fadd (of_int top) (fmul_int (fdiv_lit y0 1000) (Z.max 1 (bottom - top))))
              full_h H) as (r0 & q0 & E0 & M0 & R0).
  destruct (axis_to_full_in_range
              (fadd (of_int left_) (fmul_int (fdiv_lit x0 1000) (Z.max 1 (right_ - left_))))
              full_w W) as (r1 & q1 & E1 & M1 & R1).
  destruct (axis_to_full_in_range
              (fadd (of_int top) (fmul_int (fdiv_lit y1 1000) (Z.max 1 (bottom - top))))
              full_h H) as (r2 & q2 & E2 & M2 & R2).
  destruct (axis_to_full_in_range
              (fadd (of_int left_) (fmul_int (fdiv_lit x1 1000) (Z.max 1 (right_ - left_))))
              full_w W) as (r3 & q3 & E3 & M3 & R3).
  exists q0, q1, q2, q3.
  rewrite E0. cbn [res_bind]. rewrite E1. cbn [res_bind].
  rewrite E2. cbn [res_bind]. rewrite E3. cbn [res_bind].
  rewrite M0, M1, M2, M3. repeat split; tauto.
Qed.

Lemma map_box_to_full_in_range_witness :
  exists ny0 nx0 ny1 nx1,
    _map_box_to_full [NaN; PosInf; NegInf; Fin 500] (10, 20, 110, 220)%Z (400, 300)%Z
      = Ok [Fin ny0; Fin nx0; Fin ny1; Fin nx1] /\
    0 <= ny0 <= 1000 /\ 0 <= nx0 <= 1000 /\ 0 <= ny1 <= 1000 /\ 0 <= nx1 <= 1000.
Proof.
  apply (map_box_to_full_in_range NaN PosInf NegInf (Fin 500) (10, 20, 110, 220)%Z
           400 300); lia.
Defined.





End BoxMappingFacts.

(** ** The region of interest *)

Section RoiFacts.

Import Geometry Scoring Pipeline.
Local Open Scope Q_scope.

Variable Image : Type.
Variable image_size : Image -> Z * Z.
Variable crop_image : Image -> Z * Z * Z * Z -> Image.

Lemma py_int_nonneg (q : Q) : 0 <= q -> (0 <= py_int q)%Z.
Proof.
  intros H. unfold py_int. apply Qle_bool_iff in H. rewrite H.
  apply Qle_bool_iff in H.
  change 0%Z with (Qfloor 0). apply Qfloor_resp_le. exact H.
Qed.

(** X3.  For every box that [_box_to_px] converts on an image of width and
    height at least 1, and every margin ratio that is not negative, the
    rectangle that [_crop_roi] cuts out lies inside the image and contains
    the pixel box; in particular it is never empty. *)
Theorem crop_roi_contains_box (image : Image) (box : list pyfloat) (margin_ratio : Q)
    (width height x0 y0 x1 y1 : Z) :
  image_size image = (width, height) ->
  (1 <= width)%Z -> (1 <= height)%Z ->
  _box_to_px box width height = Ok (x0, y0, x1, y1) ->
  0 <= margin_ratio ->
  exists left_ top right_ bottom,
    _crop_roi Image image_size crop_image image (x0, y0, x1, y1) margin_ratio
      = (crop_image image (left_, top, right_, bottom), (left_, top, right_, bottom)) /\
    (0 <= left_ <= x0)%Z /\ (x1 <= right_ <= width)%Z /\
    (0 <= top <= y0)%Z /\ (y1 <= bottom <= height)%Z /\
    (left_ < right_)%Z /\ (top < bottom)%Z.
Proof.
  intros Hsize Hw Hh Hbox Hm.
  destruct (box_to_px_bounds _ _ _ _ _ _ _ Hw Hh Hbox) as (Bx & Bx1 & By & By1).
  unfold _crop_roi. rewrite Hsize.
  set (pad := py_int (inject_Z (Z.max (Z.max 1 (x1 - x0)) (Z.max 1 (y1 - y0)))
                      * margin_ratio)).
  assert (0 <= pad)%Z as Hpad.
  { apply py_int_nonneg. apply Qmult_le_0_compat; [| exact Hm].
    change 0 with (inject_Z 0). rewrite <- Zle_Qle. lia. }
  do 4 eexists. split; [reflexivity |]. lia.
Qed.

End RoiFacts.

Section RoiExamples.

Import Geometry Scoring Pipeline Stub StubRun.
Local Open Scope Q_scope.

Lemma crop_roi_contains_box_witness :
  exists left_ top right_ bottom,
    _crop_roi StubImage stub_size stub_crop_image (100, 100)%Z (25, 25, 75, 75)%Z (15 # 100)
      = (stub_crop_image (100, 100)%Z (left_, top, right_, bottom),
         (left_, top, right_, bottom)) /\
    (0 <= left_ <= 25)%Z /\ (75 <= right_ <= 100)%Z /\
    (0 <= top <= 25)%Z /\ (75 <= bottom <= 100)%Z /\
    (left_ < right_)%Z /\ (top < bottom)%Z.
Proof.
  apply (crop_roi_contains_box StubImage stub_size stub_crop_image (100, 100)%Z
           (box_2d centred_candidate) (15 # 100) 100 100 25 25 75 75).
  - reflexivity.
  - lia.
  - lia.
  - vm_compute. reflexivity.
  - vm_compute. discriminate.
Defined.

End RoiExamples.

(** ** The box of the local model *)

Section FullFrameFacts.

Import Geometry Scoring Pipeline.
Local Open Scope Q_scope.

Lemma round_half_even_int (q : Q) (n : Z) : q == inject_Z n -> round_half_even q = n.
Proof.
  intros E. pose proof (round_half_even_near q) as [Lo Hi].
  destruct (Z.lt_trichotomy (round_half_even q) n) as [L | [Eq | G]].
  - exfalso. assert (round_half_even q + 1 <= n)%Z as L' by lia.
    rewrite Zle_Qle, inject_Z_plus in L'. change (inject_Z 1) with 1 in L'. lra.
  - exact Eq.
  - exfalso. assert (n + 1 <= round_half_even q)%Z as G' by lia.
    rewrite Zle_Qle, inject_Z_plus in G'. change (inject_Z 1) with 1 in G'. lra.
Qed.

(** Scaling the coordinates 0 and 1000 to a dimension gives 0 and the
    dimension itself. *)
Lemma scale_ends (dim : Z) :
  (1 <= dim <= 2 ^ 53)%Z ->
  py_round (fmul_int (fdiv_lit (Fin 0) 1000) dim) = Ok 0%Z /\
  py_round (fmul_int (fdiv_lit (Fin 1000) 1000) dim) = Ok dim.
Proof.
  intros D.
  destruct (scaled_val 0 dim ltac:(lra) ltac:(lra) D) as (V0 & _).
  destruct (scaled_val 1000 dim ltac:(lra) ltac:(lra) D) as (V1 & _).
  destruct (fmul_int (fdiv_lit (Fin 0) 1000) dim) as [a | | |]; try contradiction.
  destruct (fmul_int (fdiv_lit (Fin 1000) 1000) dim) as [b | | |]; try contradiction.
  unfold fval in V0, V1. unfold py_round. split; f_equal.
  - apply round_half_even_int. rewrite V0. change (inject_Z 0) with 0. field.
  - apply round_half_even_int. rewrite V1. field.
Qed.

Variable Image : Type.
Variable image_size : Image -> Z * Z.
Variable crop_image : Image -> Z * Z * Z * Z -> Image.

Lemma full_frame_px (width height : Z) :
  (1 <= width <= 2 ^ 53)%Z -> (1 <= height <= 2 ^ 53)%Z ->
  _box_to_px [Fin 0; Fin 0; Fin 1000; Fin 1000] width height
    = Ok (0, 0, width, height)%Z.
Proof.
  intros Hw Hh.
  destruct (scale_ends width Hw) as [W0 W1].
  destruct (scale_ends height Hh) as [H0 H1].
  unfold _box_to_px. rewrite W0, W1, H0, H1. cbn [res_bind].
  replace (Z.max 0 (Z.min (width - 1) 0)) with 0%Z by lia.
  replace (Z.max 0 (Z.min (height - 1) 0)) with 0%Z by lia.
  replace (Z.max 1 (Z.min width width)) with width by lia.
  replace (Z.max 1 (Z.min height height)) with height by lia.
  destruct (Z.leb_spec width 0); [lia |].
  destruct (Z.leb_spec height 0); [lia |]. reflexivity.
Qed.

Lemma full_frame_roi (image : Image) (margin_ratio : Q) (width height : Z) :
  image_size image = (width, height) ->
  (1 <= width)%Z -> (1 <= height)%Z -> 0 <= margin_ratio ->
  _crop_roi Image image_size crop_image image (0, 0, width, height)%Z margin_ratio
    = (crop_image image (0, 0, width, height)%Z, (0, 0, width, height)%Z).
Proof.
  intros Hsize Hw Hh Hm.
  unfold _crop_roi. rewrite Hsize.
  set (pad := py_int (inject_Z (Z.max (Z.max 1 (width - 0)) (Z.max 1 (height - 0)))
                      * margin_ratio)).
  assert (0 <= pad)%Z as Hpad.
  { apply py_int_nonneg. apply Qmult_le_0_compat; [| exact Hm].
    change 0 with (inject_Z 0). rewrite <- Zle_Qle. lia. }
  replace (Z.max 0 (0 - pad)) with 0%Z by lia.
  replace (Z.min width (width + pad)) with width by lia.
  replace (Z.min height (height + pad)) with height by lia.
  reflexivity.
Qed.

(** X4.  The box [[0, 0, 1000, 1000]] that the local model reports covers
    the whole image: on every image [_box_to_px] turns it into
    [(0, 0, width, height)], and for every margin ratio that is not negative
    [_crop_roi] then keeps the whole image as the region of interest. *)
Theorem full_frame_box_covers_image (image : Image) (margin_ratio : Q)
    (width height : Z) :
  image_size image = (width, height) ->
  (1 <= width <= 2 ^ 53)%Z -> (1 <= height <= 2 ^ 53)%Z ->
  0 <= margin_ratio ->
  _box_to_px [Fin 0; Fin 0; Fin 1000; Fin 1000] width height
    = Ok (0, 0, width, height)%Z /\
  _crop_roi Image image_size crop_image image (0, 0, width, height)%Z margin_ratio
    = (crop_image image (0, 0, width, height)%Z, (0, 0, width, height)%Z).
Proof.
  intros Hsize Hw Hh Hm. split.
  - apply full_frame_px; assumption.
  - apply full_frame_roi; [assumption | lia | lia | assumption].
Qed.

End FullFrameFacts.

Section FullFrameExamples.

Import Geometry Scoring Pipeline Stub StubRun.
Local Open Scope Q_scope.

Lemma full_frame_box_covers_image_witness :
  _box_to_px [Fin 0; Fin 0; Fin 1000; Fin 1000] 640 480 = Ok (0, 0, 640, 480)%Z /\
  _crop_roi StubImage stub_size stub_crop_image (640, 480)%Z (0, 0, 640, 480)%Z (15 # 100)
    = (stub_crop_image (640, 480)%Z (0, 0, 640, 480)%Z, (0, 0, 640, 480)%Z).
Proof.
  apply (full_frame_box_covers_image StubImage stub_size stub_crop_image
           (640, 480)%Z (15 # 100) 640 480).
  - reflexivity.
  - lia.
  - lia.
  - vm_compute. discriminate.
Defined.

End FullFrameExamples.

(** ** Ranges of the scores *)

Section ScoreRangeFacts.

Import Geometry Scoring.
Local Open Scope Q_scope.

(** [max(0.0, min(1.0, x))] is a number of [[0, 1]] for every float [x]. *)
Lemma final_clamp_range (f : pyfloat) :
  0 <= float_value (py_max (Fin 0) (py_min (Fin 1) f)) <= 1.
Proof.
  destruct f as [q | | |]; try (vm_compute; split; discriminate).
  destruct (final_clamp q) as (A & B & C).
  destruct (Qlt_le_dec 0 q) as [P | N].
  - destruct (Qlt_le_dec q 1) as [L | G].
    + rewrite B by (split; assumption). lra.
    + rewrite C by exact G. lra.
  - rewrite A by exact N. lra.
Qed.


(** X6.  [_border_touch_penalty] takes the values 0, 0.15 and 0.35 only; it
    is 0 when touching the border is allowed, and, when it is not allowed, it
    is 0 exactly for the boxes that stay more than the margin away from all
    four edges of the image. *)
Theorem border_touch_penalty_values (x0 y0 x1 y1 width height : Z) (allow_touch : bool) :
  let margin := Z.max 2 (py_int (inject_Z (Z.min width height) * (1 # 100))) in
  let penalty := _border_touch_penalty x0 y0 x1 y1 width height allow_touch in
  (penalty = 0 \/ penalty = 15 # 100 \/ penalty = 35 # 100) /\
  (penalty = 0 <->
   allow_touch = true \/
   (margin < x0 /\ margin < y0 /\ x1 < width - margin /\ y1 < height - margin)%Z).
Proof.
  intros margin penalty. unfold penalty, _border_touch_penalty. fold margin.
  destruct allow_touch.
  { split; [left; reflexivity | split; [intros _; left; reflexivity | reflexivity]]. }
  destruct (Z.leb_spec x0 margin); destruct (Z.leb_spec y0 margin);
    destruct (Z.leb_spec (width - margin) x1);
    destruct (Z.leb_spec (height - margin) y1); cbn;
    (split; [tauto |]);
    (split; [intros F; try discriminate F; right; lia
            | intros [F | F]; [discriminate F | try reflexivity; lia]]).
Qed.

Variable Image : Type.
Variable image_size : Image -> Z * Z.
Variable hypot : Q -> Q -> Q.
Variable gradient_mean : Image -> Z * Z * Z * Z -> Q.
Variable mask_fill : list byte -> Res Q.
Variable array_to_png : list (list pyfloat) -> list byte.

Let score_candidate :=
  _score_candidate Image image_size hypot gradient_mean mask_fill array_to_png.
Let select_candidate :=
  _select_candidate Image image_size hypot gradient_mean mask_fill array_to_png.

Lemma center_score_range (x0 y0 x1 y1 width height : Z) :
  0 <= _center_score hypot x0 y0 x1 y1 width height <= 1.
Proof.
  unfold _center_score. cbv zeta.
  destruct (Qle_bool _ 0); [lra | apply unit_clamp_range].
Qed.

Lemma edge_density_range (image : Image) (box_px : Z * Z * Z * Z) (edge : Q) :
  _edge_density Image gradient_mean image box_px = Ok edge -> 0 <= edge <= 1.
Proof.
  destruct box_px as [[[x0 y0] x1] y1]. unfold _edge_density.
  destruct ((x1 - x0 <=? 0)%Z || (y1 - y0 <=? 0)%Z)%bool.
  - intros E. injection E as <-. lra.
  - destruct ((x1 - x0 <? 2)%Z || (y1 - y0 <? 2)%Z)%bool; [discriminate |].
    intros E. injection E as <-. apply clip01_range.
Qed.

(** The score that [_score_candidate] returns went through the final clamp. *)
Lemma score_candidate_score_range (candidate : Candidate) (image : Image)
    (focus_mode : string) (allow_border_touch : bool) (area_min area_max : Q)
    (score : Q) (metrics : Metrics) :
  score_candidate candidate image focus_mode allow_border_touch area_min area_max
    = Ok (score, metrics) ->
  0 <= score <= 1.
Proof.
  unfold score_candidate, _score_candidate.
  destruct (image_size image) as [width height].
  destruct (_box_to_px (box_2d candidate) width height) as [[[[x0 y0] x1] y1] |];
    [| discriminate].
  cbn [res_bind].
  destruct (_edge_density Image gradient_mean image (x0, y0, x1, y1)) as [edge |];
    [| discriminate].
  cbn [res_bind]. intros E. injection E as <- _.
  apply final_clamp_range.
Qed.

(** X7.  Whenever [_score_candidate] returns, the score is a number of
    [[0, 1]] (also when the provider sent a NaN or an infinite confidence),
    the centre, area, rectangularity and edge metrics are numbers of
    [[0, 1]], and the confidence metric is NaN or a number of [[0, 1]]. *)
Theorem score_candidate_in_unit_range (candidate : Candidate) (image : Image)
    (focus_mode : string) (allow_border_touch : bool) (area_min area_max : Q)
    (score : Q) (metrics : Metrics) :
  score_candidate candidate image focus_mode allow_border_touch area_min area_max
    = Ok (score, metrics) ->
  0 <= score <= 1 /\
  0 <= m_center metrics <= 1 /\ 0 <= m_area metrics <= 1 /\
  0 <= m_rectangularity metrics <= 1 /\ 0 <= m_edge metrics <= 1 /\
  (m_confidence metrics = NaN \/
   exists c, m_confidence metrics = Fin c /\ 0 <= c <= 1).
Proof.
  intros H. split; [exact (score_candidate_score_range _ _ _ _ _ _ _ _ H) |].
  revert H. unfold score_candidate, _score_candidate.
  destruct (image_size image) as [width height].
  destruct (_box_to_px (box_2d candidate) width height) as [[[[x0 y0] x1] y1] |];
    [| discriminate].
  cbn [res_bind].
  destruct (_edge_density Image gradient_mean image (x0, y0, x1, y1)) as [edge |] eqn:Ee;
    [| discriminate].
  cbn [res_bind]. intros E. injection E as _ <-. cbn.
  split; [apply center_score_range |].
  split; [apply area_score_range |].
  split; [apply rectangularity_range |].
  split; [exact (edge_density_range _ _ _ Ee) |].
  match goal with
  | |- np_clip01 ?f = NaN \/ _ => destruct f as [q | | |]
  end; cbn [np_clip01].
  - right. exists (clip01 q). split; [reflexivity | apply clip01_range].
  - right. exists 1. split; [reflexivity | lra].
  - right. exists 0. split; [reflexivity | lra].
  - left. reflexivity.
Qed.

(** X8.  [_select_candidate] returns exactly when the list of candidates is
    not empty; on the empty list it raises the [ValueError] of [max()],
    whatever index was asked for.  When it returns, every entry of the scored
    list carries a score of [[0, 1]], a candidate whose scoring raised
    carrying the score 0. *)
Theorem select_candidate_needs_candidates (candidates : list Candidate)
    (image : Image) (focus_mode : string) (allow_border_touch : bool)
    (candidate_index : option Z) (area_min area_max : Q) :
  (candidates = [] ->
   select_candidate candidates image focus_mode allow_border_touch candidate_index
     area_min area_max = Raise (ValueError "max() arg is an empty sequence")) /\
  (candidates <> [] ->
   exists chosen scored index,
     select_candidate candidates image focus_mode allow_border_touch candidate_index
       area_min area_max = Ok (chosen, scored, index) /\
     Forall (fun s => 0 <= Scoring.score s <= 1) scored /\
     Forall (fun s =>
               (exists e, score_candidate (item s) image focus_mode allow_border_touch
                            area_min area_max = Raise e) ->
               Scoring.score s = 0) scored).
Proof.
  split.
  - intros ->. unfold select_candidate, _select_candidate. cbn [map List.length].
    destruct candidate_index as [ci |]; [| reflexivity].
    destruct (Z.leb_spec 0 ci); destruct (Z.ltb_spec ci (Z.of_nat 0));
      cbn [andb]; try reflexivity; lia.
  - intros Hne.
    set (enrich := fun it : Candidate =>
           match score_candidate it image focus_mode allow_border_touch
                   area_min area_max with
           | Ok (sc, me) => mkScored it sc me
           | Raise _ => mkScored it 0 zero_metrics
           end).
    assert (Forall (fun s => 0 <= Scoring.score s <= 1) (map enrich candidates)) as Hrange.
    { apply Forall_forall. intros s Hs. apply in_map_iff in Hs.
      destruct Hs as (c & <- & _). unfold enrich.
      destruct (score_candidate c image focus_mode allow_border_touch area_min area_max)
        as [[sc me] |] eqn:E; cbn.
      - exact (score_candidate_score_range _ _ _ _ _ _ _ _ E).
      - lra. }
    assert (Forall (fun s =>
               (exists e, score_candidate (item s) image focus_mode allow_border_touch
                            area_min area_max = Raise e) ->
               Scoring.score s = 0) (map enrich candidates)) as Hzero.
    { apply Forall_forall. intros s Hs. apply in_map_iff in Hs.
      destruct Hs as (c & <- & _). unfold enrich.
      destruct (score_candidate c image focus_mode allow_border_touch area_min area_max)
        as [[sc me] |] eqn:E; cbn; [| reflexivity].
      intros [e He]. rewrite E in He. discriminate He. }
    unfold select_candidate, _select_candidate. fold score_candidate. fold enrich.
    assert (map Scoring.score (map enrich candidates) <> []) as Hk.
    { destruct candidates; [congruence | discriminate]. }
    destruct (py_argmax_spec _ Hk) as (best & kr & Ea & Hb & _).
    rewrite nth_error_map in Hb.
    destruct (nth_error (map enrich candidates) best) as [chosen_best |] eqn:Ec;
      [| discriminate Hb].
    destruct candidate_index as [ci |].
    + destruct ((0 <=? ci)%Z && (ci <? Z.of_nat (List.length (map enrich candidates)))%Z)%bool
        eqn:In.
      * destruct (nth_error (map enrich candidates) (Z.to_nat ci)) as [chosen |] eqn:En.
        -- exists chosen, (map enrich candidates), ci. repeat split; assumption.
        -- rewrite Ea. cbn [res_bind]. rewrite Ec.
           exists chosen_best, (map enrich candidates), (Z.of_nat best).
           repeat split; assumption.
      * rewrite Ea. cbn [res_bind]. rewrite Ec.
        exists chosen_best, (map enrich candidates), (Z.of_nat best).
        repeat split; assumption.
    + rewrite Ea. cbn [res_bind]. rewrite Ec.
      exists chosen_best, (map enrich candidates), (Z.of_nat best).
      repeat split; assumption.
Qed.

End ScoreRangeFacts.

Section ScoreRangeExamples.

Import Geometry Scoring Stub.
Local Open Scope Q_scope.

Lemma score_candidate_in_unit_range_witness :
  exists score metrics,
    _score_candidate StubImage stub_size norm1 flat_gradient full_mask_fill no_png
      full_frame_candidate (640, 480)%Z "auto" false (8 # 100) (70 # 100)
      = Ok (score, metrics) /\
    0 <= score <= 1 /\
    0 <= m_center metrics <= 1 /\ 0 <= m_area metrics <= 1 /\
    0 <= m_rectangularity metrics <= 1 /\ 0 <= m_edge metrics <= 1 /\
    (m_confidence metrics = NaN \/
     exists c, m_confidence metrics = Fin c /\ 0 <= c <= 1).
Proof.
  eexists. eexists. split; [vm_compute; reflexivity |].
  eapply (score_candidate_in_unit_range StubImage stub_size norm1 flat_gradient
            full_mask_fill no_png full_frame_candidate (640, 480)%Z "auto" false
            (8 # 100) (70 # 100)).
  vm_compute. reflexivity.
Defined.

End ScoreRangeExamples.

(** ** Mask payloads *)

Section MaskPayloadFacts.

Import Base64 Scoring Provider.

Lemma no_space_lstrip (s : str) :
  Forall (fun ch => is_space ch = false) s -> lstrip s = s.
Proof.
  intros F. destruct s as [| c s]; [reflexivity |].
  inversion F as [| ? ? Hc _]. cbn [lstrip]. now rewrite Hc.
Qed.

Lemma no_space_strip (s : str) :
  Forall (fun ch => is_space ch = false) s -> strip s = s.
Proof.
  intros F. unfold strip, rstrip. rewrite (no_space_lstrip s F).
  rewrite no_space_lstrip; [apply rev_involutive |].
  apply Forall_rev. exact F.
Qed.

Lemma no_space_remove_ws (s : str) :
  Forall (fun ch => is_space ch = false) s -> remove_ws s = s.
Proof.
  unfold remove_ws. induction 1 as [| c s Hc _ IH]; [reflexivity |].
  cbn [filter]. rewrite Hc. cbn [negb]. now rewrite IH.
Qed.

(** What the encoder produces is decoded back as it stands. *)
Lemma decode_encoded (data : list byte) :
  data <> [] -> decode_base64_bytes (b64encode data) = Ok data.
Proof.
  intros Hne.
  pose proof (b64encode_chars data) as F.
  assert (Forall (fun ch => is_space ch = false) (b64encode data)) as Fs.
  { rewrite Forall_forall in *. intros ch I. now apply F. }
  unfold decode_base64_bytes. cbv zeta.
  rewrite (no_space_strip _ Fs).
  destruct (startswith (lit "data:") (b64encode data)) eqn:Sw.
  { exfalso. apply startswith_data_colon in Sw.
    rewrite Forall_forall in F. destruct (F _ Sw) as (_ & _ & N). now apply N. }
  rewrite (no_space_remove_ws _ Fs).
  apply (repad_and_decode data (b64encode data) 0 Hne); [lia |].
  cbn [repeat]. apply app_nil_r.
Qed.

Variable array_to_png : list (list pyfloat) -> list byte.

Let decode_mask_payload := _decode_mask_payload array_to_png.

(** X9.  The mask of the candidate that wraps a local result decodes to the
    mask bytes of the local model, byte for byte, whenever these are not
    empty; an empty mask is rejected. *)
Theorem local_mask_decodes_to_model_bytes (local_result : LocalResult) :
  (lr_mask_bytes local_result <> [] ->
   decode_mask_payload (mask (local_candidate local_result))
     = Ok (lr_mask_bytes local_result)) /\
  (lr_mask_bytes local_result = [] ->
   decode_mask_payload (mask (local_candidate local_result))
     = Raise (ValueError "Empty base64 payload")).
Proof.
  unfold decode_mask_payload, local_candidate. cbn [mask _decode_mask_payload].
  split.
  - apply decode_encoded.
  - intros ->. reflexivity.
Qed.

(** The search of one key among the entries of a dict. *)
Lemma dict_lookup_spec (key : string) (entries : list (string * MaskPayload)) :
  let lookup :=
    fix lookup (key : string) (es : list (string * MaskPayload))
      : option (Res (list byte)) :=
      match es with
      | [] => None
      | (k, v) :: es' =>
          if String.eqb k key then Some (decode_mask_payload v) else lookup key es'
      end in
  (~ In key (map fst entries) -> lookup key entries = None) /\
  (forall p, NoDup (map fst entries) -> In (key, p) entries ->
     lookup key entries = Some (decode_mask_payload p)).
Proof.
  intros lookup. induction entries as [| [k v] es [IHn IHs]].
  - split; [reflexivity | intros p _ []].
  - cbn [lookup map fst In]. fold lookup. split.
    + intros N. destruct (String.eqb_spec k key) as [E | _]; [exfalso; auto |].
      apply IHn. tauto.
    + intros p D [I | I].
      * injection I as -> ->. now rewrite String.eqb_refl.
      * inversion D as [| ? ? Nk Des]. subst.
        destruct (String.eqb_spec k key) as [E | _].
        -- exfalso. apply Nk. subst k.
           change key with (fst (key, p)). now apply in_map.
        -- now apply IHs.
Qed.

(** X10.  A dict payload is decoded from the first of the keys [data],
    [base64], [mask], [image] that it holds, wherever that key stands among
    the entries and whatever the other keys are; a dict that holds none of
    the four raises "Invalid mask object". *)
Theorem mask_dict_key_precedence (entries : list (string * MaskPayload))
    (key : string) (p : MaskPayload) (before after : list string) :
  ["data"; "base64"; "mask"; "image"]%string = before ++ key :: after ->
  NoDup (map fst entries) ->
  (forall k, In k before -> ~ In k (map fst entries)) ->
  (In (key, p) entries ->
   decode_mask_payload (MDict entries) = decode_mask_payload p) /\
  (~ In key (map fst entries) -> (forall k, In k after -> ~ In k (map fst entries)) ->
   decode_mask_payload (MDict entries) = Raise (ValueError "Invalid mask object")).
Proof.
  intros Horder Hdup Hbefore.
  assert (forall k, In k before -> In k ["data"; "base64"; "mask"; "image"]%string) as Hb.
  { intros k I. rewrite Horder. apply in_or_app. now left. }
  assert (forall k, In k after -> In k ["data"; "base64"; "mask"; "image"]%string) as Ha.
  { intros k I. rewrite Horder. apply in_or_app. right. now right. }
  unfold decode_mask_payload. cbn [_decode_mask_payload]. fold decode_mask_payload.
  pose proof (fun k => proj1 (dict_lookup_spec k entries)) as None_.
  pose proof (fun k => proj2 (dict_lookup_spec k entries)) as Some_.
  cbv zeta in None_, Some_.
  destruct before as [| b0 [| b1 [| b2 [| b3 before]]]];
    cbn [app] in Horder; injection Horder; intros; subst; split.
  - intros I. now rewrite (Some_ _ p Hdup I).
  - intros N A. rewrite (None_ _ N).
    rewrite !None_ by (apply A; cbn; tauto). reflexivity.
  - intros I. rewrite None_ by (apply Hbefore; cbn; tauto).
    now rewrite (Some_ _ p Hdup I).
  - intros N A. rewrite None_ by (apply Hbefore; cbn; tauto). rewrite (None_ _ N).
    rewrite !None_ by (apply A; cbn; tauto). reflexivity.
  - intros I. rewrite !None_ by (apply Hbefore; cbn; tauto).
    now rewrite (Some_ _ p Hdup I).
  - intros N A. rewrite !None_ by (apply Hbefore; cbn; tauto). rewrite (None_ _ N).
    rewrite !None_ by (apply A; cbn; tauto). reflexivity.
  - intros I. rewrite !None_ by (apply Hbefore; cbn; tauto).
    now rewrite (Some_ _ p Hdup I).
  - intros N A. rewrite !None_ by (apply Hbefore; cbn; tauto). rewrite (None_ _ N).
    reflexivity.
  - destruct before; discriminate.
  - destruct before; discriminate.
Qed.

End MaskPayloadFacts.

Section MaskPayloadExamples.

Import Base64 Scoring Provider Stub.

(** A dict that lists [mask] before [data]: the entry under [data] is the one
    that is decoded. *)
Lemma mask_dict_key_precedence_witness :
  _decode_mask_payload no_png
    (MDict [("mime_type", MStr (lit "image/png")); ("mask", MOther true);
            ("data", MStr (lit "QUJD"))]%string)
  = Ok ["A"%byte; "B"%byte; "C"%byte].
Proof.
  destruct (mask_dict_key_precedence no_png
              [("mime_type", MStr (lit "image/png")); ("mask", MOther true);
               ("data", MStr (lit "QUJD"))]%string
              "data" (MStr (lit "QUJD")) [] ["base64"; "mask"; "image"]%string)
    as [H _].
  - reflexivity.
  - repeat constructor; cbn; intuition discriminate.
  - intros k [].
  - rewrite H; [reflexivity |]. cbn. tauto.
Defined.

End MaskPayloadExamples.

(** ** Blank base64 payloads *)

Section BlankPayloadFacts.

Import Base64.

Lemma strip_spaces (l : str) : forallb is_space l = true -> strip l = [].
Proof.
  intros H. unfold strip.
  assert (lstrip l = []) as E.
  { rewrite <- (app_nil_r l). now rewrite lstrip_spaces_app. }
  rewrite E. reflexivity.
Qed.

Lemma forallb_rev {A : Type} (f : A -> bool) (l : list A) :
  forallb f l = true -> forallb f (rev l) = true.
Proof.
  intros H. apply forallb_forall. intros x I. apply In_rev in I.
  rewrite forallb_forall in H. now apply H.
Qed.

Lemma rstrip_spaces_app (a l : str) :
  forallb is_space l = true -> rstrip (a ++ l) = rstrip a.
Proof.
  intros H. unfold rstrip. rewrite rev_app_distr.
  now rewrite lstrip_spaces_app by (apply forallb_rev; exact H).
Qed.

(** X11.  A payload that holds nothing but whitespace is rejected with
    "Empty base64 payload", with or without leading whitespace and a
    [data:<header>,] prefix (the header holding no comma) in front of it. *)
Theorem blank_payload_is_rejected (lead hdr blank : str) (with_prefix : bool) :
  forallb is_space lead = true ->
  forallb is_space blank = true ->
  ~ In ","%char hdr ->
  decode_base64_bytes
    (lead ++ (if with_prefix then lit "data:" ++ hdr ++ [","%char] else []) ++ blank)
  = Raise (ValueError "Empty base64 payload").
Proof.
  intros Hlead Hblank Hhdr.
  unfold decode_base64_bytes. cbv zeta.
  destruct with_prefix.
  - assert (strip (lead ++ (lit "data:" ++ hdr ++ [","%char]) ++ blank)
            = lit "data:" ++ hdr ++ [","%char]) as S.
    { unfold strip. rewrite (lstrip_spaces_app lead _ Hlead).
      change (lstrip ((lit "data:" ++ hdr ++ [","%char]) ++ blank))
        with ((lit "data:" ++ hdr ++ [","%char]) ++ blank).
      rewrite (rstrip_spaces_app _ blank Hblank).
      rewrite app_assoc. rewrite rstrip_app_keep by (cbn; discriminate).
      reflexivity. }
    rewrite S, startswith_app. unfold split_comma_last.
    rewrite app_assoc, after_first_app; [reflexivity |].
    intros I. apply in_app_or in I as [I | I]; [| auto].
    cbn in I. repeat (destruct I as [I | I]; [discriminate I |]). exact I.
  - cbn [app].
    rewrite strip_spaces; [reflexivity |].
    rewrite forallb_app, Hlead, Hblank. reflexivity.
Qed.

Lemma blank_payload_is_rejected_witness :
  decode_base64_bytes (lit " data:image/png;base64,   ")
  = Raise (ValueError "Empty base64 payload").
Proof.
  apply (blank_payload_is_rejected (lit " ") (lit "image/png;base64") (lit "   ") true).
  - reflexivity.
  - reflexivity.
  - cbn. intros H. repeat (destruct H as [H | H]; [discriminate H |]). exact H.
Defined.

End BlankPayloadFacts.

(** ** The retry loop and the forced modes *)

Section RetryFacts.

Import Base64 Scoring Provider.
Local Open Scope Q_scope.

Variable new_sdk : Log -> list byte -> Res string.
Variable legacy_sdk : Log -> list byte -> Res string.
Variable local_model : Log -> list byte -> Res (list byte * list byte * Metadata).
Variable re_search_retry : string -> option string.
Variable float_of_str : string -> Res Q.
Variable extract_json : string -> Res JsonData.
Variable prepare_image : list byte -> Z -> Res (list byte).
Variable pil_image_size : list byte -> Res (Z * Z).

Let generate_with_retry :=
  _generate_with_retry new_sdk legacy_sdk re_search_retry float_of_str.
Let generate_candidates_ :=
  generate_candidates new_sdk legacy_sdk re_search_retry float_of_str extract_json.
Let generate_candidates_with_retry :=
  _generate_candidates_with_retry new_sdk legacy_sdk re_search_retry float_of_str
    extract_json prepare_image.
Let generate_with_fallback :=
  _generate_with_fallback new_sdk legacy_sdk local_model re_search_retry float_of_str
    extract_json prepare_image pil_image_size.

(** Where an exception that leaves [_generate_with_retry] can come from. *)
Let raised_by_retry (image_bytes : list byte) (r : Res string) : Prop :=
  match r with
  | Ok _ => True
  | Raise e =>
      (exists d, e = quota_exceeded d) \/
      (exists l, legacy_sdk l image_bytes = Raise e /\ _is_quota_error e = false) \/
      (exists s, float_of_str s = Raise e)
  end.

Lemma extract_retry_delay_origin (msg : string) (e : exn) :
  _extract_retry_delay re_search_retry float_of_str msg = Raise e ->
  exists s, float_of_str s = Raise e.
Proof.
  unfold _extract_retry_delay. destruct (re_search_retry msg) as [g |].
  - intros H. now exists g.
  - discriminate.
Qed.

(** The attempt on the legacy SDK, after a failure of the new one that is not
    a quota error. *)
Lemma legacy_attempt (image_bytes : list byte) (log : Log) :
  exists r,
    try_except (call_legacy_sdk legacy_sdk image_bytes) any_exception
      (fun legacy_error =>
         if _is_quota_error legacy_error
         then bind (lift (_extract_retry_delay re_search_retry float_of_str
                            (exn_str legacy_error)))
                   (fun retry_delay => raise (quota_exceeded retry_delay))
         else raise legacy_error) log
    = (r, log ++ [CallLegacySdk image_bytes]) /\
    raised_by_retry image_bytes r.
Proof.
  unfold try_except, call_legacy_sdk, any_exception.
  destruct (legacy_sdk log image_bytes) as [text | le] eqn:El.
  - exists (Ok text). split; [reflexivity | exact I].
  - destruct (_is_quota_error le) eqn:Q.
    + unfold bind, lift, raise.
      destruct (_extract_retry_delay re_search_retry float_of_str (exn_str le))
        as [d | ex] eqn:Ed.
      * eexists. split; [reflexivity |]. left. now exists d.
      * eexists. split; [reflexivity |]. right. right.
        exact (extract_retry_delay_origin _ _ Ed).
    + unfold raise. eexists. split; [reflexivity |]. right. left.
      exists log. split; assumption.
Qed.

(** Every run of [_generate_with_retry] takes one of four courses. *)
Lemma retry_outcome (image_bytes : list byte) (log : Log) :
  exists r events,
    generate_with_retry image_bytes log = (r, log ++ events) /\
    raised_by_retry image_bytes r /\
    (events = [CallNewSdk image_bytes] \/
     events = [CallNewSdk image_bytes; CallLegacySdk image_bytes] \/
     exists w,
       w <= inject_Z BASE_DELAY /\
       (events = [CallNewSdk image_bytes; Sleep w; CallNewSdk image_bytes] \/
        events = [CallNewSdk image_bytes; Sleep w; CallNewSdk image_bytes;
                  CallLegacySdk image_bytes])).
Proof.
  unfold generate_with_retry, _generate_with_retry.
  change (map Z.of_nat (seq 0 (Z.to_nat MAX_RETRIES))) with [0%Z; 1%Z].
  cbn [retry_loop]. unfold try_except at 1. unfold call_new_sdk at 1.
  unfold any_exception at 1.
  destruct (new_sdk log image_bytes) as [text | e0].
  { exists (Ok text), [CallNewSdk image_bytes]. repeat split. now left. }
  destruct (_is_quota_error e0).
  - unfold bind at 1. unfold lift at 1.
    destruct (_extract_retry_delay re_search_retry float_of_str (exn_str e0))
      as [d0 | ex] eqn:Ed0.
    2:{ exists (Raise ex), [CallNewSdk image_bytes]. split; [reflexivity |].
        split; [| now left]. right. right.
        exact (extract_retry_delay_origin _ _ Ed0). }
    change (0 <? MAX_RETRIES - 1)%Z with true. cbv iota.
    unfold bind at 1. unfold sleep at 1.
    set (w := qmin d0 (inject_Z (BASE_DELAY * 2 ^ 0))).
    assert (w <= inject_Z BASE_DELAY) as Hw.
    { unfold w. change (BASE_DELAY * 2 ^ 0)%Z with BASE_DELAY.
      destruct (Qlt_le_dec (inject_Z BASE_DELAY) d0) as [K | K].
      - rewrite (proj2 (qmin_spec _ _) K). lra.
      - rewrite (proj1 (qmin_spec _ _) K). exact K. }
    set (log2 := (log ++ [CallNewSdk image_bytes]) ++ [Sleep w]).
    unfold try_except at 1. unfold call_new_sdk at 1. unfold any_exception at 1.
    destruct (new_sdk log2 image_bytes) as [text | e1].
    { exists (Ok text), [CallNewSdk image_bytes; Sleep w; CallNewSdk image_bytes].
      split; [unfold log2; rewrite <- !app_assoc; reflexivity |].
      split; [exact I |]. right. right. exists w. split; [exact Hw | now left]. }
    destruct (_is_quota_error e1).
    + unfold bind at 1. unfold lift at 1.
      destruct (_extract_retry_delay re_search_retry float_of_str (exn_str e1))
        as [d1 | ex] eqn:Ed1.
      * change (1 <? MAX_RETRIES - 1)%Z with false. cbv iota. unfold raise.
        exists (Raise (quota_exceeded d1)),
               [CallNewSdk image_bytes; Sleep w; CallNewSdk image_bytes].
        split; [unfold log2; rewrite <- !app_assoc; reflexivity |].
        split; [left; now exists d1 |].
        right. right. exists w. split; [exact Hw | now left].
      * exists (Raise ex), [CallNewSdk image_bytes; Sleep w; CallNewSdk image_bytes].
        split; [unfold log2; rewrite <- !app_assoc; reflexivity |].
        split; [right; right; exact (extract_retry_delay_origin _ _ Ed1) |].
        right. right. exists w. split; [exact Hw | now left].
    + destruct (legacy_attempt image_bytes (log2 ++ [CallNewSdk image_bytes]))
        as (r & Er & Or).
      rewrite Er.
      exists r, [CallNewSdk image_bytes; Sleep w; CallNewSdk image_bytes;
                 CallLegacySdk image_bytes].
      split; [unfold log2; rewrite <- !app_assoc; reflexivity |].
      split; [exact Or |]. right. right. exists w. split; [exact Hw | now right].
  - destruct (legacy_attempt image_bytes (log ++ [CallNewSdk image_bytes]))
      as (r & Er & Or).
    rewrite Er.
    exists r, [CallNewSdk image_bytes; CallLegacySdk image_bytes].
    split; [rewrite <- !app_assoc; reflexivity |].
    split; [exact Or |]. right. now left.
Qed.

(** X12.  Whatever the two SDKs answer, one run of [_generate_with_retry]
    calls the new SDK at most [MAX_RETRIES] = 2 times and the legacy SDK at
    most once, sleeps at most once and for at most [BASE_DELAY] = 3 seconds,
    and never calls the local model. *)
Theorem retry_effort_is_bounded (image_bytes : list byte) (log : Log) :
  exists r events,
    generate_with_retry image_bytes log = (r, log ++ events) /\
    (Z.of_nat (List.length
       (filter (fun ev => match ev with CallNewSdk _ => true | _ => false end) events))
     <= MAX_RETRIES)%Z /\
    (List.length
       (filter (fun ev => match ev with CallLegacySdk _ => true | _ => false end) events)
     <= 1)%nat /\
    (List.length
       (filter (fun ev => match ev with Sleep _ => true | _ => false end) events)
     <= 1)%nat /\
    Forall (fun ev => match ev with
                      | Sleep seconds => seconds <= inject_Z BASE_DELAY
                      | CallLocalModel _ => False
                      | _ => True
                      end) events.
Proof.
  destruct (retry_outcome image_bytes log) as (r & events & E & _ & S).
  exists r, events. split; [exact E |].
  destruct S as [-> | [-> | (w & Hw & [-> | ->])]]; cbn;
    repeat split; try (unfold MAX_RETRIES; lia); repeat constructor; exact Hw.
Qed.


(** *** Candidate generation *)

Let cloud_only (events : list Event) : Prop :=
  Forall (fun ev => match ev with CallLocalModel _ => False | _ => True end) events.

Lemma retry_cloud_only (image_bytes : list byte) (log : Log) :
  exists r events,
    generate_with_retry image_bytes log = (r, log ++ CallNewSdk image_bytes :: events) /\
    cloud_only events.
Proof.
  destruct (retry_outcome image_bytes log) as (r & events & E & _ & S).
  destruct S as [-> | [-> | (w & _ & [-> | ->])]];
    eexists; eexists; (split; [exact E |]); repeat constructor.
Qed.

(** [generate_candidates] returns candidates or raises; it extends the log by
    calls of the SDKs and sleeps only, and what it returns is not empty. *)
Lemma generate_candidates_outcome (image_bytes : list byte) (log : Log) :
  exists r events,
    generate_candidates_ image_bytes log = (r, log ++ CallNewSdk image_bytes :: events) /\
    cloud_only events /\
    match r with Ok candidates => candidates <> [] | Raise _ => True end.
Proof.
  destruct (retry_cloud_only image_bytes log) as (rt & events & E & C).
  unfold generate_candidates_, generate_candidates. unfold bind at 1.
  fold generate_with_retry. rewrite E.
  destruct rt as [text | e]; [| exists (Raise e), events; repeat split; assumption].
  unfold bind at 1. unfold lift at 1.
  destruct (extract_json text) as [data | e];
    [| exists (Raise e), events; repeat split; assumption].
  destruct data as [it | [| it items] |]; unfold raise, ret.
  - destruct it as [c |]; cbn [flat_map app].
    + exists (Ok [c]), events. repeat split; [assumption | discriminate].
    + eexists; exists events. repeat split; assumption.
  - eexists; exists events. repeat split; assumption.
  - destruct (flat_map _ (it :: items)) as [| c cs].
    + eexists; exists events. repeat split; assumption.
    + exists (Ok (c :: cs)), events. repeat split; [assumption | discriminate].
  - eexists; exists events. repeat split; assumption.
Qed.

Lemma generate_candidates_with_retry_outcome (image_bytes : list byte) (max_edge : Z)
    (log : Log) :
  exists r events,
    generate_candidates_with_retry image_bytes max_edge log = (r, log ++ events) /\
    cloud_only events /\
    match r with Ok candidates => candidates <> [] | Raise _ => True end /\
    (forall prepared, prepare_image image_bytes max_edge = Ok prepared ->
       exists rest, events = CallNewSdk prepared :: rest).
Proof.
  unfold generate_candidates_with_retry, _generate_candidates_with_retry.
  unfold bind at 1. unfold lift at 1.
  destruct (prepare_image image_bytes max_edge) as [prepared | e].
  2:{ exists (Raise e), []. rewrite app_nil_r.
      repeat split; [constructor | discriminate]. }
  assert (forall rest prepared0, Ok prepared = Ok prepared0 ->
            exists rest0, CallNewSdk prepared :: rest = CallNewSdk prepared0 :: rest0)
    as First.
  { intros rest prepared0 H. injection H as <-. now exists rest. }
  unfold try_except. fold generate_candidates_.
  destruct (generate_candidates_outcome prepared log) as (r1 & ev1 & E1 & C1 & N1).
  rewrite E1. destruct r1 as [cs | exc].
  { exists (Ok cs), (CallNewSdk prepared :: ev1).
    repeat split; [constructor; [exact I | exact C1] | exact N1 | apply First]. }
  assert (cloud_only (CallNewSdk prepared :: ev1)) as C1'
    by (constructor; [exact I | exact C1]).
  destruct (is_ValueError exc);
    [| exists (Raise exc), (CallNewSdk prepared :: ev1);
       repeat split; [exact C1' | apply First]].
  destruct (contains (lit "Invalid JSON format") (lit (exn_str exc)) && (1024 <? max_edge)%Z)%bool.
  - unfold bind, lift.
    destruct (prepare_image image_bytes 1024) as [smaller | e].
    2:{ exists (Raise e), (CallNewSdk prepared :: ev1).
        repeat split; [exact C1' | apply First]. }
    destruct (generate_candidates_outcome smaller (log ++ CallNewSdk prepared :: ev1))
      as (r2 & ev2 & E2 & C2 & N2).
    rewrite E2.
    exists r2, (CallNewSdk prepared :: ev1 ++ CallNewSdk smaller :: ev2).
    split; [rewrite <- app_assoc; reflexivity |].
    split; [| split; [exact N2 | apply First]].
    constructor; [exact I |]. apply Forall_app. split; [exact C1 |].
    constructor; [exact I | exact C2].
  - unfold raise. exists (Raise exc), (CallNewSdk prepared :: ev1).
    repeat split; [exact C1' | apply First].
Qed.

(** X14.  In the forced modes the other provider is never called, whatever
    happens.  With [processing_mode = "gemini"] candidate generation extends
    the log by SDK calls and sleeps only, and a result it returns is tagged
    "gemini"; with [processing_mode = "local"] it makes one call, to the
    local model, and a result it returns is tagged "rmbg-local". *)
Theorem forced_modes_stay_with_their_provider (image_bytes : list byte) (max_edge : Z)
    (log : Log) :
  (exists r events,
     generate_with_fallback image_bytes max_edge "gemini" log = (r, log ++ events) /\
     Forall (fun ev => match ev with CallLocalModel _ => False | _ => True end) events /\
     match r with Ok (_, processor) => processor = "gemini"%string | Raise _ => True end) /\
  (exists r,
     generate_with_fallback image_bytes max_edge "local" log
       = (r, log ++ [CallLocalModel image_bytes]) /\
     match r with
     | Ok (_, processor) => processor = "rmbg-local"%string
     | Raise _ => True
     end).
Proof.
  split.
  - unfold generate_with_fallback, _generate_with_fallback.
    cbn [String.eqb Ascii.eqb Bool.eqb andb].
    fold generate_candidates_with_retry. unfold bind.
    destruct (generate_candidates_with_retry_outcome image_bytes max_edge log)
      as (r & events & E & C & _ & _).
    rewrite E. destruct r as [cs | e]; unfold ret.
    + eexists; exists events. repeat split. exact C.
    + eexists; exists events. repeat split. exact C.
  - unfold generate_with_fallback, _generate_with_fallback.
    cbn [String.eqb Ascii.eqb Bool.eqb andb].
    unfold try_except at 1. unfold bind at 1.
    unfold _run_local_segmentation. unfold try_except at 1. unfold bind at 1.
    unfold call_local_model at 1.
    destruct (local_model log image_bytes) as [[[cutout mask_bytes] metadata] | e].
    + unfold bind at 1. unfold lift at 1.
      destruct (pil_image_size image_bytes) as [sz | e]; unfold ret, raise, any_exception.
      * eexists. split; reflexivity.
      * destruct (is_inference_or_load e); eexists; split; reflexivity || exact I.
    + destruct (is_inference_or_load e); unfold raise, any_exception;
        eexists; split; reflexivity || exact I.
Qed.

(** Whenever candidate generation returns, in any mode, the list of
    candidates is not empty and the processor tag is "gemini" or
    "rmbg-local"; a result tagged "rmbg-local" holds exactly one candidate,
    whose box is the whole image. *)
Lemma fallback_result_shape (image_bytes : list byte) (max_edge : Z)
    (processing_mode : string) (log log' : Log)
    (candidates : list Candidate) (processor : string) :
  generate_with_fallback image_bytes max_edge processing_mode log
    = (Ok (candidates, processor), log') ->
  candidates <> [] /\
  (processor = "gemini"%string \/
   processor = "rmbg-local"%string /\
   exists c, candidates = [c] /\ box_2d c = [Fin 0; Fin 0; Fin 1000; Fin 1000]).
Proof.
  assert (forall l r l',
            try_except
              (bind (_run_local_segmentation local_model pil_image_size image_bytes)
                    (fun local_result =>
                       ret ([local_candidate local_result], "rmbg-local"%string)))
              any_exception r l = (Ok (candidates, processor), l') ->
            (forall e l1 l2, r e l1 <> (Ok (candidates, processor), l2)) ->
            candidates <> [] /\
            (processor = "gemini"%string \/
             processor = "rmbg-local"%string /\
             exists c, candidates = [c] /\ box_2d c = [Fin 0; Fin 0; Fin 1000; Fin 1000]))
    as Local.
  { intros l r l'. unfold try_except at 1. unfold bind at 1.
    unfold _run_local_segmentation. unfold try_except at 1. unfold bind at 1.
    unfold call_local_model at 1.
    destruct (local_model l image_bytes) as [[[cutout mask_bytes] metadata] | e].
    - unfold bind at 1. unfold lift at 1.
      destruct (pil_image_size image_bytes) as [sz | e]; unfold ret, raise, any_exception.
      + intros H _. injection H as <- <- _. split; [discriminate |].
        right. split; [reflexivity |]. eexists. split; reflexivity.
      + destruct (is_inference_or_load e); intros H N; exfalso; exact (N _ _ _ H).
    - destruct (is_inference_or_load e); unfold raise, any_exception;
        intros H N; exfalso; exact (N _ _ _ H). }
  unfold generate_with_fallback, _generate_with_fallback.
  destruct (String.eqb processing_mode "local").
  { intros H. apply (Local _ _ _ H). intros e l1 l2. unfold raise. discriminate. }
  assert (forall l l',
            bind (generate_candidates_with_retry image_bytes max_edge)
                 (fun cs => ret (cs, "gemini"%string)) l
            = (Ok (candidates, processor), l') ->
            candidates <> [] /\ processor = "gemini"%string) as Cloud.
  { intros l l'. unfold bind.
    destruct (generate_candidates_with_retry_outcome image_bytes max_edge l)
      as (r & events & E & _ & N & _).
    rewrite E. destruct r as [cs | e]; unfold ret; [| discriminate].
    intros H. injection H as <- <- _. split; [exact N | reflexivity]. }
  fold generate_candidates_with_retry.
  destruct (String.eqb processing_mode "gemini").
  { intros H. destruct (Cloud _ _ H) as [N P]. split; [exact N | now left]. }
  unfold try_except at 1.
  destruct (bind (generate_candidates_with_retry image_bytes max_edge)
                 (fun cs => ret (cs, "gemini"%string)) log) as [[[cs p] | e] l1] eqn:E.
  - intros H. injection H as -> -> ->.
    destruct (Cloud _ _ E) as [N P]. split; [exact N | now left].
  - destruct (is_quota_or_timeout e); [| discriminate].
    intros H. apply (Local _ _ _ H). intros e' l2 l3. unfold raise. discriminate.
Qed.


End RetryFacts.

Section RetryExamples.

Import Base64 Scoring Provider StubRun.
Local Open Scope Q_scope.



End RetryExamples.

(** ** Both providers failing *)

Section BothFailFacts.

Import Base64 Scoring Provider.
Local Open Scope Q_scope.

Variable new_sdk : Log -> list byte -> Res string.
Variable legacy_sdk : Log -> list byte -> Res string.
Variable local_model : Log -> list byte -> Res (list byte * list byte * Metadata).
Variable re_search_retry : string -> option string.
Variable float_of_str : string -> Res Q.
Variable extract_json : string -> Res JsonData.
Variable prepare_image : list byte -> Z -> Res (list byte).
Variable pil_image_size : list byte -> Res (Z * Z).


End BothFailFacts.

Section BothFailExamples.

Import Base64 Scoring Provider.
Local Open Scope Q_scope.


End BothFailExamples.

(** ** The whole run *)

Section RunFacts.

Import Geometry Base64 Scoring Postprocess Provider Pipeline.
Local Open Scope Q_scope.

Variable Image : Type.
Variable image_size : Image -> Z * Z.
Variable hypot : Q -> Q -> Q.
Variable gradient_mean : Image -> Z * Z * Z * Z -> Q.
Variable mask_fill : list byte -> Res Q.
Variable array_to_png : list (list pyfloat) -> list byte.
Variable new_sdk : Log -> list byte -> Res string.
Variable legacy_sdk : Log -> list byte -> Res string.
Variable local_model : Log -> list byte -> Res (list byte * list byte * Metadata).
Variable re_search_retry : string -> option string.
Variable float_of_str : string -> Res Q.
Variable extract_json : string -> Res JsonData.
Variable prepare_image : list byte -> Z -> Res (list byte).
Variable pil_image_size : list byte -> Res (Z * Z).
Variable decode_image : list byte -> Res Image.
Variable crop_image : Image -> Z * Z * Z * Z -> Image.
Variable soften_outside : Image -> Z * Z * Z * Z -> Image.
Variable _png_bytes : Image -> list byte.
Variable apply_mask :
  list byte -> list byte -> list pyfloat -> Z -> Z -> Z -> bool -> Res Post.
Variable GEMINI_MAX_EDGE : Z.
Variable GEMINI_ROI_MAX_EDGE : Z.
Variable ROI_MARGIN : Q.
Variable CANDIDATE_AREA_MIN : Q.
Variable CANDIDATE_AREA_MAX : Q.

Let select_candidate :=
  _select_candidate Image image_size hypot gradient_mean mask_fill array_to_png.
Let generate_with_fallback :=
  _generate_with_fallback new_sdk legacy_sdk local_model re_search_retry float_of_str
    extract_json prepare_image pil_image_size.
Let the_second_pass :=
  second_pass Image image_size hypot gradient_mean mask_fill array_to_png
    new_sdk legacy_sdk re_search_retry float_of_str extract_json prepare_image
    _png_bytes GEMINI_ROI_MAX_EDGE CANDIDATE_AREA_MIN CANDIDATE_AREA_MAX.
Let the_finish_run := finish_run array_to_png apply_mask.
Let the_run :=
  run_segmentation Image image_size hypot gradient_mean mask_fill array_to_png
    new_sdk legacy_sdk local_model re_search_retry float_of_str extract_json
    prepare_image pil_image_size decode_image crop_image soften_outside _png_bytes
    apply_mask GEMINI_MAX_EDGE GEMINI_ROI_MAX_EDGE ROI_MARGIN
    CANDIDATE_AREA_MIN CANDIDATE_AREA_MAX.

(** A box of four numbers between 0 and 1000. *)
Let normalized (box : list pyfloat) : Prop :=
  exists q0 q1 q2 q3,
    box = [Fin q0; Fin q1; Fin q2; Fin q3] /\
    0 <= q0 <= 1000 /\ 0 <= q1 <= 1000 /\ 0 <= q2 <= 1000 /\ 0 <= q3 <= 1000.

(** What [_select_candidate] returns fits together. *)
Lemma select_candidate_shape (candidates : list Candidate) (image : Image)
    (focus_mode : string) (allow_border_touch : bool) (candidate_index : option Z)
    (area_min area_max : Q) (chosen : Scored) (scored : list Scored) (index : Z) :
  select_candidate candidates image focus_mode allow_border_touch candidate_index
    area_min area_max = Ok (chosen, scored, index) ->
  List.length scored = List.length candidates /\
  (0 <= index)%Z /\
  nth_error scored (Z.to_nat index) = Some chosen /\
  (exists c, nth_error candidates (Z.to_nat index) = Some c /\ item chosen = c).
Proof.
  unfold select_candidate, _select_candidate.
  set (enrich := fun it : Candidate =>
         match _score_candidate Image image_size hypot gradient_mean mask_fill
                 array_to_png it image focus_mode allow_border_touch
                 area_min area_max with
         | Ok (sc, me) => mkScored it sc me
         | Raise _ => mkScored it 0 zero_metrics
         end).
  assert (forall i s, nth_error (map enrich candidates) i = Some s ->
            exists c, nth_error candidates i = Some c /\ item s = c) as Hnth.
  { intros i s Hs. rewrite nth_error_map in Hs.
    destruct (nth_error candidates i) as [c |]; [| discriminate Hs].
    cbn in Hs. injection Hs as <-. exists c. split; [reflexivity |].
    unfold enrich. destruct (_score_candidate _ _ _ _ _ _ c image _ _ _ _) as [[sc me] |];
      reflexivity. }
  assert (forall best,
            match nth_error (map enrich candidates) best with
            | Some chosen0 => Ok (chosen0, map enrich candidates, Z.of_nat best)
            | None => Raise (ValueError "list index out of range")
            end = Ok (chosen, scored, index) ->
            List.length scored = List.length candidates /\
            (0 <= index)%Z /\
            nth_error scored (Z.to_nat index) = Some chosen /\
            (exists c, nth_error candidates (Z.to_nat index) = Some c /\ item chosen = c))
    as Auto.
  { intros best.
    destruct (nth_error (map enrich candidates) best) as [ch |] eqn:Ec; [| discriminate].
    intros H. injection H as <- <- <-. rewrite Nat2Z.id.
    split; [apply length_map |]. split; [lia |]. split; [exact Ec |].
    exact (Hnth _ _ Ec). }
  destruct candidate_index as [ci |].
  - destruct ((0 <=? ci)%Z && (ci <? Z.of_nat (List.length (map enrich candidates)))%Z)%bool
      eqn:In.
    + destruct (nth_error (map enrich candidates) (Z.to_nat ci)) as [ch |] eqn:En.
      * intros H. injection H as <- <- <-.
        apply andb_prop in In as [In0 _]. apply Z.leb_le in In0.
        split; [apply length_map |]. split; [exact In0 |]. split; [exact En |].
        exact (Hnth _ _ En).
      * destruct (py_argmax _) as [best |]; [| discriminate]. cbn [res_bind]. apply Auto.
    + destruct (py_argmax _) as [best |]; [| discriminate]. cbn [res_bind]. apply Auto.
  - destruct (py_argmax _) as [best |]; [| discriminate]. cbn [res_bind]. apply Auto.
Qed.

(** The second pass never raises; the calls it makes start with one of the
    new SDK on the prepared crop; the box it returns is the one it was given
    or a box of the full image. *)
Lemma second_pass_outcome (selected : Scored) (roi_image : Image)
    (roi_bounds : Z * Z * Z * Z) (full_w full_h : Z) (focus : string) (log : Log) :
  exists roi_mask roi_label roi_box events,
    the_second_pass selected roi_image roi_bounds (full_w, full_h) focus log
      = (Ok (roi_mask, roi_label, roi_box), log ++ events) /\
    (forall prepared,
       prepare_image (_png_bytes roi_image) GEMINI_ROI_MAX_EDGE = Ok prepared ->
       exists rest, events = CallNewSdk prepared :: rest) /\
    ((1 <= full_w)%Z -> (1 <= full_h)%Z ->
     roi_box = box_2d (item selected) \/ normalized roi_box).
Proof.
  unfold the_second_pass, second_pass, roi_query. unfold bind at 1.
  destruct (generate_candidates_with_retry_outcome new_sdk legacy_sdk re_search_retry
              float_of_str extract_json prepare_image (_png_bytes roi_image)
              GEMINI_ROI_MAX_EDGE log) as (r & events & E & _ & _ & First).
  cbv zeta in E. rewrite E.
  destruct r as [roi_candidates | e].
  2:{ do 3 eexists. exists events. split; [reflexivity |].
      split; [exact First | intros; now left]. }
  unfold bind at 1. unfold lift at 1.
  destruct (_select_candidate Image image_size hypot gradient_mean mask_fill array_to_png
              roi_candidates roi_image focus true None CANDIDATE_AREA_MIN
              CANDIDATE_AREA_MAX) as [[[roi_selected sc] ix] | e].
  2:{ do 3 eexists. exists events. split; [reflexivity |].
      split; [exact First | intros; now left]. }
  unfold ret. cbn [fst].
  destruct (_map_box_to_full (box_2d (item roi_selected)) roi_bounds (full_w, full_h))
    as [mapped | e] eqn:Em.
  2:{ do 3 eexists. exists events. split; [reflexivity |].
      split; [exact First | intros; now left]. }
  do 3 eexists. exists events. split; [reflexivity |].
  split; [exact First |]. intros W H. right.
  revert Em. unfold _map_box_to_full.
  destruct roi_bounds as [[[left_ top] right_] bottom].
  destruct (box_2d (item roi_selected)) as [| y0 [| x0 [| y1 [| x1 [| extra more]]]]];
    try discriminate.
  destruct (axis_to_full_in_range
              (fadd (of_int top) (fmul_int (fdiv_lit y0 1000) (Z.max 1 (bottom - top))))
              full_h H) as (r0 & q0 & E0 & M0 & R0).
  destruct (axis_to_full_in_range
              (fadd (of_int left_) (fmul_int (fdiv_lit x0 1000) (Z.max 1 (right_ - left_))))
              full_w W) as (r1 & q1 & E1 & M1 & R1).
  destruct (axis_to_full_in_range
              (fadd (of_int top) (fmul_int (fdiv_lit y1 1000) (Z.max 1 (bottom - top))))
              full_h H) as (r2 & q2 & E2 & M2 & R2).
  destruct (axis_to_full_in_range
              (fadd (of_int left_) (fmul_int (fdiv_lit x1 1000) (Z.max 1 (right_ - left_))))
              full_w W) as (r3 & q3 & E3 & M3 & R3).
  rewrite E0. cbn [res_bind]. rewrite E1. cbn [res_bind].
  rewrite E2. cbn [res_bind]. rewrite E3. cbn [res_bind].
  rewrite M0, M1, M2, M3. intros Em. injection Em as <-.
  exists q0, q1, q2, q3. repeat split; tauto.
Qed.

(** X17.  Whenever [run_segmentation] returns on an image of width and
    height at least 1, the result fits together: the list of candidates is
    not empty, [selected_candidate] is a position of that list, the processor
    tag is "gemini" or "rmbg-local", and the box of the result is either the
    box of the selected candidate (the second pass failed) or a box whose
    four coordinates are numbers between 0 and 1000 (the second pass
    refined it). *)
Theorem run_result_fits_together (image_bytes : list byte) (params : Params)
    (log log' : Log) (seg : Segmentation) :
  (forall original_image,
     decode_image image_bytes = Ok original_image ->
     (1 <= fst (image_size original_image))%Z /\
     (1 <= snd (image_size original_image))%Z) ->
  the_run image_bytes params log = (Ok seg, log') ->
  seg_candidates seg <> [] /\
  (0 <= selected_candidate seg)%Z /\
  (exists chosen,
     nth_error (seg_candidates seg) (Z.to_nat (selected_candidate seg)) = Some chosen /\
     (seg_box_2d seg = cp_box_2d chosen \/
      exists q0 q1 q2 q3,
        seg_box_2d seg = [Fin q0; Fin q1; Fin q2; Fin q3] /\
        0 <= q0 <= 1000 /\ 0 <= q1 <= 1000 /\ 0 <= q2 <= 1000 /\ 0 <= q3 <= 1000)) /\
  (processor_used seg = "gemini"%string \/ processor_used seg = "rmbg-local"%string).
Proof.
  intros Hdims. unfold the_run, run_segmentation.
  unfold bind at 1. unfold lift at 1.
  destruct (decode_image image_bytes) as [original_image |]; [| discriminate].
  pose proof (Hdims original_image eq_refl) as [Hw Hh].
  destruct (image_size original_image) as [full_width full_height]. cbn [fst snd] in Hw, Hh.
  unfold bind at 1.
  destruct (_generate_with_fallback _ _ _ _ _ _ _ _ image_bytes GEMINI_MAX_EDGE
              (processing_mode params) log) as [[[candidates processor] |] log0] eqn:G;
    [| discriminate].
  destruct (fallback_result_shape _ _ _ _ _ _ _ _ _ _ _ _ _ _ _ G) as [Hne Hproc].
  unfold bind at 1. unfold lift at 1.
  destruct (_select_candidate _ _ _ _ _ _ candidates original_image _ _ _ _ _)
    as [[[selected scored_candidates] selected_index] |] eqn:S; [| discriminate].
  destruct (select_candidate_shape _ _ _ _ _ _ _ _ _ _ S) as (Hlen & Hidx & Hnth & _).
  unfold bind at 1. unfold lift at 1.
  destruct (_box_to_px (box_2d (item selected)) full_width full_height)
    as [[[[sx0 sy0] sx1] sy1] |]; [| discriminate].
  destruct (_crop_roi Image image_size crop_image original_image (sx0, sy0, sx1, sy1)
              ROI_MARGIN) as [cropped [[[left_ top] right_] bottom]].
  unfold bind at 1.
  match goal with
  | |- context [second_pass _ _ _ _ _ _ _ _ _ _ _ _ _ _ _ _ ?sel ?img ?bounds _ ?fm ?lg] =>
      destruct (second_pass_outcome sel img bounds full_width full_height fm lg)
        as (roi_mask & roi_label & roi_box & events & E2 & _ & Hbox)
  end.
  unfold the_second_pass in E2. rewrite E2.
  specialize (Hbox Hw Hh).
  unfold lift, finish_run.
  destruct (_decode_mask_payload array_to_png roi_mask) as [mask_bytes |]; [| discriminate].
  destruct (apply_mask image_bytes mask_bytes roi_box _ _ _ _) as [post |]; [| discriminate].
  intros H. injection H as <- _. cbn.
  split.
  { destruct scored_candidates; [| discriminate].
    destruct candidates; [congruence | discriminate Hlen]. }
  split; [exact Hidx |].
  split.
  - eexists. split; [rewrite nth_error_map, Hnth; reflexivity |]. cbn.
    destruct Hbox as [-> | N]; [now left | right; exact N].
  - destruct Hproc as [-> | [-> _]]; [now left | now right].
Qed.

(** On a list of one candidate the selection returns that candidate. *)
Lemma select_singleton (c : Candidate) (image : Image) (focus_mode : string)
    (allow_border_touch : bool) (candidate_index : option Z) (area_min area_max : Q) :
  exists chosen index,
    select_candidate [c] image focus_mode allow_border_touch candidate_index
      area_min area_max = Ok (chosen, [chosen], index) /\
    item chosen = c.
Proof.
  unfold select_candidate, _select_candidate. cbn [map List.length].
  set (chosen := match _score_candidate Image image_size hypot gradient_mean mask_fill
                         array_to_png c image focus_mode allow_border_touch
                         area_min area_max with
                 | Ok (sc, me) => mkScored c sc me
                 | Raise _ => mkScored c 0 zero_metrics
                 end).
  assert (item chosen = c) as Hc.
  { unfold chosen. destruct (_score_candidate _ _ _ _ _ _ c image _ _ _ _) as [[sc me] |];
      reflexivity. }
  destruct candidate_index as [ci |].
  - destruct (Z.leb_spec 0 ci); destruct (Z.ltb_spec ci (Z.of_nat 1)); cbn [andb].
    + replace ci with 0%Z by lia. exists chosen, 0%Z. split; [reflexivity | exact Hc].
    + exists chosen, 0%Z. split; [reflexivity | exact Hc].
    + exists chosen, 0%Z. split; [reflexivity | exact Hc].
    + exists chosen, 0%Z. split; [reflexivity | exact Hc].
  - exists chosen, 0%Z. split; [reflexivity | exact Hc].
Qed.

(** X18.  The second pass goes to the cloud provider in every mode.  In a
    run with [processing_mode = "local"] in which the local model answered
    and the region of interest (the whole image, for the box of the local
    model) could be prepared for the model, the call of the local model is
    followed by a call of the new SDK on the prepared region of interest. *)
Theorem local_mode_run_still_calls_cloud (image_bytes : list byte) (params : Params)
    (log : Log) (original_image : Image) (full_width full_height : Z)
    (cutout_bytes mask_bytes : list byte) (metadata : Metadata) (pil_size : Z * Z)
    (prepared : list byte) :
  processing_mode params = "local"%string ->
  decode_image image_bytes = Ok original_image ->
  image_size original_image = (full_width, full_height) ->
  (1 <= full_width <= 2 ^ 53)%Z -> (1 <= full_height <= 2 ^ 53)%Z ->
  0 <= ROI_MARGIN ->
  local_model log image_bytes = Ok (cutout_bytes, mask_bytes, metadata) ->
  pil_image_size image_bytes = Ok pil_size ->
  prepare_image
    (_png_bytes
       (_suppress_background Image image_size soften_outside
          (crop_image original_image (0, 0, full_width, full_height)%Z)
          (0, 0, full_width, full_height)%Z))
    GEMINI_ROI_MAX_EDGE = Ok prepared ->
  exists r rest,
    the_run image_bytes params log
    = (r, log ++ CallLocalModel image_bytes :: CallNewSdk prepared :: rest).
Proof.
  intros Hmode Hdec Hsize Hw Hh Hmargin Hlocal Hpil Hprep.
  unfold the_run, run_segmentation.
  unfold bind at 1. unfold lift at 1. rewrite Hdec, Hsize.
  unfold bind at 1. rewrite Hmode.
  unfold _generate_with_fallback. cbn [String.eqb Ascii.eqb Bool.eqb andb].
  unfold try_except at 1. unfold bind at 1.
  unfold _run_local_segmentation. unfold try_except at 1. unfold bind at 1.
  unfold call_local_model at 1. rewrite Hlocal.
  unfold bind at 1. unfold lift at 1. rewrite Hpil. unfold ret at 1. unfold ret at 1.
  unfold bind at 1. unfold lift at 1. fold select_candidate.
  match goal with
  | |- context [select_candidate [?c] ?img ?fm ?ab ?ci ?amin ?amax] =>
      destruct (select_singleton c img fm ab ci amin amax) as (chosen & index & Hsel & Hc)
  end.
  rewrite Hsel.
  assert (box_2d (item chosen) = [Fin 0; Fin 0; Fin 1000; Fin 1000]) as Hb
    by (rewrite Hc; reflexivity).
  unfold bind at 1. unfold lift at 1.
  rewrite Hb, (full_frame_px full_width full_height Hw Hh).
  rewrite (full_frame_roi Image image_size crop_image original_image ROI_MARGIN
             full_width full_height Hsize ltac:(lia) ltac:(lia) Hmargin).
  replace (Z.max 0 (0 - 0)) with 0%Z by reflexivity.
  replace (Z.max 1 (full_width - 0)) with full_width by lia.
  replace (Z.max 1 (full_height - 0)) with full_height by lia.
  unfold bind at 1.
  match goal with
  | |- context [second_pass _ _ _ _ _ _ _ _ _ _ _ _ _ _ _ _ ?sel ?img ?bounds _ ?fm ?lg] =>
      destruct (second_pass_outcome sel img bounds full_width full_height fm lg)
        as (roi_mask & roi_label & roi_box & events & E2 & First & _)
  end.
  unfold the_second_pass in E2. rewrite E2.
  destruct (First _ Hprep) as (rest & ->).
  unfold lift. eexists. exists rest. rewrite <- app_assoc. reflexivity.
Qed.

End RunFacts.

Section RunExamples.

Import Geometry Base64 Scoring Postprocess Provider Pipeline Stub StubRun.
Local Open Scope Q_scope.

Lemma run_result_fits_together_witness :
  exists seg,
    stub_run sdk_without_key (json_with roi_candidate_number_mask) [] =
      (Ok seg, [CallLocalModel [x89]; CallNewSdk []; CallLegacySdk []]) /\
    seg_candidates seg <> [] /\
    (0 <= selected_candidate seg)%Z /\
    (exists chosen,
       nth_error (seg_candidates seg) (Z.to_nat (selected_candidate seg)) = Some chosen /\
       (seg_box_2d seg = cp_box_2d chosen \/
        exists q0 q1 q2 q3,
          seg_box_2d seg = [Fin q0; Fin q1; Fin q2; Fin q3] /\
          0 <= q0 <= 1000 /\ 0 <= q1 <= 1000 /\ 0 <= q2 <= 1000 /\ 0 <= q3 <= 1000)) /\
    (processor_used seg = "gemini"%string \/ processor_used seg = "rmbg-local"%string).
Proof.
  eexists. split; [vm_compute; reflexivity |].
  eapply (run_result_fits_together
    StubImage stub_size norm1 flat_gradient full_mask_fill no_png
    sdk_without_key sdk_without_key local_model_ok (fun _ => None) (fun _ => Ok 60)
    (json_with roi_candidate_number_mask)
    (fun b _ => Ok b) (fun _ => Ok (100, 100)%Z)
    stub_decode_image stub_crop_image stub_soften stub_png_bytes stub_apply_mask
    2048 1536 (15 # 100) (8 # 100) (70 # 100)
    [x89] local_params []).
  - intros image H. injection H as <-. cbn. lia.
  - vm_compute. reflexivity.
Defined.

(** A run in local mode: the local model is called, then the new SDK. *)
Lemma local_mode_run_still_calls_cloud_witness :
  exists r rest,
    stub_run sdk_without_key (json_with roi_candidate_number_mask) []
    = (r, [] ++ CallLocalModel [x89] :: CallNewSdk [] :: rest).
Proof.
  apply (local_mode_run_still_calls_cloud
    StubImage stub_size norm1 flat_gradient full_mask_fill no_png
    sdk_without_key sdk_without_key local_model_ok (fun _ => None) (fun _ => Ok 60)
    (json_with roi_candidate_number_mask)
    (fun b _ => Ok b) (fun _ => Ok (100, 100)%Z)
    stub_decode_image stub_crop_image stub_soften stub_png_bytes stub_apply_mask
    2048 1536 (15 # 100) (8 # 100) (70 # 100)
    [x89] local_params [] (100, 100)%Z 100 100 [x01] [x0a; x0b; x0c]
    (mkMetadata (Some (lit "product")) (Some (Fin (95 # 100))) (Some "cpu"%string)
       (Some 12%Z))
    (100, 100)%Z []); try reflexivity; try lia.
  vm_compute. discriminate.
Defined.

End RunExamples.

(** ** More on mask post-processing *)

Section CleanupMoreFacts.

Import Scoring Postprocess.




Variable morphologyEx : arr -> morph_op -> arr.
Variable connectedComponentsWithStats : arr -> Z * arr * list stat_row.






Variable MaskImage : Type.
Variable open_image_size : list byte -> Res (Z * Z).
Variable open_mask : list byte -> Res MaskImage.
Variable smooth_mask : MaskImage -> Z * Z * Z * Z -> Z * Z -> bool -> arr.
Variable edge_strength : arr -> Q.
Variable gaussian_blur : arr -> Q -> arr.
Variable getbbox : arr -> option (Z * Z * Z * Z).

Let the_apply_mask :=
  apply_mask morphologyEx connectedComponentsWithStats MaskImage open_image_size
    open_mask smooth_mask edge_strength gaussian_blur getbbox.

(** X21.  Whenever [apply_mask] returns, the crop rectangle [box_px] lies
    inside the image for every padding (a negative padding counts as 0) and
    whatever bounding box the image library reports, [size] is the size of
    the image, and the cropped alpha channel is the alpha channel cut to that
    rectangle.  When the alpha channel is empty (no bounding box), the
    rectangle is the whole image. *)
Theorem apply_mask_crop_stays_inside (image_bytes mask_bytes : list byte)
    (box_2d : list pyfloat) (threshold feather padding : Z) (auto_enhance : bool)
    (env_hole_ratio : option pyfloat) (post : Post) (width height : Z) :
  open_image_size image_bytes = Ok (width, height) ->
  the_apply_mask image_bytes mask_bytes box_2d threshold feather padding auto_enhance
    env_hole_ratio = Ok post ->
  size post = (width, height) /\
  (exists left_ top right_ bottom,
     box_px post = (left_, top, right_, bottom) /\
     0 <= left_ /\ 0 <= top /\ right_ <= width /\ bottom <= height) /\
  cutout_alpha post = crop (alpha post) (box_px post) /\
  (getbbox (alpha post) = None -> 0 <= width -> 0 <= height ->
   box_px post = (0, 0, width, height)).
Proof.
  intros Hopen. unfold the_apply_mask, apply_mask. rewrite Hopen.
  cbn [as_value_error res_bind].
  destruct (as_value_error _ (open_mask mask_bytes)) as [mask_img |]; [| discriminate].
  cbn [res_bind].
  destruct (Geometry._normalize_box box_2d width height) as [box |]; [| discriminate].
  cbn [res_bind].
  match goal with
  | |- context [getbbox ?a] => set (alpha_ := a)
  end.
  destruct (getbbox alpha_) as [[[[b0 b1] b2] b3] |] eqn:Eb;
    intros E; injection E as <-; cbn [size box_px cutout_alpha alpha];
    rewrite ?Eb.
  - split; [reflexivity |].
    split; [do 4 eexists; split; [reflexivity | lia] |].
    split; [reflexivity | discriminate].
  - split; [reflexivity |].
    split; [do 4 eexists; split; [reflexivity | lia] |].
    split; [reflexivity |].
    intros _ Hw Hh. f_equal; [f_equal; [f_equal |] |]; lia.
Qed.

(** X22.  A threshold outside 0..255 is not an error: [apply_mask] behaves
    for it exactly as for the nearest value of that range. *)
Theorem apply_mask_saturates_threshold (image_bytes mask_bytes : list byte)
    (box_2d : list pyfloat) (threshold feather padding : Z) (auto_enhance : bool)
    (env_hole_ratio : option pyfloat) :
  the_apply_mask image_bytes mask_bytes box_2d threshold feather padding auto_enhance
    env_hole_ratio
  = the_apply_mask image_bytes mask_bytes box_2d (Z.max 0 (Z.min 255 threshold))
      feather padding auto_enhance env_hole_ratio.
Proof.
  unfold the_apply_mask, apply_mask.
  replace (Z.max 0 (Z.min 255 (Z.max 0 (Z.min 255 threshold))))
    with (Z.max 0 (Z.min 255 threshold)) by lia.
  reflexivity.
Qed.

End CleanupMoreFacts.

Section CleanupMoreExamples.

Import Scoring Postprocess StubCv.



Lemma apply_mask_crop_stays_inside_witness :
  exists post,
    apply_mask stub_morph stub_cc arr stub_open_image_size stub_open_mask
      stub_smooth_mask stub_edge_strength stub_gaussian_blur stub_getbbox
      [] [] [Fin 0; Fin 0; Fin 1000; Fin 1000] 128 0 (-3) false None = Ok post /\
    size post = (15, 15) /\
    (exists left_ top right_ bottom,
       box_px post = (left_, top, right_, bottom) /\
       0 <= left_ /\ 0 <= top /\ right_ <= 15 /\ bottom <= 15) /\
    cutout_alpha post = crop (alpha post) (box_px post) /\
    (stub_getbbox (alpha post) = None -> 0 <= 15 -> 0 <= 15 ->
     box_px post = (0, 0, 15, 15)).
Proof.
  eexists. split; [vm_compute; reflexivity |].
  apply (apply_mask_crop_stays_inside stub_morph stub_cc arr stub_open_image_size
           stub_open_mask stub_smooth_mask stub_edge_strength stub_gaussian_blur
           stub_getbbox [] [] [Fin 0; Fin 0; Fin 1000; Fin 1000] 128 0 (-3) false None).
  - reflexivity.
  - vm_compute. reflexivity.
Defined.

End CleanupMoreExamples.

(** ** The local model *)

Section ModelLoadFacts.

Import Base64 Scoring Provider Rmbg.

(** X23.  [detect_best_device] returns "cuda" or "mps" only when torch is
    installed and reports that device as available, and "cpu" otherwise; it
    raises only when "cuda" or "mps" was asked for by name; a preference that
    is none of "cuda", "mps", "cpu" is treated as "auto". *)
Theorem detected_device_is_available (torch : option Torch) (preferred : string) :
  (forall device, detect_best_device torch preferred = Ok device ->
     (device = "cuda"%string /\ exists t, torch = Some t /\ cuda_is_available t = true) \/
     (device = "mps"%string /\ exists t, torch = Some t /\ mps_is_available t = true) \/
     device = "cpu"%string) /\
  (forall e, detect_best_device torch preferred = Raise e ->
     preferred = "cuda"%string \/ preferred = "mps"%string) /\
  (preferred <> "cuda"%string -> preferred <> "mps"%string ->
   preferred <> "cpu"%string ->
   detect_best_device torch preferred = detect_best_device torch "auto").
Proof.
  unfold detect_best_device. cbv zeta.
  assert (forall device,
            match torch with
            | Some t =>
                if cuda_is_available t then Ok "cuda"%string
                else if mps_is_available t then Ok "mps"%string else Ok "cpu"%string
            | None => Ok "cpu"%string
            end = Ok device ->
            (device = "cuda"%string /\ exists t, torch = Some t /\ cuda_is_available t = true) \/
            (device = "mps"%string /\ exists t, torch = Some t /\ mps_is_available t = true) \/
            device = "cpu"%string) as Auto.
  { intros device. destruct torch as [t |].
    - destruct (cuda_is_available t) eqn:C.
      + intros H. injection H as <-. left. split; [reflexivity |]. now exists t.
      + destruct (mps_is_available t) eqn:M; intros H; injection H as <-.
        * right. left. split; [reflexivity |]. now exists t.
        * right. now right.
    - intros H. injection H as <-. right. now right. }
  assert (forall e,
            match torch with
            | Some t =>
                if cuda_is_available t then Ok "cuda"%string
                else if mps_is_available t then Ok "mps"%string else Ok "cpu"%string
            | None => Ok "cpu"%string
            end <> Raise e) as Total.
  { intros e. destruct torch as [t |]; [| discriminate].
    destruct (cuda_is_available t); [discriminate |].
    destruct (mps_is_available t); discriminate. }
  destruct (String.eqb_spec preferred "auto") as [Ea | Na]; cbn [negb].
  { subst preferred. split; [exact Auto |]. split; [| reflexivity].
    intros e H. exfalso. exact (Total e H). }
  destruct (String.eqb_spec preferred "cuda") as [Ec | Nc].
  { split; [| split; [intros; now left | intros C; contradiction]].
    intros device. destruct torch as [t |]; [| discriminate].
    destruct (cuda_is_available t) eqn:C; [| discriminate].
    intros H. injection H as <-. left. split; [reflexivity |]. now exists t. }
  destruct (String.eqb_spec preferred "mps") as [Em | Nm].
  { split; [| split; [intros; now right | intros _ C; contradiction]].
    intros device. destruct torch as [t |]; [| discriminate].
    destruct (mps_is_available t) eqn:M; [| discriminate].
    intros H. injection H as <-. right. left. split; [reflexivity |]. now exists t. }
  destruct (String.eqb_spec preferred "cpu") as [Ep | Np].
  { split; [| split; [discriminate | intros _ _ C; contradiction]].
    intros device H. injection H as <-. right. now right. }
  split; [exact Auto |]. split; [| reflexivity].
  intros e H. exfalso. exact (Total e H).
Qed.

Variable Session : Type.
Variable torch : option Torch.
Variable import_rembg : Res unit.
Variable HARDWARE_DEVICE : string.
Variable new_session : list string -> Res Session.

Let get_processor :=
  _get_processor Session torch import_rembg HARDWARE_DEVICE new_session.

(** What [_get_processor] raises is a [ModelLoadError], and it leaves no
    processor behind. *)
Lemma get_processor_failure (g g' : Globals Session) (e : exn) :
  get_processor g = (Raise e, g') ->
  is_ModelLoadError e = true /\ _processor Session g' = None.
Proof.
  unfold get_processor, _get_processor.
  assert (forall x, is_ModelLoadError (load_error x) = true) as L.
  { intros x. unfold load_error. destruct (is_ImportError x); reflexivity. }
  destruct (_processor Session g) eqn:P; [discriminate |].
  destruct import_rembg.
  - destruct (detect_best_device torch HARDWARE_DEVICE) as [device |].
    + destruct (new_session _); [discriminate |].
      intros H. injection H as <- <-. split; [apply L | reflexivity].
    + intros H. injection H as <- <-. split; [apply L | exact P].
  - intros H. injection H as <- <-. split; [apply L | exact P].
Qed.

(** X24.  The model is loaded at most once.  After a call of
    [_get_processor] that returned, every later call returns the same
    session and device and leaves the globals alone, whatever has happened
    to the environment in between (package removed, device setting changed,
    session creation failing).  A call that raised raised a
    [ModelLoadError] and left no processor behind, so the next call tries
    again. *)
Theorem model_is_loaded_once (g g' : Globals Session) :
  (forall loaded (torch' : option Torch) (import_rembg' : Res unit)
          (HARDWARE_DEVICE' : string) (new_session' : list string -> Res Session),
     get_processor g = (Ok loaded, g') ->
     _get_processor Session torch' import_rembg' HARDWARE_DEVICE' new_session' g'
       = (Ok loaded, g')) /\
  (forall e, get_processor g = (Raise e, g') ->
     (exists msg, e = ModelLoadError msg) /\ _processor Session g' = None).
Proof.
  split.
  - intros loaded torch' import' hw' new_session'. unfold get_processor, _get_processor.
    destruct (_processor Session g) as [p |] eqn:P.
    + intros H. injection H as <- <-. rewrite P. reflexivity.
    + destruct import_rembg; [| discriminate].
      destruct (detect_best_device torch HARDWARE_DEVICE) as [device |]; [| discriminate].
      destruct (new_session _) as [session |]; [| discriminate].
      intros H. injection H as <- <-. reflexivity.
  - intros e H. destruct (get_processor_failure g g' e H) as [M N].
    split; [| exact N]. destruct e; try discriminate M. now eexists.
Qed.

End ModelLoadFacts.

Section RmbgFacts.

Import Base64 Scoring Provider Rmbg.

Variable Session : Type.
Variable Img : Type.
Variable torch : option Torch.
Variable import_rembg : Res unit.
Variable HARDWARE_DEVICE : string.
Variable new_session : list string -> Res Session.
Variable remove : Img -> Session -> bool -> option Z -> option Z -> Res Img.
Variable pil_open : list byte -> Res Img.
Variable convert : Img -> string -> Img.
Variable mode : Img -> string.
Variable img_size : Img -> Z * Z.
Variable alpha_band : Img -> Img.
Variable save_png : Img -> list byte.
Variable elapsed_ms : Z.

Let get_processor :=
  _get_processor Session torch import_rembg HARDWARE_DEVICE new_session.
Let the_generate_mask :=
  generate_mask Session Img torch import_rembg HARDWARE_DEVICE new_session remove
    pil_open convert mode alpha_band save_png elapsed_ms.
Let the_remove_background :=
  remove_background Session Img torch import_rembg HARDWARE_DEVICE new_session remove
    pil_open img_size save_png elapsed_ms.

(** X25.  A model that cannot be loaded is reported in two ways: with the
    package importable, [remove_background] raises the [ModelLoadError] of
    [_get_processor] as it is, while [generate_mask] turns it into an
    [InferenceError] "Mask generation failed: <message>". *)
Theorem load_failure_is_reported_in_two_ways (image_bytes : list byte)
    (alpha_matting : bool) (foreground_threshold background_threshold : Z)
    (g g' : Globals Session) (e : exn) (imported : unit) :
  import_rembg = Ok imported ->
  get_processor g = (Raise e, g') ->
  the_remove_background image_bytes alpha_matting foreground_threshold
    background_threshold g = (Raise e, g') /\
  the_generate_mask image_bytes g
    = (Raise (InferenceError ("Mask generation failed: " ++ exn_str e)), g') /\
  exists msg, e = ModelLoadError msg.
Proof.
  intros Himp Hload.
  destruct (get_processor_failure Session torch import_rembg HARDWARE_DEVICE new_session
              g g' e Hload) as [M _].
  unfold the_remove_background, remove_background, the_generate_mask, generate_mask.
  fold get_processor. rewrite Hload, Himp, M.
  repeat split. destruct e; try discriminate M. now eexists.
Qed.

(** Everything that [generate_mask] raises is an [InferenceError] with the
    prefix of its handler. *)
Lemma generate_mask_failure (image_bytes : list byte) (g g' : Globals Session) (e : exn) :
  the_generate_mask image_bytes g = (Raise e, g') ->
  exists cause, e = InferenceError ("Mask generation failed: " ++ cause).
Proof.
  unfold the_generate_mask, generate_mask.
  destruct import_rembg as [u | e0].
  2:{ intros H. injection H as <- _. now eexists. }
  destruct (_get_processor _ _ _ _ _ g) as [[[session device] | e0] g1].
  2:{ intros H. injection H as <- _. now eexists. }
  destruct (pil_open image_bytes) as [opened | e0].
  2:{ intros H. injection H as <- _. now eexists. }
  destruct (remove _ _ _ _ _) as [cutout | e0].
  2:{ intros H. injection H as <- _. now eexists. }
  discriminate.
Qed.

Variable new_sdk : Log -> list byte -> Res string.
Variable legacy_sdk : Log -> list byte -> Res string.
Variable re_search_retry : string -> option string.
Variable float_of_str : string -> Res Q.
Variable extract_json : string -> Res JsonData.
Variable prepare_image : list byte -> Z -> Res (list byte).
Variable pil_image_size : list byte -> Res (Z * Z).

(** X26.  With [processing_mode = "local"] and [generate_mask] as the local
    model, every failure of the local model (package missing, model not
    loadable, upload not an image, inference failing) reaches the caller as
    one [ValueError], "Local processing failed: Local processing failed:
    Mask generation failed: <cause>"; [generate_mask] itself raises nothing
    but [InferenceError], so the [ModelLoadError] clause of
    [_run_local_segmentation] is never needed for it. *)
Theorem local_mode_reports_every_model_failure (image_bytes : list byte) (max_edge : Z)
    (log : Log) (g g' : Globals Session) (e : exn) :
  the_generate_mask image_bytes g = (Raise e, g') ->
  exists cause,
    e = InferenceError ("Mask generation failed: " ++ cause) /\
    _generate_with_fallback new_sdk legacy_sdk
      (fun _ bytes => fst (the_generate_mask bytes g))
      re_search_retry float_of_str extract_json prepare_image pil_image_size
      image_bytes max_edge "local" log
    = (Raise (ValueError
                ("Local processing failed: "
                 ++ ("Local processing failed: "
                     ++ ("Mask generation failed: " ++ cause)))%string),
       log ++ [CallLocalModel image_bytes]).
Proof.
  intros H. destruct (generate_mask_failure image_bytes g g' e H) as (cause & ->).
  exists cause. split; [reflexivity |].
  unfold _generate_with_fallback. cbn [String.eqb Ascii.eqb Bool.eqb andb].
  unfold try_except, bind, _run_local_segmentation, try_except, bind, call_local_model.
  rewrite H. reflexivity.
Qed.

End RmbgFacts.

Section RmbgExamples.

Import Base64 Scoring Provider Rmbg StubRmbg.
Local Open Scope string_scope.

(** A first call on a machine without GPU loads the CPU session; the second
    call returns it although the package has gone. *)
Lemma model_is_loaded_once_witness :
  _get_processor (list string) None
    (Raise (OtherException "ModuleNotFoundError" "No module named rembg"))
    "cuda" (fun _ => Raise (RuntimeError "no session"))
    (mkGlobals (list string) (Some ["CPUExecutionProvider"%string]) (Some "cpu"%string))
  = (Ok (["CPUExecutionProvider"%string], Some "cpu"%string),
     mkGlobals (list string) (Some ["CPUExecutionProvider"%string]) (Some "cpu"%string)).
Proof.
  apply (proj1 (model_is_loaded_once (list string) no_gpu (Ok tt) "auto" stub_new_session
                  nothing_loaded
                  (mkGlobals (list string) (Some ["CPUExecutionProvider"%string])
                     (Some "cpu"%string)))).
  reflexivity.
Defined.

(** CUDA asked for on a machine without GPU. *)
Lemma load_failure_is_reported_in_two_ways_witness :
  remove_background (list string) string no_gpu (Ok tt) "cuda" stub_new_session
    stub_remove stub_pil_open stub_img_size stub_save_png 12 [x89] true 240 10
    nothing_loaded
  = (Raise (ModelLoadError
              "Failed to load RMBG model: CUDA requested but not available"),
     nothing_loaded) /\
  generate_mask (list string) string no_gpu (Ok tt) "cuda" stub_new_session
    stub_remove stub_pil_open stub_convert stub_mode stub_alpha_band stub_save_png 12
    [x89] nothing_loaded
  = (Raise (InferenceError
              "Mask generation failed: Failed to load RMBG model: CUDA requested but not available"),
     nothing_loaded).
Proof.
  destruct (load_failure_is_reported_in_two_ways (list string) string no_gpu (Ok tt)
              "cuda" stub_new_session stub_remove stub_pil_open stub_convert stub_mode
              stub_img_size stub_alpha_band stub_save_png 12 [x89] true 240 10
              nothing_loaded nothing_loaded
              (ModelLoadError "Failed to load RMBG model: CUDA requested but not available")
              tt eq_refl eq_refl) as (A & B & _).
  split; [exact A | exact B].
Defined.

(** An upload that is not an image, in local mode. *)
Lemma local_mode_reports_every_model_failure_witness :
  exists cause,
    OtherException "x" "y" <> InferenceError cause /\
    _generate_with_fallback (fun _ _ => Ok "[]"%string) (fun _ _ => Ok "[]"%string)
      (fun _ bytes =>
         fst (generate_mask (list string) string no_gpu (Ok tt) "auto" stub_new_session
                stub_remove stub_pil_broken stub_convert stub_mode stub_alpha_band
                stub_save_png 12 bytes nothing_loaded))
      (fun _ => None) (fun _ => Ok 60%Q) (fun _ => Ok JScalar)
      (fun b _ => Ok b) (fun _ => Ok (1, 1))
      [x89] 2048 "local" []
    = (Raise (ValueError
                ("Local processing failed: "
                 ++ ("Local processing failed: "
                     ++ ("Mask generation failed: " ++ cause)))%string),
       ([] ++ [CallLocalModel [x89]])%list).
Proof.
  destruct (local_mode_reports_every_model_failure (list string) string no_gpu (Ok tt)
              "auto" stub_new_session stub_remove stub_pil_broken stub_convert stub_mode
              stub_img_size stub_alpha_band stub_save_png 12
              (fun _ _ => Ok "[]"%string) (fun _ _ => Ok "[]"%string)
              (fun _ => None) (fun _ => Ok 60%Q) (fun _ => Ok JScalar)
              (fun b _ => Ok b) (fun _ => Ok (1, 1))
              [x89] 2048 []
              nothing_loaded
              (mkGlobals (list string) (Some ["CPUExecutionProvider"%string])
                 (Some "cpu"%string))
              (InferenceError "Mask generation failed: cannot identify image file")
              eq_refl) as (cause & _ & H).
  exists cause. split; [discriminate | exact H].
Defined.

End RmbgExamples.

(** ** The image sent to the model *)

Section ModelImageFacts.

Import Scoring ModelImage.
Local Open Scope Q_scope.

Variable Img : Type.
Variable open_image_or_raise : list byte -> Res Img.
Variable convert_rgb : Img -> Img.
Variable img_size : Img -> Z * Z.
Variable resize : Img -> Z * Z -> Img.
Variable save_png : Img -> list byte.
Variable GEMINI_MAX_EDGE : Z.

Lemma py_int_floor_le (q : Q) (n : Z) : 0 <= q -> q <= inject_Z n -> (py_int q <= n)%Z.
Proof.
  intros H0 H1. unfold py_int. apply Qle_bool_iff in H0. rewrite H0.
  apply Qfloor_resp_le in H1. now rewrite Qfloor_Z in H1.
Qed.

(** One side of the new size. *)
Lemma scaled_side (side longest max_edge : Z) :
  (0 <= side <= longest)%Z -> (1 <= max_edge < longest)%Z ->
  (1 <= Z.max 1 (py_int (inject_Z side * (inject_Z max_edge / inject_Z longest)))
   <= max_edge)%Z /\
  (Z.max 1 (py_int (inject_Z side * (inject_Z max_edge / inject_Z longest)))
   <= Z.max 1 side)%Z.
Proof.
  intros [S0 S1] [E1 E2].
  assert (0 <= inject_Z side) as S0' by (rewrite Zle_Qle in S0; exact S0).
  assert (inject_Z side <= inject_Z longest) as S1' by (rewrite <- Zle_Qle; exact S1).
  assert (1 <= inject_Z max_edge) as E1' by (rewrite Zle_Qle in E1; exact E1).
  assert (inject_Z max_edge < inject_Z longest) as E2' by (rewrite <- Zlt_Qlt; exact E2).
  assert (0 < inject_Z max_edge / inject_Z longest) as R0
    by (apply Qlt_shift_div_l; lra).
  assert (inject_Z max_edge / inject_Z longest < 1) as R1
    by (apply Qlt_shift_div_r; lra).
  assert (inject_Z side * (inject_Z max_edge / inject_Z longest) <= inject_Z max_edge) as B.
  { assert (inject_Z max_edge / inject_Z longest * inject_Z longest == inject_Z max_edge)
      as K by (field; lra).
    set (t := inject_Z max_edge / inject_Z longest) in *. clearbody t. nra. }
  set (sc := inject_Z max_edge / inject_Z longest) in *. clearbody sc.
  assert (0 <= inject_Z side * sc) as P by nra.
  assert (inject_Z side * sc <= inject_Z side) as C by nra.
  pose proof (py_int_floor_le _ _ P B). pose proof (py_int_floor_le _ _ P C).
  lia.
Qed.

(** X27.  The image that [_prepare_image_for_model] encodes is the decoded
    upload, converted to RGB, either as it is or resized.  It is resized
    exactly when [max_edge] is positive and smaller than the longer side; the
    new width and height are then between 1 and [max_edge], and no side
    grows (a side of length 0 becomes 1). *)
Theorem model_image_fits_max_edge (image_bytes : list byte)
    (max_edge_override : option Z) (opened : Img) (width height : Z) :
  open_image_or_raise image_bytes = Ok opened ->
  img_size (convert_rgb opened) = (width, height) ->
  (0 <= width)%Z -> (0 <= height)%Z -> (1 <= Z.max width height)%Z ->
  let max_edge :=
    match max_edge_override with Some m => m | None => GEMINI_MAX_EDGE end in
  ((max_edge <= 0 \/ Z.max width height <= max_edge)%Z /\
   _prepare_image_for_model Img open_image_or_raise convert_rgb img_size resize save_png
     GEMINI_MAX_EDGE image_bytes max_edge_override
   = Ok (save_png (convert_rgb opened))) \/
  ((1 <= max_edge < Z.max width height)%Z /\
   exists new_width new_height,
     _prepare_image_for_model Img open_image_or_raise convert_rgb img_size resize save_png
       GEMINI_MAX_EDGE image_bytes max_edge_override
     = Ok (save_png (resize (convert_rgb opened) (new_width, new_height))) /\
     (1 <= new_width <= max_edge)%Z /\ (1 <= new_height <= max_edge)%Z /\
     (new_width <= Z.max 1 width)%Z /\ (new_height <= Z.max 1 height)%Z).
Proof.
  intros Hopen Hsize Hw Hh Hlong max_edge.
  unfold _prepare_image_for_model, image_for_model. rewrite Hopen. cbn [res_bind].
  fold max_edge. rewrite Hsize.
  destruct (Z.ltb_spec 0 max_edge) as [Pos | NonPos].
  2:{ left. split; [left; exact NonPos | reflexivity]. }
  destruct (Z.eqb_spec (Z.max width height) 0) as [Z0 | _]; [lia |].
  assert (1 <= inject_Z (Z.max width height)) as L1
    by (rewrite Zle_Qle in Hlong; exact Hlong).
  destruct (Qle_bool 1 (inject_Z max_edge / inject_Z (Z.max width height))) eqn:S;
    cbn [negb res_bind].
  - left. split; [| reflexivity]. right.
    apply Qle_bool_iff in S.
    apply (Qmult_le_compat_r _ _ (inject_Z (Z.max width height))) in S; [| lra].
    assert (inject_Z max_edge / inject_Z (Z.max width height) * inject_Z (Z.max width height)
            == inject_Z max_edge) as K by (field; lra).
    rewrite K in S. rewrite Qmult_1_l in S. now rewrite <- Zle_Qle in S.
  - right.
    assert (max_edge < Z.max width height)%Z as Lt.
    { destruct (Z_lt_le_dec max_edge (Z.max width height)) as [A | A]; [exact A |].
      exfalso. rewrite Zle_Qle in A.
      assert (1 <= inject_Z max_edge / inject_Z (Z.max width height)) as C
        by (apply Qle_shift_div_l; lra).
      apply Qle_bool_iff in C. congruence. }
    split; [lia |].
    destruct (scaled_side width (Z.max width height) max_edge) as [A1 A2]; [lia | lia |].
    destruct (scaled_side height (Z.max width height) max_edge) as [B1 B2]; [lia | lia |].
    do 2 eexists. split; [reflexivity |]. repeat split; lia.
Qed.

End ModelImageFacts.

Section ModelImageExamples.

Import Scoring ModelImage.
Local Open Scope Q_scope.

(** A 4000 x 3000 upload with the default edge of 2048 is resized. *)
Lemma model_image_fits_max_edge_witness :
  ((2048 <= 0 \/ Z.max 4000 3000 <= 2048)%Z /\
   _prepare_image_for_model (Z * Z) (fun _ => Ok (4000, 3000)%Z) (fun i => i) (fun i => i)
     (fun _ size => size) (fun _ => [x89]) 2048 [x89] None
   = Ok [x89]) \/
  ((1 <= 2048 < Z.max 4000 3000)%Z /\
   exists new_width new_height,
     _prepare_image_for_model (Z * Z) (fun _ => Ok (4000, 3000)%Z) (fun i => i)
       (fun i => i) (fun _ size => size) (fun _ => [x89]) 2048 [x89] None
     = Ok [x89] /\
     (1 <= new_width <= 2048)%Z /\ (1 <= new_height <= 2048)%Z /\
     (new_width <= Z.max 1 4000)%Z /\ (new_height <= Z.max 1 3000)%Z).
Proof.
  apply (model_image_fits_max_edge (Z * Z) (fun _ => Ok (4000, 3000)%Z) (fun i => i)
           (fun i => i) (fun _ size => size) (fun _ => [x89]) 2048 [x89] None
           (4000, 3000)%Z 4000 3000 eq_refl eq_refl); lia.
Defined.

End ModelImageExamples.

(** ** Request parameters *)

Section ViewsFacts.

Import Base64 Scoring Views.

Variable int_of_str : str -> option Z.

(** X28.  For [min_value <= max_value], what [_parse_int] returns lies
    between the two bounds, whatever the value sent and whatever the default;
    a value that [int()] rejects with [TypeError] or [ValueError] gives the
    default, clamped.  It raises for an infinite float only, the
    [OverflowError] of [int()] not being caught. *)
Theorem parse_int_is_clamped (value : FormValue) (default min_value max_value : Z) :
  min_value <= max_value ->
  match _parse_int int_of_str value default min_value max_value with
  | Ok n =>
      min_value <= n <= max_value /\
      (int_of_value int_of_str value = IntTypeError \/
       int_of_value int_of_str value = IntValueError ->
       n = Z.max min_value (Z.min max_value default))
  | Raise e =>
      (value = FFloat PosInf \/ value = FFloat NegInf) /\
      e = OverflowError "cannot convert float infinity to integer"
  end.
Proof.
  intros H. unfold _parse_int.
  destruct (int_of_value int_of_str value) eqn:E.
  - split; [lia |]. intros [C | C]; discriminate C.
  - split; [lia | reflexivity].
  - split; [lia | reflexivity].
  - split; [| reflexivity].
    destruct value as [| b | n | [q | | |] | s |]; cbn in E; try discriminate E.
    + now left.
    + now right.
    + destruct (int_of_str s); discriminate E.
Qed.

End ViewsFacts.

Section ViewsExamples.

Import Base64 Scoring Views.

(** The threshold of the segment view: a text that is no number gives the
    default 128, a number out of range the nearest bound. *)
Lemma parse_int_is_clamped_witness :
  _parse_int (fun _ => None) (FStr (lit "high")) 128 0 255 = Ok 128 /\
  _parse_int (fun _ => None) (FInt 900) 128 0 255 = Ok 255.
Proof.
  pose proof (parse_int_is_clamped (fun _ => None) (FStr (lit "high")) 128 0 255
                ltac:(lia)) as H.
  split; [| reflexivity].
  destruct (_parse_int (fun _ => None) (FStr (lit "high")) 128 0 255) as [n | e] eqn:E.
  - destruct H as [_ H]. rewrite H; [reflexivity | now right].
  - exfalso. destruct H as [[C | C] _]; discriminate C.
Defined.

End ViewsExamples.
